(** * Chatapp: the real-time messaging core of [Backend/app.js]

    A shallow embedding of the socket handlers and of the message routes of
    [Backend/app.js].  The repository carries two revisions of that file:

    - the first one (lines 1-238) keeps the claimed label on the socket object
      ([socket.username]) and has the handlers [setUsername], [sendMessage],
      [markAsRead] and [disconnect];
    - the second one (lines 239-480) keeps the module-level [onlineUsers] map
      and has the handlers [setUsername] and [disconnect].

    Both revisions share the message schema and the two [/messages] routes.

    Every handler is an [async] function.  It is embedded as a computation in
    a state-and-exception monad over a [World]: the two MongoDB collections,
    the live sockets, the [onlineUsers] map, the server clock and the ordered
    trace of observable effects (database operations, emitted events, console
    lines).  A handler is run to completion: the interleaving of two handlers
    at an [await] is not part of this model.  Whether a database operation is
    accepted is not decided by the program; the world carries the outcome of
    each coming operation. *)

From Stdlib Require Import List Ascii String ZArith Bool Arith Lia.
From Stdlib Require Import Permutation Sorted.
Import ListNotations.
Open Scope string_scope.
Open Scope list_scope.

Set Implicit Arguments.

(** ** JavaScript values of the payloads *)

(** A payload field is a string or is missing ([undefined]). *)
Definition JsString := option string.

(** [!!v]: a missing field and the empty string are falsy. *)
Definition truthy (v : JsString) : bool :=
  match v with
  | None => false
  | Some s => negb (s =? "")
  end.

(** [a === b] on fields that are a string or [undefined]. *)
Definition strict_eq (a b : JsString) : bool :=
  match a, b with
  | Some x, Some y => x =? y
  | None, None => true
  | _, _ => false
  end.

(** ** Data model *)

Definition SocketId := string.
Definition ObjectId := nat.
Definition Date := Z.

(** [messageSchema] (lines 30-37 and 281-288).  A document in memory may lack
    any of the three string fields; [sender] is [required], which the schema
    checks when the document is saved, [receiver] and [content] are not. *)
Record Message := mkMessage {
  _id : ObjectId;
  sender : JsString;
  receiver : JsString;
  content : JsString;
  timestamp : Date;
  isDelivered : bool;
  isRead : bool
}.

(** What is handed to [Message.create] or [new Message]: any field may be
    missing, the schema fills in the defaults. *)
Record MessageDoc := mkMessageDoc {
  doc_sender : JsString;
  doc_receiver : JsString;
  doc_content : JsString;
  doc_timestamp : option Date;
  doc_isDelivered : option bool;
  doc_isRead : option bool
}.

(** [userSchema] (lines 270-276), the fields the socket handlers touch. *)
Record User := mkUser {
  username : string;
  status : string
}.

(** A live socket of [io.sockets.sockets]; [sock_username] is the property
    [socket.username] of the first revision, [undefined] until it is set. *)
Record Socket := mkSocket {
  sock_id : SocketId;
  sock_username : JsString
}.

(** The payload of a [sendMessage] event.  The handler reads [sender],
    [receiver] and [content]; a [timestamp] sent by the client is never
    read. *)
Record SendPayload := mkSendPayload {
  p_sender : JsString;
  p_receiver : JsString;
  p_content : JsString;
  p_timestamp : option Date
}.

(** Events pushed to the clients. *)
Inductive OutEvent :=
| receiveMessage (formattedMessage : Message)
| updateMessageStatus (id : ObjectId) (read : bool)
| onlineUsersEvent (labels : list string).

(** Exceptions: [new Error(msg)] of the program, a validation error of the
    schema, a rejected database operation. *)
Inductive Exn :=
| JsError (msg : string)
| ValidationError (path : string)
| MongoError.

(** A parameter of [req.query] as express's query parser hands it over: a
    string ([?sender=alice]), an array of strings when the parameter is
    repeated ([?sender=alice&sender=carol]), or an object when the bracket
    syntax is used; of those objects the one with the single key [$ne]
    ([?sender[$ne]=alice]) is modelled. *)
Inductive QueryValue :=
| q_string (s : string)
| q_array (items : list string)
| q_ne (s : string).

Inductive DbOp :=
| MessageInsert (m : Message)
| MessageUpdate (m : Message)
| MessageExists (id : ObjectId)
| MessageFindById (id : ObjectId)
| MessageFind (by_sender by_receiver : option QueryValue)
| UserFindOneAndUpdate (name new_status : string).

(** The observable effects, in the order they happen. *)
Inductive Effect :=
| Mongo (op : DbOp) (accepted : bool)
| Emit (to : SocketId) (ev : OutEvent)
| ConsoleLog (line : string)
| ConsoleError (prefix : string) (err : Exn).

(** ** The [Map] of JavaScript, keyed by socket identifier

    A [Map] iterates in insertion order and [set] on a present key keeps the
    key's place, so the map is a list of entries. *)
Module JsMap.

Definition t := list (SocketId * string).

Definition empty : t := [].

Fixpoint get (k : SocketId) (m : t) : option string :=
  match m with
  | [] => None
  | (k', v) :: rest => if k' =? k then Some v else get k rest
  end.

Fixpoint set (k : SocketId) (v : string) (m : t) : t :=
  match m with
  | [] => [(k, v)]
  | (k', v') :: rest =>
      if k' =? k then (k, v) :: rest else (k', v') :: set k v rest
  end.

(** [m.delete(k)]: no entry of [k] is left. *)
Definition delete (k : SocketId) (m : t) : t :=
  filter (fun e => negb (fst e =? k)) m.

Definition keys (m : t) : list SocketId := map fst m.

(** [Array.from(m.values())] *)
Definition values (m : t) : list string := map snd m.

End JsMap.

(** ** The world *)

Record World := mkWorld {
  messages : list Message;        (* the Message collection, oldest first *)
  users : list User;              (* the User collection *)
  nextId : ObjectId;              (* the next fresh ObjectId *)
  now : Date;                     (* the server clock *)
  sockets : list Socket;          (* io.sockets.sockets, in connection order *)
  onlineUsers : JsMap.t;          (* the module-level map of revision 2 *)
  effects : list Effect;          (* the trace so far, oldest first *)
  dbOutcomes : list bool          (* fate of the coming database operations:
                                     [false] rejects one; past the end of the
                                     list every operation is accepted *)
}.

Definition set_messages (ms : list Message) (w : World) : World :=
  mkWorld ms (users w) (nextId w) (now w) (sockets w) (onlineUsers w)
          (effects w) (dbOutcomes w).

Definition set_users (us : list User) (w : World) : World :=
  mkWorld (messages w) us (nextId w) (now w) (sockets w) (onlineUsers w)
          (effects w) (dbOutcomes w).

Definition set_nextId (n : ObjectId) (w : World) : World :=
  mkWorld (messages w) (users w) n (now w) (sockets w) (onlineUsers w)
          (effects w) (dbOutcomes w).

Definition set_sockets (ss : list Socket) (w : World) : World :=
  mkWorld (messages w) (users w) (nextId w) (now w) ss (onlineUsers w)
          (effects w) (dbOutcomes w).

Definition set_onlineUsers (m : JsMap.t) (w : World) : World :=
  mkWorld (messages w) (users w) (nextId w) (now w) (sockets w) m
          (effects w) (dbOutcomes w).

Definition set_effects (es : list Effect) (w : World) : World :=
  mkWorld (messages w) (users w) (nextId w) (now w) (sockets w)
          (onlineUsers w) es (dbOutcomes w).

Definition set_dbOutcomes (os : list bool) (w : World) : World :=
  mkWorld (messages w) (users w) (nextId w) (now w) (sockets w)
          (onlineUsers w) (effects w) os.

(** ** The monad of the handlers *)

Inductive Outcome (A : Type) :=
| Return (a : A)
| Throw (e : Exn).
Arguments Return {A} a.
Arguments Throw {A} e.

Definition Async (A : Type) := World -> Outcome A * World.

Definition ret {A} (a : A) : Async A := fun w => (Return a, w).

Definition throw {A} (e : Exn) : Async A := fun w => (Throw e, w).

Definition bind {A B} (c : Async A) (k : A -> Async B) : Async B :=
  fun w =>
    match c w with
    | (Return a, w') => k a w'
    | (Throw e, w') => (Throw e, w')
    end.

(** [try { body } catch (err) { handler }] *)
Definition try_catch {A} (body : Async A) (handler : Exn -> Async A)
  : Async A :=
  fun w =>
    match body w with
    | (Return a, w') => (Return a, w')
    | (Throw e, w') => handler e w'
    end.

Declare Scope async_scope.
Delimit Scope async_scope with async.
Notation "x <- c ;; k" := (bind c (fun x => k))
  (at level 61, c at next level, right associativity) : async_scope.
Notation "c ;; k" := (bind c (fun _ => k))
  (at level 61, right associativity) : async_scope.
Open Scope async_scope.

(** The world a computation ends in, and its result. *)
Definition exec {A} (c : Async A) (w : World) : World := snd (c w).
Definition result {A} (c : Async A) (w : World) : Outcome A := fst (c w).

(** ** Primitive effects *)

Definition record (e : list Effect) (w : World) : World :=
  set_effects (effects w ++ e) w.

Definition console_log (line : string) : Async unit :=
  fun w => (Return tt, record [ConsoleLog line] w).

Definition console_error (prefix : string) (err : Exn) : Async unit :=
  fun w => (Return tt, record [ConsoleError prefix err] w).

(** [s.emit(ev)] on one socket. *)
Definition socket_emit (s : Socket) (ev : OutEvent) : Async unit :=
  fun w => (Return tt, record [Emit (sock_id s) ev] w).

(** [io.emit(ev)]: one emission per live socket, in connection order. *)
Definition io_emit (ev : OutEvent) : Async unit :=
  fun w => (Return tt,
            record (map (fun s => Emit (sock_id s) ev) (sockets w)) w).

(** [Array.from(io.sockets.sockets.values())] *)
Definition io_sockets : Async (list Socket) := fun w => (Return (sockets w), w).

(** [new Date()] and [Date.now] *)
Definition new_Date : Async Date := fun w => (Return (now w), w).

(** One round trip to MongoDB: the next outcome of the world is consumed; a
    rejected operation leaves the collections as they are and throws, an
    accepted one applies [action]. *)
Definition mongo {A} (op : DbOp) (action : World -> A * World) : Async A :=
  fun w =>
    let w1 := set_dbOutcomes (tl (dbOutcomes w)) w in
    if hd true (dbOutcomes w)
    then let (a, w') := action w1 in (Return a, record [Mongo op true] w')
    else (Throw MongoError, record [Mongo op false] w1).

(** The database accepts the next [n] operations. *)
Definition db_accepts (n : nat) (w : World) : bool :=
  forallb (fun b => b) (firstn n (dbOutcomes w)).

(** ** The Mongoose models *)

Definition or_default {A} (d : A) (o : option A) : A :=
  match o with
  | Some a => a
  | None => d
  end.

(** [new Message(doc)]: a fresh [_id], and the defaults of the schema for the
    fields that are missing ([timestamp: Date.now], [isDelivered: false],
    [isRead: false]). *)
Definition new_Message (d : MessageDoc) : Async Message :=
  fun w =>
    (Return {| _id := nextId w;
               sender := doc_sender d;
               receiver := doc_receiver d;
               content := doc_content d;
               timestamp := or_default (now w) (doc_timestamp d);
               isDelivered := or_default false (doc_isDelivered d);
               isRead := or_default false (doc_isRead d) |},
     set_nextId (S (nextId w)) w).

(** The validation run by [save]: [sender] is [required], and for a string
    that means present and not empty. *)
Definition validate (m : Message) : Async unit :=
  if truthy (sender m) then ret tt else throw (ValidationError "sender").

Fixpoint replace_first (m : Message) (ms : list Message) : list Message :=
  match ms with
  | [] => []
  | x :: rest =>
      if (_id x =? _id m)%nat then m :: rest else x :: replace_first m rest
  end.

(** What Mongoose knows of a document when [save] is called on it: it was
    made by [new Message] ([isNew]), or it was fetched and a path has been
    modified since, or it was fetched and no path has been modified. *)
Inductive DocState :=
| fresh_document
| modified_document
| unmodified_document.

(** [doc.save()]: validation, then an insert for a document made by
    [new Message], an update of the stored document with the same [_id] for
    a fetched one with a modified path, and for a fetched one without a
    modified path no write at all, only a lookup that the document still
    exists. *)
Definition Message_save (state : DocState) (m : Message) : Async Message :=
  validate m ;;
  match state with
  | fresh_document =>
      mongo (MessageInsert m)
            (fun w => (m, set_messages (messages w ++ [m]) w))
  | modified_document =>
      mongo (MessageUpdate m)
            (fun w => (m, set_messages (replace_first m (messages w)) w))
  | unmodified_document =>
      mongo (MessageExists (_id m)) (fun w => (m, w))
  end.

(** [Message.create(doc)] *)
Definition Message_create (d : MessageDoc) : Async Message :=
  m <- new_Message d ;;
  Message_save fresh_document m.

(** [Message.findById(id)] *)
Definition Message_findById (id : ObjectId) : Async (option Message) :=
  mongo (MessageFindById id)
        (fun w => (find (fun m => (_id m =? id)%nat) (messages w), w)).

(** What a value of the filter asks of a field: a string asks for that
    string, an array is cast by Mongoose to [$in] and asks for one of its
    strings, the object [{ $ne: s }] asks for anything but [s]. *)
Definition satisfies (v : QueryValue) (field : JsString) : bool :=
  match v with
  | q_string s => strict_eq field (Some s)
  | q_array items => existsb (fun s => strict_eq field (Some s)) items
  | q_ne s => negb (strict_eq field (Some s))
  end.

(** A filter object with the keys [sender] and [receiver], each possibly
    absent: a document matches when it satisfies every key present. *)
Definition matches (f_sender f_receiver : option QueryValue) (m : Message)
  : bool :=
  match f_sender with
  | None => true
  | Some v => satisfies v (sender m)
  end
  &&
  match f_receiver with
  | None => true
  | Some v => satisfies v (receiver m)
  end.

(** [.sort({ timestamp: -1 })]: newest first. *)
Fixpoint insert_desc (m : Message) (sorted : list Message) : list Message :=
  match sorted with
  | [] => [m]
  | x :: rest =>
      if (timestamp x <=? timestamp m)%Z
      then m :: x :: rest
      else x :: insert_desc m rest
  end.

Fixpoint sort_desc (ms : list Message) : list Message :=
  match ms with
  | [] => []
  | m :: rest => insert_desc m (sort_desc rest)
  end.

(** [Message.find(filter).sort({ timestamp: -1 })] *)
Definition Message_find_sorted (f_sender f_receiver : option QueryValue)
  : Async (list Message) :=
  mongo (MessageFind f_sender f_receiver)
        (fun w => (sort_desc (filter (matches f_sender f_receiver)
                                     (messages w)), w)).

Fixpoint update_status (name new_status : string) (us : list User)
  : list User :=
  match us with
  | [] => []
  | u :: rest =>
      if username u =? name
      then mkUser (username u) new_status :: rest
      else u :: update_status name new_status rest
  end.

(** [User.findOneAndUpdate({ username }, { status })]: the first user with
    that name gets the status; without such a user nothing is written. *)
Definition User_findOneAndUpdate (name new_status : string) : Async unit :=
  mongo (UserFindOneAndUpdate name new_status)
        (fun w => (tt, set_users (update_status name new_status (users w)) w)).

(** ** The message routes (lines 129-161 and 331-363) *)

Inductive Body :=
| json_messages (ms : list Message)
| json_message (m : Message)
| json_error (msg : string).

Record Response := mkResponse {
  res_status : nat;
  res_body : Body
}.

(** [!!v] for a parameter of the query: a missing parameter and the empty
    string are falsy, an array and an object are truthy. *)
Definition truthy_query (v : option QueryValue) : bool :=
  match v with
  | None => false
  | Some (q_string s) => negb (s =? "")
  | Some (q_array _) | Some (q_ne _) => true
  end.

(** [app.get("/messages", ...)] with [req.query.sender] and
    [req.query.receiver] as the query parser left them: a truthy parameter
    goes into the filter unchanged. *)
Definition get_messages_parsed (q_sender q_receiver : option QueryValue)
  : Async Response :=
  try_catch
    (let f_sender := if truthy_query q_sender then q_sender else None in
     let f_receiver := if truthy_query q_receiver then q_receiver else None in
     found <- Message_find_sorted f_sender f_receiver ;;
     ret (mkResponse 200 (json_messages found)))
    (fun err =>
       console_error "Error fetching messages:" err ;;
       ret (mkResponse 500 (json_error "Failed to fetch messages"))).

(** The route on parameters that are plain strings or missing. *)
Definition get_messages (q_sender q_receiver : JsString) : Async Response :=
  get_messages_parsed (option_map q_string q_sender)
                      (option_map q_string q_receiver).

(** [app.post("/messages", ...)] with the three fields of [req.body]. *)
Definition post_messages (b_sender b_receiver b_content : JsString)
  : Async Response :=
  try_catch
    (newMessage <- new_Message
                     {| doc_sender := b_sender;
                        doc_receiver := b_receiver;
                        doc_content := b_content;
                        doc_timestamp := None;
                        doc_isDelivered := Some true;
                        doc_isRead := Some false |} ;;
     saved <- Message_save fresh_document newMessage ;;
     ret (mkResponse 201 (json_message saved)))
    (fun error =>
       console_error "Error saving message:" error ;;
       ret (mkResponse 500 (json_error "Failed to save message"))).

(** ** The transport (socket.io)

    A socket enters [io.sockets.sockets] before the [connection] callback
    runs and has left it when its [disconnect] listeners run. *)

Definition transport_open (socket : SocketId) : Async unit :=
  fun w => (Return tt, set_sockets (sockets w ++ [mkSocket socket None]) w).

Definition transport_close (socket : SocketId) : Async unit :=
  fun w =>
    (Return tt,
     set_sockets (filter (fun s => negb (sock_id s =? socket)) (sockets w)) w).

(** What a computation adds to the trace of the world it starts in. *)
Definition trace_of {A} (c : Async A) (w : World) : list Effect :=
  skipn (List.length (effects w)) (effects (exec c w)).

(** ** First revision: the socket handlers of lines 60-126 *)
Module Rev1.

Definition connection (socket : SocketId) : Async unit :=
  console_log ("User connected: " ++ socket)%string.

(** [socket.username = username] on the socket object of the handler. *)
Definition assign_username (socket : SocketId) (name : string) : Async unit :=
  fun w =>
    (Return tt,
     set_sockets
       (map (fun s => if sock_id s =? socket
                      then mkSocket (sock_id s) (Some name)
                      else s)
            (sockets w)) w).

Definition setUsername (socket : SocketId) (name : string) : Async unit :=
  assign_username socket name ;;
  console_log ("Socket " ++ socket ++ " set as " ++ name)%string.

Definition sendMessage (socket : SocketId) (message : SendPayload)
  : Async unit :=
  try_catch
    ((if negb (truthy (p_sender message)) || negb (truthy (p_content message))
      then throw (JsError "Invalid message payload")
      else ret tt) ;;
     date <- new_Date ;;
     savedMessage <- Message_create
                       {| doc_sender := p_sender message;
                          doc_receiver := if truthy (p_receiver message)
                                          then p_receiver message
                                          else None;
                          doc_content := p_content message;
                          doc_timestamp := Some date;
                          doc_isDelivered := Some true;
                          doc_isRead := None |} ;;
     let formattedMessage :=
       {| _id := _id savedMessage;
          sender := sender savedMessage;
          receiver := receiver savedMessage;
          content := content savedMessage;
          timestamp := timestamp savedMessage;
          isDelivered := isDelivered savedMessage;
          isRead := isRead savedMessage |} in
     if truthy (p_receiver message)
     then
       live <- io_sockets ;;
       match find (fun s => strict_eq (sock_username s) (p_receiver message))
                  live with
       | Some receiverSocket =>
           socket_emit receiverSocket (receiveMessage formattedMessage)
       | None => ret tt
       end
     else io_emit (receiveMessage formattedMessage))
    (fun err => console_error "Error saving message:" err).

Definition markAsRead (socket : SocketId) (messageId : ObjectId)
  : Async unit :=
  try_catch
    (found <- Message_findById messageId ;;
     match found with
     | Some message =>
         (* [message.isRead = true] marks the path modified only when it
            changes the value *)
         let state := if isRead message
                      then unmodified_document else modified_document in
         let message :=
           {| _id := _id message;
              sender := sender message;
              receiver := receiver message;
              content := content message;
              timestamp := timestamp message;
              isDelivered := isDelivered message;
              isRead := true |} in
         Message_save state message ;;
         io_emit (updateMessageStatus (_id message) (isRead message))
     | None => ret tt
     end)
    (fun err => console_error "Error marking message as read:" err).

Definition disconnect (socket : SocketId) : Async unit :=
  console_log ("User disconnected: " ++ socket)%string.

End Rev1.

(** ** Second revision: the socket handlers of lines 306-328 *)
Module Rev2.

Definition connection (socket : SocketId) : Async unit :=
  console_log ("User connected: " ++ socket)%string.

(** [onlineUsers.set(socket.id, username)] *)
Definition onlineUsers_set (socket : SocketId) (name : string) : Async unit :=
  fun w =>
    (Return tt, set_onlineUsers (JsMap.set socket name (onlineUsers w)) w).

(** [onlineUsers.get(socket.id)] *)
Definition onlineUsers_get (socket : SocketId) : Async (option string) :=
  fun w => (Return (JsMap.get socket (onlineUsers w)), w).

(** [onlineUsers.delete(socket.id)] *)
Definition onlineUsers_delete (socket : SocketId) : Async unit :=
  fun w =>
    (Return tt, set_onlineUsers (JsMap.delete socket (onlineUsers w)) w).

(** [Array.from(onlineUsers.values())] *)
Definition onlineUsers_values : Async (list string) :=
  fun w => (Return (JsMap.values (onlineUsers w)), w).

(** No [try] around the body: a rejected update leaves the handler as an
    exception. *)
Definition setUsername (socket : SocketId) (name : string) : Async unit :=
  onlineUsers_set socket name ;;
  User_findOneAndUpdate name "online" ;;
  labels <- onlineUsers_values ;;
  io_emit (onlineUsersEvent labels) ;;
  console_log ("Socket " ++ socket ++ " set as " ++ name)%string.

Definition disconnect (socket : SocketId) : Async unit :=
  claimed <- onlineUsers_get socket ;;
  (if truthy claimed
   then
     User_findOneAndUpdate (or_default "" claimed) "offline" ;;
     onlineUsers_delete socket ;;
     labels <- onlineUsers_values ;;
     io_emit (onlineUsersEvent labels)
   else ret tt) ;;
  console_log ("User disconnected: " ++ socket)%string.

(** [router.get("/online-users", ...)] *)
Definition get_online_users : Async (list string) := onlineUsers_values.

(** The events of a connection, as the transport delivers them. *)
Inductive Event :=
| opened (socket : SocketId)
| declared (socket : SocketId) (name : string)
| closed (socket : SocketId).

Definition handle (e : Event) : Async unit :=
  match e with
  | opened socket => transport_open socket ;; connection socket
  | declared socket name => setUsername socket name
  | closed socket => transport_close socket ;; disconnect socket
  end.

(** The events are handled one after the other; an exception that leaves a
    handler does not undo what the handler did before it. *)
Fixpoint run (es : list Event) (w : World) : World :=
  match es with
  | [] => w
  | e :: rest => run rest (exec (handle e) w)
  end.

End Rev2.

(** ** Request/response routes of the second revision (lines 293-304 and
    378-465)

    The routes below answer with a status and a JSON body.  bcrypt and
    jsonwebtoken are libraries: the routes are embedded over their interface
    [Libs]. *)

#[local] Set Warnings "-register-all".

Inductive Json :=
| JStr (s : string)
| JNum (n : nat)
| JErr (e : Exn)                          (* [error.message] of an exception *)
| JObj (fields : list (string * Json))
| JArr (items : list Json).

Record Reply := mkReply {
  reply_status : nat;
  reply_body : Json
}.

(** [s.split(sep)] for a separator of one character. *)
Fixpoint split_on (sep : Ascii.ascii) (s : string) : list string :=
  match s with
  | EmptyString => [""]
  | String c rest =>
      if Ascii.eqb c sep
      then "" :: split_on sep rest
      else match split_on sep rest with
           | piece :: pieces => String c piece :: pieces
           | [] => [String c ""]
           end
  end.

(** [pieces.join(sep)] *)
Fixpoint join_with (sep : Ascii.ascii) (pieces : list string) : string :=
  match pieces with
  | [] => ""
  | [piece] => piece
  | piece :: rest => (piece ++ String sep (join_with sep rest))%string
  end.

(** [req.file] as multer leaves it. *)
Record UploadedFile := mkUploadedFile {
  file_filename : string;
  file_mimetype : string;
  file_path : string
}.

(** [app.post("/upload", upload.single("file"), ...)] (lines 164-173 and
    378-385) with [req.file], [req.protocol] and [req.get("host")]. *)
Definition post_upload (file : option UploadedFile) (protocol host : string)
  : Reply :=
  match file with
  | None => mkReply 400 (JObj [("error", JStr "File upload failed")])
  | Some f =>
      let fileType := hd "" (split_on "/"%char (file_mimetype f)) in
      let fileUrl :=
        (protocol ++ "://" ++ host ++ "/uploads/" ++ file_filename f)%string in
      mkReply 200 (JObj [("url", JStr fileUrl); ("type", JStr fileType)])
  end.

(** What a token decodes to: the payload [login] signs. *)
Record Claims := mkClaims {
  claim_id : ObjectId;
  claim_username : string
}.

(** The interface of bcrypt and jsonwebtoken, the secret being fixed:
    [bcrypt.hash] draws a salt, [jwt.sign] and [jwt.verify] read the clock,
    [jwt.verify] throws on a token it does not accept. *)
Record Libs := mkLibs {
  bcrypt_hash : nat -> string -> string;
  bcrypt_compare : string -> string -> bool;
  jwt_sign : Claims -> Date -> string;
  jwt_verify : string -> Date -> option Claims
}.

Module Accounts.

(** A document of [userSchema] (lines 270-276). *)
Record Account := mkAccount {
  acc_id : ObjectId;
  acc_username : string;
  acc_password : string;
  acc_status : string;
  acc_mobileNumber : string;
  acc_profileImage : string
}.

Record Db := mkDb {
  accounts : list Account;        (* the User collection, oldest first *)
  fresh : ObjectId;               (* the next fresh ObjectId *)
  clock : Date;                   (* the server clock *)
  salts : list nat;               (* the salts bcrypt will draw *)
  answers : list bool             (* fate of the coming database operations,
                                     as [dbOutcomes] *)
}.

Definition Route (A : Type) := Db -> Outcome A * Db.

Definition rret {A} (a : A) : Route A := fun d => (Return a, d).

Definition rthrow {A} (e : Exn) : Route A := fun d => (Throw e, d).

Definition rbind {A B} (c : Route A) (k : A -> Route B) : Route B :=
  fun d =>
    match c d with
    | (Return a, d') => k a d'
    | (Throw e, d') => (Throw e, d')
    end.

Definition rtry {A} (body : Route A) (handler : Exn -> Route A) : Route A :=
  fun d =>
    match body d with
    | (Return a, d') => (Return a, d')
    | (Throw e, d') => handler e d'
    end.

Declare Scope route_scope.
Notation "x <- c ;; k" := (rbind c (fun x => k))
  (at level 61, c at next level, right associativity) : route_scope.
Notation "c ;; k" := (rbind c (fun _ => k))
  (at level 61, right associativity) : route_scope.
Local Open Scope route_scope.

(** The reply and the store a route ends with. *)
Definition reply_of (c : Route Reply) (d : Db) : Outcome Reply := fst (c d).
Definition db_after {A} (c : Route A) (d : Db) : Db := snd (c d).

(** One round trip to MongoDB on the User collection: the next answer is
    consumed; a rejected operation throws and changes nothing, an accepted
    one runs [action], which may itself fail on the unique index. *)
Definition query {A} (action : Db -> Outcome A * list Account) : Route A :=
  fun d =>
    let d1 := mkDb (accounts d) (fresh d) (clock d) (salts d)
                   (tl (answers d)) in
    if hd true (answers d)
    then let (o, accs) := action d1 in
         (o, mkDb accs (fresh d1) (clock d1) (salts d1) (answers d1))
    else (Throw MongoError, d1).

(** [User.findOne({ username })] *)
Definition User_findOne (name : string) : Route (option Account) :=
  query (fun d => (Return (find (fun a => acc_username a =? name)
                                (accounts d)),
                   accounts d)).

(** [bcrypt.hash(password, 10)]: the next salt is drawn. *)
Definition hash_password (L : Libs) (password : string) : Route string :=
  fun d =>
    (Return (bcrypt_hash L (hd 0 (salts d)) password),
     mkDb (accounts d) (fresh d) (clock d) (tl (salts d)) (answers d)).

(** [new User({ username, password })] with the defaults of the schema. *)
Definition new_User (name password : string) : Route Account :=
  fun d =>
    (Return (mkAccount (fresh d) name password "offline" "" ""),
     mkDb (accounts d) (S (fresh d)) (clock d) (salts d) (answers d)).

(** [username] is declared [unique]: the index refuses a second document
    with the name of another one. *)
Definition name_taken_by_other (a : Account) (accs : list Account) : bool :=
  existsb (fun b => (acc_username b =? acc_username a)
                    && negb (acc_id b =? acc_id a)%nat) accs.

(** [newUser.save()]: [username] and [password] are [required], then the
    insert. *)
Definition User_save (a : Account) : Route unit :=
  (if negb (acc_username a =? "")
   then rret tt else rthrow (ValidationError "username")) ;;
  (if negb (acc_password a =? "")
   then rret tt else rthrow (ValidationError "password")) ;;
  query (fun d =>
           if name_taken_by_other a (accounts d)
           then (Throw MongoError, accounts d)
           else (Return tt, accounts d ++ [a])).

(** [User.find()] *)
Definition User_find : Route (list Account) :=
  query (fun d => (Return (accounts d), accounts d)).

(** The object built for [findByIdAndUpdate]: a key is present only when the
    field of the request is truthy. *)
Record UpdateData := mkUpdateData {
  upd_username : option string;
  upd_status : option string;
  upd_mobileNumber : option string;
  upd_profileImage : option string
}.

Definition apply_update (u : UpdateData) (a : Account) : Account :=
  mkAccount (acc_id a)
            (or_default (acc_username a) (upd_username u))
            (acc_password a)
            (or_default (acc_status a) (upd_status u))
            (or_default (acc_mobileNumber a) (upd_mobileNumber u))
            (or_default (acc_profileImage a) (upd_profileImage u)).

Fixpoint replace_account (a : Account) (accs : list Account) : list Account :=
  match accs with
  | [] => []
  | x :: rest =>
      if (acc_id x =? acc_id a)%nat then a :: rest
      else x :: replace_account a rest
  end.

(** [User.findByIdAndUpdate(id, data, { new: true, runValidators: true })]:
    the updated document, or nothing when no document has the identifier. *)
Definition User_findByIdAndUpdate (id : ObjectId) (u : UpdateData)
  : Route (option Account) :=
  query (fun d =>
           match find (fun a => (acc_id a =? id)%nat) (accounts d) with
           | None => (Return None, accounts d)
           | Some a =>
               let a' := apply_update u a in
               if name_taken_by_other a' (accounts d)
               then (Throw MongoError, accounts d)
               else (Return (Some a'), replace_account a' (accounts d))
           end).

(** A document as JSON, and the same after [.select("-password")]. *)
Definition account_json (a : Account) : Json :=
  JObj [("_id", JNum (acc_id a));
        ("username", JStr (acc_username a));
        ("password", JStr (acc_password a));
        ("status", JStr (acc_status a));
        ("mobileNumber", JStr (acc_mobileNumber a));
        ("profileImage", JStr (acc_profileImage a))].

Definition account_json_without_password (a : Account) : Json :=
  JObj [("_id", JNum (acc_id a));
        ("username", JStr (acc_username a));
        ("status", JStr (acc_status a));
        ("mobileNumber", JStr (acc_mobileNumber a));
        ("profileImage", JStr (acc_profileImage a))].

Definition message_json (msg : string) : Json := JObj [("message", JStr msg)].

Definition failure_json (msg : string) (e : Exn) : Json :=
  JObj [("message", JStr msg); ("error", JErr e)].

(** [router.post("/signup", ...)] (lines 419-434) *)
Definition signup (L : Libs) (name password : string) : Route Reply :=
  rtry
    (existingUser <- User_findOne name ;;
     match existingUser with
     | Some _ => rret (mkReply 400 (message_json "Username already taken."))
     | None =>
         hashedPassword <- hash_password L password ;;
         newUser <- new_User name hashedPassword ;;
         User_save newUser ;;
         rret (mkReply 201 (message_json "Signup successful!"))
     end)
    (fun error => rret (mkReply 500 (failure_json "Signup failed" error))).

(** [router.post("/login", ...)] (lines 437-455) *)
Definition login (L : Libs) (name password : string) : Route Reply :=
  rtry
    (user <- User_findOne name ;;
     match user with
     | None => rret (mkReply 404 (message_json "User not found."))
     | Some user =>
         if bcrypt_compare L password (acc_password user)
         then fun d =>
                let token :=
                  jwt_sign L (mkClaims (acc_id user) (acc_username user))
                           (clock d) in
                (Return (mkReply 200
                           (JObj [("message", JStr "Login successful!");
                                  ("token", JStr token)])), d)
         else rret (mkReply 401 (message_json "Invalid credentials."))
     end)
    (fun error => rret (mkReply 500 (failure_json "Login failed" error))).

(** [router.get("/users", ...)] (lines 458-465) *)
Definition get_users : Route Reply :=
  rtry
    (found <- User_find ;;
     rret (mkReply 200 (JArr (map account_json found))))
    (fun error =>
       rret (mkReply 500 (failure_json "Failed to fetch users" error))).

(** The middleware [authenticate] (lines 293-304) in front of a route:
    [next] is the rest of the chain, which works asynchronously and hands no
    exception back. *)
Definition authenticate (L : Libs) (authorization : JsString)
           (next : Claims -> Route Reply) : Route Reply :=
  let token :=
    match authorization with
    | None => None
    | Some header => nth_error (split_on " "%char header) 1
    end in
  if negb (truthy token)
  then rret (mkReply 401 (message_json "Token not provided"))
  else fun d =>
         match jwt_verify L (or_default "" token) (clock d) with
         | Some decoded => next decoded d
         | None =>
             (Return (mkReply 401 (message_json "Invalid or expired token")),
              d)
         end.

(** A truthy field of the body becomes a key of the update. *)
Definition when_truthy (v : JsString) : option string :=
  if truthy v then v else None.

(** The handler of [router.put("/update-profile", ...)] (lines 393-416), with
    [req.user], the three fields of [req.body] and [req.file]. *)
Definition update_profile (user : Claims)
           (b_username b_status b_mobileNumber : JsString)
           (file : option UploadedFile) : Route Reply :=
  let userId := claim_id user in
  rtry
    (let updateData :=
       {| upd_username := when_truthy b_username;
          upd_status := when_truthy b_status;
          upd_mobileNumber := when_truthy b_mobileNumber;
          upd_profileImage :=
            match file with
            | Some f => Some (file_path f)
            | None => None
            end |} in
     updatedUser <- User_findByIdAndUpdate userId updateData ;;
     match updatedUser with
     | None => rret (mkReply 404 (message_json "User not found"))
     | Some updated =>
         rret (mkReply 200
                 (JObj [("message", JStr "Profile updated successfully");
                        ("user", account_json_without_password updated)]))
     end)
    (fun error =>
       rret (mkReply 500 (failure_json "Failed to update profile" error))).

(** The route with its middleware chain. *)
Definition put_update_profile (L : Libs) (authorization : JsString)
           (b_username b_status b_mobileNumber : JsString)
           (file : option UploadedFile) : Route Reply :=
  authenticate L authorization
    (fun user => update_profile user b_username b_status b_mobileNumber file).

End Accounts.

(** * Vocabulary of the properties and example worlds *)

(** The document [sendMessage] hands to the store for a payload. *)
Definition savedMessage_of (w : World) (message : SendPayload) : Message :=
  {| _id := nextId w;
     sender := p_sender message;
     receiver := if truthy (p_receiver message)
                 then p_receiver message else None;
     content := p_content message;
     timestamp := now w;
     isDelivered := true;
     isRead := false |}.

(** The emissions of [sendMessage] once the document is stored. *)
Definition delivery_of (w : World) (message : SendPayload) : list Effect :=
  let ev := receiveMessage (savedMessage_of w message) in
  if truthy (p_receiver message)
  then match find (fun s => strict_eq (sock_username s) (p_receiver message))
                  (sockets w) with
       | Some receiverSocket => [Emit (sock_id receiverSocket) ev]
       | None => []
       end
  else map (fun s => Emit (sock_id s) ev) (sockets w).

(** The negation of the guard of line 70: [sender] and [content] are both
    truthy. *)
Definition valid_payload (message : SendPayload) : bool :=
  truthy (p_sender message) && truthy (p_content message).

(** A world to evaluate the handlers of the first revision on: alice on
    socket [s1], bob on socket [s2], an unclaimed socket [s3], an empty
    message collection and a database that accepts everything. *)
Definition three_sockets : World :=
  {| messages := [];
     users := [];
     nextId := 0;
     now := 1000%Z;
     sockets := [mkSocket "s1" (Some "alice"); mkSocket "s2" (Some "bob");
                 mkSocket "s3" None];
     onlineUsers := JsMap.empty;
     effects := [];
     dbOutcomes := [] |}.

(** "hi" from alice to [to], with a timestamp of the client's. *)
Definition hi_to (to : JsString) : SendPayload :=
  {| p_sender := Some "alice";
     p_receiver := to;
     p_content := Some "hi";
     p_timestamp := Some 5%Z |}.

(** A payload whose [content] is the empty string. *)
Definition no_content : SendPayload :=
  {| p_sender := Some "alice";
     p_receiver := Some "bob";
     p_content := Some "";
     p_timestamp := None |}.

(** Every stored document satisfies the [required] flag of the schema. *)
Definition schema_holds (w : World) : bool :=
  forallb (fun m => truthy (sender m)) (messages w).

(** The document [markAsRead] saves: the fetched one with [isRead] set. *)
Definition mark_read (m : Message) : Message :=
  {| _id := _id m;
     sender := sender m;
     receiver := receiver m;
     content := content m;
     timestamp := timestamp m;
     isDelivered := isDelivered m;
     isRead := true |}.

(** The first stored document with the identifier, as [findById] finds it. *)
Definition lookup (id : ObjectId) (ms : list Message) : option Message :=
  find (fun m => (_id m =? id)%nat) ms.

(** A world with one unread message from alice to bob. *)
Definition one_unread : World :=
  {| messages := [mkMessage 0 (Some "alice") (Some "bob") (Some "hi") 900%Z
                            true false];
     users := [];
     nextId := 1;
     now := 1000%Z;
     sockets := [mkSocket "s1" (Some "alice"); mkSocket "s2" (Some "bob")];
     onlineUsers := JsMap.empty;
     effects := [];
     dbOutcomes := [] |}.

(** The emissions of [io.emit("onlineUsers", labels)]. *)
Definition announce_online (labels : list string) (w : World) : list Effect :=
  map (fun s => Emit (sock_id s) (onlineUsersEvent labels)) (sockets w).

(** alice is online on two connections, [s1] and [s2]; the transport has
    just closed [s1]. *)
Definition two_devices : World :=
  {| messages := [];
     users := [mkUser "alice" "online"; mkUser "bob" "offline"];
     nextId := 0;
     now := 1000%Z;
     sockets := [mkSocket "s2" None];
     onlineUsers := [("s1", "alice"); ("s2", "alice")];
     effects := [];
     dbOutcomes := [] |}.

(** The last part of C5 as it is worded: when the session of [socket]
    closes, the status of its label is written as "offline" only if no other
    connection claims the label. *)
Definition offline_only_when_last (w : World) (socket : SocketId) : Prop :=
  forall l,
    JsMap.get socket (onlineUsers w) = Some l ->
    In (Mongo (UserFindOneAndUpdate l "offline") true)
       (trace_of (Rev2.disconnect socket) w) ->
    forall other,
      other <> socket -> JsMap.get other (onlineUsers w) <> Some l.

(** bob is online on [s2]; [s1] is connected and has declared nothing. *)
Definition lobby : World :=
  {| messages := [];
     users := [mkUser "alice" "offline"; mkUser "bob" "online"];
     nextId := 0;
     now := 1000%Z;
     sockets := [mkSocket "s1" None; mkSocket "s2" None];
     onlineUsers := [("s2", "bob")];
     effects := [];
     dbOutcomes := [] |}.

(** The server has just started: [s1] and [s2] are connected, nobody has
    declared a label. *)
Definition server_start : World :=
  {| messages := [];
     users := [mkUser "alice" "offline"; mkUser "bob" "offline"];
     nextId := 0;
     now := 1000%Z;
     sockets := [mkSocket "s1" None; mkSocket "s2" None];
     onlineUsers := JsMap.empty;
     effects := [];
     dbOutcomes := [] |}.

(** Classes of effects, to speak about the order of a trace. *)
Definition is_emit (e : Effect) : bool :=
  match e with
  | Emit _ _ => true
  | _ => false
  end.

Definition is_write (op : DbOp) : bool :=
  match op with
  | MessageInsert _ | MessageUpdate _ | UserFindOneAndUpdate _ _ => true
  | MessageExists _ | MessageFindById _ | MessageFind _ _ => false
  end.

Definition is_accepted_write (e : Effect) : bool :=
  match e with
  | Mongo op true => is_write op
  | _ => false
  end.

Definition is_rejected (e : Effect) : bool :=
  match e with
  | Mongo _ false => true
  | _ => false
  end.

Definition is_error_line (e : Effect) : bool :=
  match e with
  | ConsoleError _ _ => true
  | _ => false
  end.

(** Every emission of the trace comes after an accepted write. *)
Fixpoint emits_after_write (written : bool) (t : list Effect) : bool :=
  match t with
  | [] => true
  | e :: rest =>
      if is_emit e
      then written && emits_after_write written rest
      else emits_after_write (written || is_accepted_write e) rest
  end.

(** The ordering guarantee of the specification on the trace of one handler:
    no emission before an accepted write, and after a rejected operation an
    error line and no emission at all. *)
Definition persists_then_broadcasts (t : list Effect) : bool :=
  emits_after_write false t
  && (if existsb is_rejected t
      then negb (existsb is_emit t) && existsb is_error_line t
      else true).

(** The store rejects the next operation. *)
Definition store_down : World := set_dbOutcomes [false] server_start.

(** [a] may come before [b] in a listing by descending timestamp. *)
Definition newer_first (a b : Message) : Prop :=
  (timestamp b <= timestamp a)%Z.

(** The selection of the specification: a message is selected when it agrees
    with every parameter that is supplied, a parameter being supplied when it
    is present and not empty. *)
Definition selected (q_sender q_receiver : JsString) (m : Message) : bool :=
  (negb (truthy q_sender) || strict_eq (sender m) q_sender)
  && (negb (truthy q_receiver) || strict_eq (receiver m) q_receiver).

(** Three stored messages, not in the order of their timestamps. *)
Definition archive : World :=
  {| messages := [mkMessage 0 (Some "alice") (Some "bob") (Some "one") 100%Z
                            true false;
                  mkMessage 1 (Some "carol") (Some "bob") (Some "two") 300%Z
                            true false;
                  mkMessage 2 (Some "alice") None (Some "three") 200%Z
                            true true];
     users := [];
     nextId := 3;
     now := 1000%Z;
     sockets := [];
     onlineUsers := JsMap.empty;
     effects := [];
     dbOutcomes := [] |}.

(** The status the first user of that name has in the collection. *)
Definition status_of (name : string) (us : list User) : option string :=
  match find (fun u => username u =? name) us with
  | Some u => Some (status u)
  | None => None
  end.

(** What [markAsRead] of [id] may do to one stored document: nothing, or
    setting [isRead] on a document of that identifier. *)
Definition read_step (id : ObjectId) (before after : Message) : Prop :=
  after = before \/ (_id before = id /\ after = mark_read before).

(** alice is claimed by [s1] and by [s2], both live; bob by [s3]. *)
Definition two_alices : World :=
  {| messages := [mkMessage 0 (Some "bob") (Some "alice") (Some "old") 900%Z
                            true false];
     users := [];
     nextId := 1;
     now := 1000%Z;
     sockets := [mkSocket "s1" (Some "alice"); mkSocket "s2" (Some "alice");
                 mkSocket "s3" (Some "bob")];
     onlineUsers := JsMap.empty;
     effects := [];
     dbOutcomes := [] |}.

(** [three_sockets] with a store that rejects the next operation. *)
Definition three_sockets_down : World := set_dbOutcomes [false] three_sockets.

(** [one_unread] with a store that answers the lookup and rejects the
    update. *)
Definition one_unread_readonly : World :=
  set_dbOutcomes [true; false] one_unread.

(** Every stored message is older than the server clock. *)
Definition all_older (w : World) : bool :=
  forallb (fun m => (timestamp m <? now w)%Z) (messages w).

(** The messages a successful [GET /messages] lists for the parameters. *)
Definition listing (q_sender q_receiver : JsString) (w : World)
  : list Message :=
  sort_desc (filter (selected q_sender q_receiver) (messages w)).

(** A socket of that identifier is in [io.sockets.sockets]. *)
Definition live (socket : SocketId) (w : World) : bool :=
  existsb (fun s => sock_id s =? socket) (sockets w).

(** An event the transport and a well-behaved client can produce in a world:
    a label is declared on a live socket and is not empty. *)
Definition admissible (e : Rev2.Event) (w : World) : bool :=
  match e with
  | Rev2.declared socket name => live socket w && negb (name =? "")
  | Rev2.opened _ | Rev2.closed _ => true
  end.

Fixpoint admissible_run (es : list Rev2.Event) (w : World) : bool :=
  match es with
  | [] => true
  | e :: rest => admissible e w && admissible_run rest (exec (Rev2.handle e) w)
  end.

(** Every entry of the [onlineUsers] map belongs to a live socket. *)
Definition registry_is_live (w : World) : Prop :=
  forall k, In k (JsMap.keys (onlineUsers w)) -> live k w = true.

(** alice is online on [s1], which is live; the transport has just closed
    [s2], which had declared nothing. *)
Definition alice_online : World :=
  {| messages := [];
     users := [mkUser "alice" "online"; mkUser "bob" "offline"];
     nextId := 0;
     now := 1000%Z;
     sockets := [mkSocket "s1" None];
     onlineUsers := [("s1", "alice")];
     effects := [];
     dbOutcomes := [] |}.

(** [alice_online] with a store that rejects the next operation. *)
Definition alice_online_down : World := set_dbOutcomes [false] alice_online.

(** The character does not occur in the string. *)
Fixpoint lacks (c : Ascii.ascii) (s : string) : bool :=
  match s with
  | EmptyString => true
  | String a rest => negb (Ascii.eqb a c) && lacks c rest
  end.

(** An uploaded picture. *)
Definition picture : UploadedFile :=
  mkUploadedFile "1700000000000.png" "image/png" "uploads/1700000000000.png".

(** Stand-ins for bcrypt and jsonwebtoken to evaluate the routes with: the
    hash of [p] is ["h"] followed by [p], the token of a user is ["tok-"]
    followed by the name, and only alice's token is accepted. *)
Definition toy_libs : Libs :=
  {| bcrypt_hash := fun _ p => ("h" ++ p)%string;
     bcrypt_compare := fun p h => h =? ("h" ++ p)%string;
     jwt_sign := fun c _ => ("tok-" ++ claim_username c)%string;
     jwt_verify := fun token _ =>
                     if token =? "tok-alice"
                     then Some (mkClaims 0 "alice") else None |}.

(** A store with the accounts of alice and bob. *)
Definition two_accounts : Accounts.Db :=
  {| Accounts.accounts :=
       [Accounts.mkAccount 0 "alice" "hsecret" "offline" "555" "";
        Accounts.mkAccount 1 "bob" "hhunter2" "online" "" ""];
     Accounts.fresh := 2;
     Accounts.clock := 1000%Z;
     Accounts.salts := [];
     Accounts.answers := [] |}.

(** The first account of that name, and the first of that identifier. *)
Definition account_named (name : string) (d : Accounts.Db)
  : option Accounts.Account :=
  find (fun a => Accounts.acc_username a =? name) (Accounts.accounts d).

Definition account_with_id (id : ObjectId) (d : Accounts.Db)
  : option Accounts.Account :=
  find (fun a => (Accounts.acc_id a =? id)%nat) (Accounts.accounts d).

(** The store accepts the next [n] operations. *)
Definition store_accepts (n : nat) (d : Accounts.Db) : bool :=
  forallb (fun b => b) (firstn n (Accounts.answers d)).

(** The requests of the account routes. *)
Inductive Request :=
| Signup (name password : string)
| Login (name password : string)
| ListUsers
| UpdateProfile (authorization : JsString)
                (b_username b_status b_mobileNumber : JsString)
                (file : option UploadedFile).

Definition serve (L : Libs) (r : Request) : Accounts.Route Reply :=
  match r with
  | Signup name password => Accounts.signup L name password
  | Login name password => Accounts.login L name password
  | ListUsers => Accounts.get_users
  | UpdateProfile authorization b_username b_status b_mobileNumber file =>
      Accounts.put_update_profile L authorization b_username b_status
                                  b_mobileNumber file
  end.

Fixpoint serve_all (L : Libs) (rs : list Request) (d : Accounts.Db)
  : Accounts.Db :=
  match rs with
  | [] => d
  | r :: rest => serve_all L rest (Accounts.db_after (serve L r) d)
  end.

(** No two accounts share a name or an identifier, and every identifier in
    use is below the next fresh one. *)
Definition distinct_accounts (d : Accounts.Db) : Prop :=
  NoDup (map Accounts.acc_username (Accounts.accounts d)) /\
  NoDup (map Accounts.acc_id (Accounts.accounts d)) /\
  Forall (fun id => id < Accounts.fresh d)
         (map Accounts.acc_id (Accounts.accounts d)).

(** The key occurs in the JSON object. *)
Definition has_key (key : string) (j : Json) : bool :=
  match j with
  | JObj fields => existsb (fun f => fst f =? key) fields
  | _ => false
  end.

(** What [registry_is_live] needs to go through one event: a store that
    accepts everything and no empty label in the map. *)
Definition orderly_registry (w : World) : Prop :=
  dbOutcomes w = [] /\
  registry_is_live w /\
  (forall v, In v (JsMap.values (onlineUsers w)) -> v <> "").

(** [two_accounts] with a store that rejects the next operation. *)
Definition two_accounts_down : Accounts.Db :=
  Accounts.mkDb (Accounts.accounts two_accounts) 2 1000%Z [] [false].

(** The round trip [save] makes in [markAsRead] for the fetched document
    [m]: the update when [isRead] has changed, the lookup that the document
    exists when the message was already read. *)
Definition save_round_trip (m : Message) : DbOp :=
  if isRead m then MessageExists (_id m) else MessageUpdate (mark_read m).

(** The key of the filter the route builds from a parameter: the parameter
    itself when it is truthy, no key otherwise. *)
Definition filter_key (q : option QueryValue) : option QueryValue :=
  if truthy_query q then q else None.

(** A stored field equals a parameter: it is a value the parameter carries
    (the string itself, one of the strings of a repeated parameter, the
    operand of an operator object); a missing or empty parameter asks for
    nothing. *)
Definition equals_parameter (field : JsString) (q : option QueryValue)
  : Prop :=
  match q with
  | None => True
  | Some (q_string s) => s = "" \/ field = Some s
  | Some (q_array items) => exists s, In s items /\ field = Some s
  | Some (q_ne s) => field = Some s
  end.

(** C9 as it is worded, for whatever the query parser hands over: every
    message of a 200 response equals each supplied parameter in its field. *)
Definition lists_by_equality (q_sender q_receiver : option QueryValue)
           (w : World) : Prop :=
  forall found,
    result (get_messages_parsed q_sender q_receiver) w =
      Return (mkResponse 200 (json_messages found)) ->
    forall m,
      In m found ->
      equals_parameter (sender m) q_sender /\
      equals_parameter (receiver m) q_receiver.


(** * Properties *)

Unset Implicit Arguments.

(** ** The trace and the database outcomes *)

Create HintDb async discriminated.

#[global] Hint Unfold try_catch bind ret throw mongo record console_log
  console_error socket_emit io_emit io_sockets new_Date new_Message validate
  Message_save Message_create Message_findById Message_find_sorted
  User_findOneAndUpdate : async.

(** Unfolds the monadic plumbing of a handler down to its world transformer. *)
Ltac unfold_async := repeat (autounfold with async; cbn beta iota).

Lemma skipn_length_app (A : Type) (l t : list A) :
  skipn (List.length l) (l ++ t) = t.
Proof.
  induction l as [|x l IH]; simpl; auto.
Qed.

Lemma trace_of_extends (A : Type) (c : Async A) (w : World) (t : list Effect) :
  effects (exec c w) = effects w ++ t -> trace_of c w = t.
Proof.
  unfold trace_of. intros ->. apply skipn_length_app.
Qed.

Lemma db_accepts_next (n : nat) (w : World) :
  db_accepts (S n) w =
  hd true (dbOutcomes w) && db_accepts n (set_dbOutcomes (tl (dbOutcomes w)) w).
Proof.
  unfold db_accepts. destruct w as [ms us i t ss ou es os]; simpl.
  destruct os as [|b os]; simpl.
  - now destruct n.
  - reflexivity.
Qed.

Lemma db_accepts_one (w : World) :
  db_accepts 1 w = hd true (dbOutcomes w).
Proof.
  rewrite db_accepts_next. unfold db_accepts; simpl. apply andb_true_r.
Qed.

(** An accepted operation applies its action and is recorded as accepted. *)
Lemma mongo_accepted (A : Type) (op : DbOp) (action : World -> A * World)
      (w : World) :
  db_accepts 1 w = true ->
  mongo op action w =
  (Return (fst (action (set_dbOutcomes (tl (dbOutcomes w)) w))),
   record [Mongo op true]
          (snd (action (set_dbOutcomes (tl (dbOutcomes w)) w)))).
Proof.
  rewrite db_accepts_one. unfold mongo. intros ->.
  now destruct (action _).
Qed.

(** A rejected operation throws and touches no collection. *)
Lemma mongo_rejected (A : Type) (op : DbOp) (action : World -> A * World)
      (w : World) :
  db_accepts 1 w = false ->
  mongo op action w =
  (Throw MongoError,
   record [Mongo op false] (set_dbOutcomes (tl (dbOutcomes w)) w)).
Proof.
  rewrite db_accepts_one. unfold mongo. now intros ->.
Qed.

(** ** [sendMessage] *)

Lemma sendMessage_invalid (w : World) (socket : SocketId)
      (message : SendPayload) :
  valid_payload message = false ->
  Rev1.sendMessage socket message w =
  (Return tt,
   record [ConsoleError "Error saving message:"
                        (JsError "Invalid message payload")] w).
Proof.
  unfold valid_payload, Rev1.sendMessage, try_catch, bind. intros H.
  destruct (truthy (p_sender message)), (truthy (p_content message));
    simpl in *; try discriminate; reflexivity.
Qed.

Lemma sendMessage_stored (w : World) (socket : SocketId)
      (message : SendPayload) :
  valid_payload message = true ->
  db_accepts 1 w = true ->
  Rev1.sendMessage socket message w =
  (Return tt,
   record (Mongo (MessageInsert (savedMessage_of w message)) true
             :: delivery_of w message)
          (set_messages (messages w ++ [savedMessage_of w message])
             (set_dbOutcomes (tl (dbOutcomes w))
                (set_nextId (S (nextId w)) w)))).
Proof.
  unfold valid_payload. intros Hv Hdb.
  apply andb_true_iff in Hv as [Hs Hc].
  rewrite db_accepts_one in Hdb.
  unfold Rev1.sendMessage, delivery_of, savedMessage_of. unfold_async.
  rewrite Hs, Hc. simpl. rewrite ?Hs. simpl. rewrite Hdb. simpl.
  destruct (truthy (p_receiver message)); simpl.
  - destruct (find _ (sockets w)); simpl; unfold set_effects; simpl;
      rewrite <- ?app_assoc; reflexivity.
  - unfold set_effects; simpl. rewrite <- app_assoc. reflexivity.
Qed.

Lemma sendMessage_rejected (w : World) (socket : SocketId)
      (message : SendPayload) :
  valid_payload message = true ->
  db_accepts 1 w = false ->
  Rev1.sendMessage socket message w =
  (Return tt,
   record [Mongo (MessageInsert (savedMessage_of w message)) false;
           ConsoleError "Error saving message:" MongoError]
          (set_dbOutcomes (tl (dbOutcomes w))
             (set_nextId (S (nextId w)) w))).
Proof.
  unfold valid_payload. intros Hv Hdb.
  apply andb_true_iff in Hv as [Hs Hc].
  rewrite db_accepts_one in Hdb.
  unfold Rev1.sendMessage, savedMessage_of. unfold_async.
  rewrite Hs, Hc. simpl. rewrite ?Hs. simpl. rewrite Hdb. simpl.
  unfold set_effects; simpl. rewrite <- app_assoc. reflexivity.
Qed.

Lemma sendMessage_stored_trace (w : World) (socket : SocketId)
      (message : SendPayload) :
  valid_payload message = true ->
  db_accepts 1 w = true ->
  messages (exec (Rev1.sendMessage socket message) w) =
    messages w ++ [savedMessage_of w message] /\
  trace_of (Rev1.sendMessage socket message) w =
    Mongo (MessageInsert (savedMessage_of w message)) true
      :: delivery_of w message.
Proof.
  intros Hv Hdb. split.
  - unfold exec. now rewrite sendMessage_stored.
  - apply trace_of_extends. unfold exec. now rewrite sendMessage_stored.
Qed.

Lemma find_of_filter_one (A : Type) (f : A -> bool) (l : list A) (x : A) :
  filter f l = [x] -> find f l = Some x.
Proof.
  induction l as [|a l IH]; simpl; [discriminate|].
  destruct (f a); [now intros [= ->]|exact IH].
Qed.

Lemma find_of_filter_none (A : Type) (f : A -> bool) (l : list A) :
  filter f l = [] -> find f l = None.
Proof.
  induction l as [|a l IH]; simpl; [reflexivity|].
  destruct (f a); [discriminate|exact IH].
Qed.

(** C1.  A [sendMessage] event whose [sender] or [content] is empty (or
    missing) is refused with the error "Invalid message payload": the message
    collection is left as it was and the only effect is the logged error, so
    nothing is stored and nothing is emitted.  Any other event, when the store
    accepts the insert, appends one new document to the collection with
    [isDelivered = true], [isRead = false] and the server's clock as
    [timestamp], whatever timestamp the client sent. *)
Theorem sendMessage_validates_then_persists :
  forall (w : World) (socket : SocketId) (message : SendPayload),
    let w' := exec (Rev1.sendMessage socket message) w in
    (truthy (p_sender message) = false \/ truthy (p_content message) = false ->
     messages w' = messages w /\
     trace_of (Rev1.sendMessage socket message) w =
       [ConsoleError "Error saving message:"
                     (JsError "Invalid message payload")])
    /\
    (truthy (p_sender message) = true ->
     truthy (p_content message) = true ->
     db_accepts 1 w = true ->
     exists m,
       messages w' = messages w ++ [m] /\
       _id m = nextId w /\
       sender m = p_sender message /\
       content m = p_content message /\
       isDelivered m = true /\
       isRead m = false /\
       timestamp m = now w).
Proof.
  intros w socket message w'. subst w'. split.
  - intros H.
    assert (Hv : valid_payload message = false).
    { unfold valid_payload. destruct H as [-> | ->]; auto using andb_false_r. }
    split.
    + unfold exec. now rewrite sendMessage_invalid.
    + apply trace_of_extends. unfold exec. now rewrite sendMessage_invalid.
  - intros Hs Hc Hdb.
    assert (Hv : valid_payload message = true)
      by (unfold valid_payload; now rewrite Hs, Hc).
    destruct (sendMessage_stored_trace w socket message Hv Hdb) as [Hm _].
    exists (savedMessage_of w message). rewrite Hm. now repeat split.
Qed.

Lemma sendMessage_validates_then_persists_witness :
  (messages (exec (Rev1.sendMessage "s1" no_content) three_sockets) = [] /\
   trace_of (Rev1.sendMessage "s1" no_content) three_sockets =
     [ConsoleError "Error saving message:"
                   (JsError "Invalid message payload")])
  /\
  (exists m,
     messages (exec (Rev1.sendMessage "s1" (hi_to (Some "bob")))
                    three_sockets) = [] ++ [m] /\
     _id m = 0 /\
     sender m = Some "alice" /\
     content m = Some "hi" /\
     isDelivered m = true /\
     isRead m = false /\
     timestamp m = 1000%Z).
Proof.
  split.
  - apply (proj1 (sendMessage_validates_then_persists
                    three_sockets "s1" no_content)).
    right. reflexivity.
  - apply (proj2 (sendMessage_validates_then_persists
                    three_sockets "s1" (hi_to (Some "bob"))));
      reflexivity.
Defined.

(** C2.  A valid [sendMessage] event with a receiver label, once the store
    has accepted the insert: when exactly one live socket carries that label,
    the formatted message is emitted to that socket and to no other one (the
    trace of the handler is the insert followed by that single emission);
    when no live socket carries it, the document is in the collection and the
    handler emits nothing. *)
Theorem addressed_delivery :
  forall (w : World) (socket : SocketId) (message : SendPayload),
    valid_payload message = true ->
    truthy (p_receiver message) = true ->
    db_accepts 1 w = true ->
    let w' := exec (Rev1.sendMessage socket message) w in
    let claimants :=
      filter (fun s => strict_eq (sock_username s) (p_receiver message))
             (sockets w) in
    exists m,
      messages w' = messages w ++ [m] /\
      sender m = p_sender message /\
      receiver m = p_receiver message /\
      content m = p_content message /\
      (forall target,
         claimants = [target] ->
         trace_of (Rev1.sendMessage socket message) w =
           [Mongo (MessageInsert m) true;
            Emit (sock_id target) (receiveMessage m)] /\
         forall s ev,
           In (Emit (sock_id s) ev)
              (trace_of (Rev1.sendMessage socket message) w) ->
           sock_id s = sock_id target) /\
      (claimants = [] ->
       trace_of (Rev1.sendMessage socket message) w =
         [Mongo (MessageInsert m) true]).
Proof.
  intros w socket message Hv Hr Hdb w' claimants. subst w' claimants.
  destruct (sendMessage_stored_trace w socket message Hv Hdb) as [Hm Ht].
  exists (savedMessage_of w message). rewrite Hm, Ht.
  unfold delivery_of. rewrite Hr.
  split; [reflexivity|]. split; [reflexivity|].
  split; [simpl; now rewrite Hr|]. split; [reflexivity|]. split.
  - intros target H. rewrite (find_of_filter_one _ _ _ _ H). split.
    + reflexivity.
    + simpl. intros s ev [E | [E | []]]; [discriminate | now injection E].
  - intros H. now rewrite (find_of_filter_none _ _ _ H).
Qed.

Lemma addressed_delivery_witness :
  exists m,
    messages (exec (Rev1.sendMessage "s1" (hi_to (Some "bob")))
                   three_sockets) = [] ++ [m] /\
    sender m = Some "alice" /\
    receiver m = Some "bob" /\
    content m = Some "hi" /\
    (forall target,
       [mkSocket "s2" (Some "bob")] = [target] ->
       trace_of (Rev1.sendMessage "s1" (hi_to (Some "bob"))) three_sockets =
         [Mongo (MessageInsert m) true;
          Emit (sock_id target) (receiveMessage m)] /\
       forall s ev,
         In (Emit (sock_id s) ev)
            (trace_of (Rev1.sendMessage "s1" (hi_to (Some "bob")))
                      three_sockets) ->
         sock_id s = sock_id target) /\
    ([mkSocket "s2" (Some "bob")] = [] ->
     trace_of (Rev1.sendMessage "s1" (hi_to (Some "bob"))) three_sockets =
       [Mongo (MessageInsert m) true]).
Proof.
  apply (addressed_delivery three_sockets "s1" (hi_to (Some "bob")));
    reflexivity.
Defined.

(** C3.  A valid [sendMessage] event without a receiver, once the store has
    accepted the insert: the formatted message is emitted to every live
    socket, in particular to the socket the event came from when it is
    live. *)
Theorem broadcast_delivery :
  forall (w : World) (socket : SocketId) (message : SendPayload),
    valid_payload message = true ->
    truthy (p_receiver message) = false ->
    db_accepts 1 w = true ->
    let w' := exec (Rev1.sendMessage socket message) w in
    exists m,
      messages w' = messages w ++ [m] /\
      receiver m = None /\
      trace_of (Rev1.sendMessage socket message) w =
        Mongo (MessageInsert m) true
          :: map (fun s => Emit (sock_id s) (receiveMessage m)) (sockets w) /\
      (forall s,
         In s (sockets w) ->
         In (Emit (sock_id s) (receiveMessage m))
            (trace_of (Rev1.sendMessage socket message) w)) /\
      (forall s,
         In s (sockets w) -> sock_id s = socket ->
         In (Emit socket (receiveMessage m))
            (trace_of (Rev1.sendMessage socket message) w)).
Proof.
  intros w socket message Hv Hr Hdb w'. subst w'.
  destruct (sendMessage_stored_trace w socket message Hv Hdb) as [Hm Ht].
  exists (savedMessage_of w message). rewrite Hm, Ht.
  unfold delivery_of. rewrite Hr.
  assert (Hall : forall s, In s (sockets w) ->
            In (Emit (sock_id s) (receiveMessage (savedMessage_of w message)))
               (Mongo (MessageInsert (savedMessage_of w message)) true
                  :: map (fun s => Emit (sock_id s)
                                     (receiveMessage
                                        (savedMessage_of w message)))
                         (sockets w))).
  { intros s Hs. right.
    apply (in_map (fun s => Emit (sock_id s) _) _ _ Hs). }
  split; [reflexivity|]. split; [simpl; now rewrite Hr|].
  split; [reflexivity|]. split.
  - exact Hall.
  - intros s Hs <-. now apply Hall.
Qed.

Lemma broadcast_delivery_witness :
  exists m,
    messages (exec (Rev1.sendMessage "s1" (hi_to None)) three_sockets)
      = [] ++ [m] /\
    receiver m = None /\
    trace_of (Rev1.sendMessage "s1" (hi_to None)) three_sockets =
      Mongo (MessageInsert m) true
        :: map (fun s => Emit (sock_id s) (receiveMessage m))
               (sockets three_sockets) /\
    (forall s,
       In s (sockets three_sockets) ->
       In (Emit (sock_id s) (receiveMessage m))
          (trace_of (Rev1.sendMessage "s1" (hi_to None)) three_sockets)) /\
    (forall s,
       In s (sockets three_sockets) -> sock_id s = "s1" ->
       In (Emit "s1" (receiveMessage m))
          (trace_of (Rev1.sendMessage "s1" (hi_to None)) three_sockets)).
Proof.
  apply (broadcast_delivery three_sockets "s1" (hi_to None)); reflexivity.
Defined.

(** ** [markAsRead] *)

Lemma lookup_id (id : ObjectId) (ms : list Message) (m : Message) :
  lookup id ms = Some m -> _id m = id.
Proof.
  unfold lookup. intros H. apply find_some in H as [_ H].
  now apply Nat.eqb_eq.
Qed.

Lemma lookup_sender (w : World) (id : ObjectId) (m : Message) :
  schema_holds w = true ->
  lookup id (messages w) = Some m ->
  truthy (sender m) = true.
Proof.
  unfold schema_holds, lookup. intros Hs H.
  apply find_some in H as [Hin _].
  rewrite forallb_forall in Hs. now apply Hs.
Qed.

Lemma lookup_replace_first (id : ObjectId) (ms : list Message)
      (m m' : Message) :
  lookup id ms = Some m -> _id m' = _id m ->
  lookup id (replace_first m' ms) = Some m'.
Proof.
  unfold lookup. intros H E.
  assert (Hid : _id m = id) by now apply lookup_id with ms.
  induction ms as [|x ms IH]; simpl in *; [discriminate|].
  destruct (_id x =? id)%nat eqn:Hx.
  - injection H as ->. rewrite E, Nat.eqb_refl. simpl.
    rewrite E, Hid, Nat.eqb_refl. reflexivity.
  - rewrite E, Hid, Hx. simpl. rewrite Hx. now apply IH.
Qed.

Lemma lookup_replace_first_other (id : ObjectId) (ms : list Message)
      (m : Message) :
  _id m <> id ->
  lookup id (replace_first m ms) = lookup id ms.
Proof.
  unfold lookup. intros Hne.
  induction ms as [|x ms IH]; simpl; [reflexivity|].
  destruct (_id x =? _id m)%nat eqn:Hx; simpl.
  - apply Nat.eqb_eq in Hx.
    assert (Hm : (_id m =? id)%nat = false) by now apply Nat.eqb_neq.
    rewrite Hm. rewrite Hx, Hm. reflexivity.
  - now rewrite IH.
Qed.

Lemma replace_first_length (m : Message) (ms : list Message) :
  List.length (replace_first m ms) = List.length ms.
Proof.
  induction ms as [|x ms IH]; simpl; [reflexivity|].
  destruct (_id x =? _id m)%nat; simpl; [reflexivity|now rewrite IH].
Qed.

Lemma replace_first_twice (m : Message) (ms : list Message) :
  replace_first m (replace_first m ms) = replace_first m ms.
Proof.
  induction ms as [|x ms IH]; simpl; [reflexivity|].
  destruct (_id x =? _id m)%nat eqn:Hx; simpl.
  - now rewrite Nat.eqb_refl.
  - now rewrite Hx, IH.
Qed.

Lemma schema_holds_replace_first (m : Message) (ms : list Message) :
  truthy (sender m) = true ->
  forallb (fun m => truthy (sender m)) ms = true ->
  forallb (fun m => truthy (sender m)) (replace_first m ms) = true.
Proof.
  intros Hm. induction ms as [|x ms IH]; simpl; [reflexivity|].
  intros H. apply andb_true_iff in H as [Hx Hms].
  destruct (_id x =? _id m)%nat; simpl.
  - now rewrite Hm, Hms.
  - now rewrite Hx, IH.
Qed.

Lemma markAsRead_absent (w : World) (socket : SocketId) (id : ObjectId) :
  lookup id (messages w) = None ->
  db_accepts 1 w = true ->
  Rev1.markAsRead socket id w =
  (Return tt,
   record [Mongo (MessageFindById id) true]
          (set_dbOutcomes (tl (dbOutcomes w)) w)).
Proof.
  unfold lookup. intros Hf Hdb. rewrite db_accepts_one in Hdb.
  unfold Rev1.markAsRead. unfold_async. rewrite Hdb. simpl.
  now rewrite Hf.
Qed.

Lemma mark_read_of_read (m : Message) :
  isRead m = true -> mark_read m = m.
Proof.
  destruct m; simpl. now intros ->.
Qed.

Lemma replace_first_found (id : ObjectId) (ms : list Message) (m : Message) :
  lookup id ms = Some m -> replace_first m ms = ms.
Proof.
  unfold lookup. induction ms as [|x ms IH]; simpl; [reflexivity|].
  destruct (_id x =? id)%nat eqn:Hx.
  - intros [= ->]. now rewrite Nat.eqb_refl.
  - intros H. assert (Hid : _id m = id) by now apply (lookup_id id ms).
    rewrite Hid, Hx. now rewrite (IH H).
Qed.

(** Saving a message that was already read writes nothing. *)
Lemma replace_first_read (id : ObjectId) (ms : list Message) (m : Message) :
  lookup id ms = Some m -> isRead m = true ->
  replace_first (mark_read m) ms = ms.
Proof.
  intros Hl Hr. rewrite (mark_read_of_read m Hr).
  now apply replace_first_found with id.
Qed.

Lemma markAsRead_found (w : World) (socket : SocketId) (id : ObjectId)
      (m : Message) :
  lookup id (messages w) = Some m ->
  truthy (sender m) = true ->
  db_accepts 2 w = true ->
  Rev1.markAsRead socket id w =
  (Return tt,
   record (Mongo (MessageFindById id) true
             :: Mongo (save_round_trip m) true
             :: map (fun s => Emit (sock_id s) (updateMessageStatus id true))
                    (sockets w))
          (set_messages (replace_first (mark_read m) (messages w))
             (set_dbOutcomes (tl (tl (dbOutcomes w))) w))).
Proof.
  intros Hf Hs Hdb.
  assert (Hid : _id m = id) by now apply lookup_id with (messages w).
  pose proof Hf as Hl. unfold lookup in Hf.
  rewrite db_accepts_next, db_accepts_one in Hdb.
  apply andb_true_iff in Hdb as [Hd1 Hd2].
  unfold Rev1.markAsRead, save_round_trip. unfold_async. rewrite Hd1. simpl.
  rewrite Hf. simpl. rewrite Hs. simpl in Hd2 |- *.
  destruct (isRead m) eqn:Hr; simpl; rewrite Hd2; simpl.
  - rewrite (replace_first_read id (messages w) m Hl Hr).
    destruct w as [ms us i t ss ou es os]; simpl.
    unfold set_effects, set_messages, set_dbOutcomes; simpl. rewrite Hid.
    rewrite <- !app_assoc. reflexivity.
  - unfold set_effects, mark_read; simpl. rewrite Hid.
    rewrite <- !app_assoc. reflexivity.
Qed.

Lemma accepted_split (n k : nat) (os : list bool) :
  forallb (fun b => b) (firstn (n + k) os) =
  forallb (fun b => b) (firstn n os)
  && forallb (fun b => b) (firstn k (skipn n os)).
Proof.
  revert os. induction n as [|n IH]; intros os; simpl; [reflexivity|].
  destruct os as [|b os]; simpl.
  - now destruct k.
  - now rewrite IH, andb_assoc.
Qed.

(** C4.  [markAsRead] on a collection that satisfies its schema, while the
    store accepts the operations.  Without a document of that identifier the
    handler changes no collection, emits nothing and logs nothing: the lookup
    is all that happened.  With such a document [m], the stored document has
    [isRead = true] afterwards and keeps its other fields, the collection
    keeps its length and the documents of other identifiers, the save is an
    update when [m] was unread and a mere lookup when it was already read,
    and [{_id, isRead: true}] is emitted to every live socket; a second
    [markAsRead] of the same identifier leaves the collection as the first
    one left it, writes nothing (its save only looks the document up) and
    emits the same update to every live socket again. *)
Theorem markAsRead_flips_and_announces :
  forall (w : World) (socket : SocketId) (id : ObjectId),
    schema_holds w = true ->
    (lookup id (messages w) = None ->
     db_accepts 1 w = true ->
     exec (Rev1.markAsRead socket id) w =
       record [Mongo (MessageFindById id) true]
              (set_dbOutcomes (tl (dbOutcomes w)) w) /\
     messages (exec (Rev1.markAsRead socket id) w) = messages w /\
     trace_of (Rev1.markAsRead socket id) w = [Mongo (MessageFindById id) true])
    /\
    (forall m,
       lookup id (messages w) = Some m ->
       db_accepts 4 w = true ->
       let w1 := exec (Rev1.markAsRead socket id) w in
       let w2 := exec (Rev1.markAsRead socket id) w1 in
       let announce :=
         map (fun s => Emit (sock_id s) (updateMessageStatus id true))
             (sockets w) in
       exists m1,
         lookup id (messages w1) = Some m1 /\
         isRead m1 = true /\
         _id m1 = _id m /\ sender m1 = sender m /\ receiver m1 = receiver m /\
         content m1 = content m /\ timestamp m1 = timestamp m /\
         isDelivered m1 = isDelivered m /\
         messages w1 = replace_first m1 (messages w) /\
         List.length (messages w1) = List.length (messages w) /\
         (forall other,
            other <> id ->
            lookup other (messages w1) = lookup other (messages w)) /\
         users w1 = users w /\ sockets w1 = sockets w /\
         onlineUsers w1 = onlineUsers w /\
         trace_of (Rev1.markAsRead socket id) w =
           Mongo (MessageFindById id) true
             :: Mongo (if isRead m
                       then MessageExists id else MessageUpdate m1) true
             :: announce /\
         messages w2 = messages w1 /\
         trace_of (Rev1.markAsRead socket id) w1 =
           Mongo (MessageFindById id) true
             :: Mongo (MessageExists id) true :: announce).
Proof.
  intros w socket id Hschema. split.
  - intros Hf Hdb. unfold exec at 1 2.
    rewrite (@markAsRead_absent w socket id Hf Hdb). repeat split.
    apply trace_of_extends. unfold exec.
    now rewrite (@markAsRead_absent w socket id Hf Hdb).
  - intros m Hf Hdb w1 w2 announce.
    assert (Hs : truthy (sender m) = true) by now apply lookup_sender with w id.
    assert (Hid : _id m = id) by now apply lookup_id with (messages w).
    unfold db_accepts in Hdb.
    change 4 with (2 + 2) in Hdb. rewrite accepted_split in Hdb.
    apply andb_true_iff in Hdb as [Hdb1 Hdb2].
    pose proof (@markAsRead_found w socket id m Hf Hs Hdb1) as H1.
    assert (Hw1 : w1 = snd (Rev1.markAsRead socket id w)) by reflexivity.
    rewrite H1 in Hw1. simpl in Hw1.
    assert (Hf1 : lookup id (messages w1) = Some (mark_read m)).
    { rewrite Hw1. simpl. now apply lookup_replace_first with m. }
    assert (Hsock : sockets w1 = sockets w) by now rewrite Hw1.
    assert (Hdb1' : db_accepts 2 w1 = true).
    { unfold db_accepts. rewrite Hw1. simpl dbOutcomes.
      destruct (dbOutcomes w) as [|a [|b os]]; simpl in *; auto. }
    pose proof (@markAsRead_found w1 socket id (mark_read m) Hf1 Hs Hdb1') as H2.
    exists (mark_read m).
    split; [exact Hf1|]. do 7 (split; [reflexivity|]).
    split; [now rewrite Hw1|].
    split; [rewrite Hw1; simpl; apply replace_first_length|].
    split.
    { intros other Hne. rewrite Hw1. simpl.
      apply lookup_replace_first_other. simpl. congruence. }
    split; [now rewrite Hw1|]. split; [exact Hsock|].
    split; [now rewrite Hw1|].
    split.
    { apply trace_of_extends. unfold exec. rewrite H1. simpl.
      unfold save_round_trip. rewrite Hid. reflexivity. }
    split.
    + unfold w2, exec. rewrite H2. simpl. rewrite Hw1. simpl.
      apply replace_first_twice.
    + apply trace_of_extends. unfold exec. rewrite H2. simpl.
      subst announce. unfold save_round_trip. simpl.
      now rewrite Hsock, Hid.
Qed.

Lemma markAsRead_flips_and_announces_witness :
  (messages (exec (Rev1.markAsRead "s2" 7) one_unread) = messages one_unread /\
   trace_of (Rev1.markAsRead "s2" 7) one_unread = [Mongo (MessageFindById 7) true])
  /\
  (exists m1,
     lookup 0 (messages (exec (Rev1.markAsRead "s2" 0) one_unread)) = Some m1 /\
     isRead m1 = true /\
     content m1 = Some "hi" /\ timestamp m1 = 900%Z /\
     trace_of (Rev1.markAsRead "s2" 0) one_unread =
       [Mongo (MessageFindById 0) true; Mongo (MessageUpdate m1) true;
        Emit "s1" (updateMessageStatus 0 true);
        Emit "s2" (updateMessageStatus 0 true)] /\
     messages (exec (Rev1.markAsRead "s2" 0)
                    (exec (Rev1.markAsRead "s2" 0) one_unread)) =
       messages (exec (Rev1.markAsRead "s2" 0) one_unread) /\
     trace_of (Rev1.markAsRead "s2" 0)
              (exec (Rev1.markAsRead "s2" 0) one_unread) =
       [Mongo (MessageFindById 0) true; Mongo (MessageExists 0) true;
        Emit "s1" (updateMessageStatus 0 true);
        Emit "s2" (updateMessageStatus 0 true)]).
Proof.
  pose proof (markAsRead_flips_and_announces one_unread "s2" 7 eq_refl)
    as [Habsent _].
  pose proof (markAsRead_flips_and_announces one_unread "s2" 0 eq_refl)
    as [_ Hfound].
  split.
  - destruct (Habsent eq_refl eq_refl) as (_ & Hm & Ht). now split.
  - destruct (Hfound _ eq_refl eq_refl)
      as (m1 & Hl & Hr & _ & _ & _ & Hc & Hts & _ & _ & _ & _ & _ & _ & _
          & Ht1 & Hm2 & Ht2).
    exists m1. repeat split; assumption.
Defined.

(** ** The [onlineUsers] map *)

Lemma get_set_same (k : SocketId) (v : string) (m : JsMap.t) :
  JsMap.get k (JsMap.set k v m) = Some v.
Proof.
  induction m as [|[k' v'] m IH]; simpl.
  - now rewrite String.eqb_refl.
  - destruct (k' =? k) eqn:E; simpl.
    + now rewrite String.eqb_refl.
    + now rewrite E.
Qed.

Lemma get_set_other (k k' : SocketId) (v : string) (m : JsMap.t) :
  k <> k' -> JsMap.get k' (JsMap.set k v m) = JsMap.get k' m.
Proof.
  intros Hne. induction m as [|[k0 v0] m IH]; simpl.
  - apply String.eqb_neq in Hne. now rewrite Hne.
  - destruct (k0 =? k) eqn:E; simpl.
    + apply String.eqb_eq in E. subst k0.
      apply String.eqb_neq in Hne. now rewrite Hne.
    + now rewrite IH.
Qed.

Lemma keys_set (k : SocketId) (v : string) (m : JsMap.t) (x : SocketId) :
  In x (JsMap.keys (JsMap.set k v m)) -> x = k \/ In x (JsMap.keys m).
Proof.
  induction m as [|[k' v'] m IH]; simpl.
  - intros [<- | []]. now left.
  - destruct (k' =? k) eqn:E; simpl.
    + apply String.eqb_eq in E. subst k'. tauto.
    + intros [<- | H]; [tauto|]. destruct (IH H); tauto.
Qed.

Lemma keys_delete (k : SocketId) (m : JsMap.t) (x : SocketId) :
  In x (JsMap.keys (JsMap.delete k m)) -> In x (JsMap.keys m).
Proof.
  unfold JsMap.delete.
  induction m as [|[k' v'] m IH]; simpl; [tauto|].
  destruct (k' =? k); simpl; tauto.
Qed.

(** [set] keeps the keys pairwise distinct: a connection has one entry. *)
Lemma NoDup_keys_set (k : SocketId) (v : string) (m : JsMap.t) :
  NoDup (JsMap.keys m) -> NoDup (JsMap.keys (JsMap.set k v m)).
Proof.
  induction m as [|[k' v'] m IH]; simpl; intros H.
  - constructor; [intros []|constructor].
  - inversion H as [|? ? Hnin Hnd]; subst.
    destruct (k' =? k) eqn:E; simpl.
    + apply String.eqb_eq in E. subst k'. now constructor.
    + constructor; [|now apply IH].
      intros Hin. apply keys_set in Hin as [-> | Hin]; [|contradiction].
      now rewrite String.eqb_refl in E.
Qed.

Lemma NoDup_keys_delete (k : SocketId) (m : JsMap.t) :
  NoDup (JsMap.keys m) -> NoDup (JsMap.keys (JsMap.delete k m)).
Proof.
  induction m as [|[k' v'] m IH]; simpl; intros H; [constructor|].
  inversion H as [|? ? Hnin Hnd]; subst.
  destruct (k' =? k); simpl; [now apply IH|].
  constructor; [|now apply IH].
  intros Hin. now apply keys_delete in Hin.
Qed.

Lemma get_delete_same (k : SocketId) (m : JsMap.t) :
  JsMap.get k (JsMap.delete k m) = None.
Proof.
  induction m as [|[k' v'] m IH]; simpl; [reflexivity|].
  destruct (k' =? k) eqn:E; simpl; [exact IH|].
  now rewrite E.
Qed.

Lemma get_delete_other (k k' : SocketId) (m : JsMap.t) :
  k <> k' -> JsMap.get k' (JsMap.delete k m) = JsMap.get k' m.
Proof.
  intros Hne. induction m as [|[k0 v0] m IH]; simpl; [reflexivity|].
  destruct (k0 =? k) eqn:E; simpl.
  - apply String.eqb_eq in E. subst k0.
    apply String.eqb_neq in Hne. now rewrite Hne.
  - now rewrite IH.
Qed.

Lemma count_values_get (k : SocketId) (l : string) (m : JsMap.t) :
  JsMap.get k m = Some l ->
  1 <= count_occ string_dec (JsMap.values m) l.
Proof.
  unfold JsMap.values.
  induction m as [|[k' v'] m IH]; simpl; [discriminate|].
  destruct (k' =? k).
  - intros [= ->]. destruct (string_dec l l); [lia|contradiction].
  - intros H. specialize (IH H). destruct (string_dec v' l); lia.
Qed.

(** A label set for one connection while another connection holds the same
    label occurs twice among the values. *)
Lemma count_values_set (a b : SocketId) (l : string) (m : JsMap.t) :
  a <> b ->
  JsMap.get a m = Some l ->
  2 <= count_occ string_dec (JsMap.values (JsMap.set b l m)) l.
Proof.
  intros Hne. unfold JsMap.values.
  induction m as [|[k v] m IH]; simpl; [discriminate|].
  destruct (k =? b) eqn:Eb; simpl.
  - apply String.eqb_eq in Eb. subst k.
    assert (Hba : (b =? a) = false) by (apply String.eqb_neq; congruence).
    rewrite Hba. intros H. apply count_values_get in H.
    unfold JsMap.values in H.
    destruct (string_dec l l); [lia|contradiction].
  - destruct (k =? a) eqn:Ea.
    + intros [= ->].
      pose proof (count_values_get b l (JsMap.set b l m) (get_set_same b l m))
        as H.
      unfold JsMap.values in H.
      destruct (string_dec l l); [lia|contradiction].
    + intros H. specialize (IH H). destruct (string_dec v l); lia.
Qed.

(** ** [setUsername] and [disconnect] of the second revision *)

Lemma setUsername_accepted (w : World) (socket : SocketId) (name : string) :
  db_accepts 1 w = true ->
  Rev2.setUsername socket name w =
  (Return tt,
   record (Mongo (UserFindOneAndUpdate name "online") true
             :: announce_online
                  (JsMap.values (JsMap.set socket name (onlineUsers w))) w
             ++ [ConsoleLog ("Socket " ++ socket ++ " set as " ++ name)%string])
          (set_users (update_status name "online" (users w))
             (set_dbOutcomes (tl (dbOutcomes w))
                (set_onlineUsers (JsMap.set socket name (onlineUsers w)) w)))).
Proof.
  rewrite db_accepts_one. intros Hdb.
  unfold Rev2.setUsername, Rev2.onlineUsers_set, Rev2.onlineUsers_values,
    announce_online.
  unfold_async. simpl. rewrite Hdb. simpl.
  unfold set_effects; simpl. rewrite <- !app_assoc. reflexivity.
Qed.

Lemma setUsername_rejected (w : World) (socket : SocketId) (name : string) :
  db_accepts 1 w = false ->
  Rev2.setUsername socket name w =
  (Throw MongoError,
   record [Mongo (UserFindOneAndUpdate name "online") false]
          (set_dbOutcomes (tl (dbOutcomes w))
             (set_onlineUsers (JsMap.set socket name (onlineUsers w)) w))).
Proof.
  rewrite db_accepts_one. intros Hdb.
  unfold Rev2.setUsername, Rev2.onlineUsers_set, Rev2.onlineUsers_values.
  unfold_async. simpl. now rewrite Hdb.
Qed.

Lemma disconnect_unclaimed (w : World) (socket : SocketId) :
  truthy (JsMap.get socket (onlineUsers w)) = false ->
  Rev2.disconnect socket w =
  (Return tt, record [ConsoleLog ("User disconnected: " ++ socket)%string] w).
Proof.
  intros H. unfold Rev2.disconnect, Rev2.onlineUsers_get. unfold_async.
  now rewrite H.
Qed.

Lemma disconnect_claimed (w : World) (socket : SocketId) (l : string) :
  JsMap.get socket (onlineUsers w) = Some l ->
  l <> "" ->
  db_accepts 1 w = true ->
  Rev2.disconnect socket w =
  (Return tt,
   record (Mongo (UserFindOneAndUpdate l "offline") true
             :: announce_online
                  (JsMap.values (JsMap.delete socket (onlineUsers w))) w
             ++ [ConsoleLog ("User disconnected: " ++ socket)%string])
          (set_onlineUsers (JsMap.delete socket (onlineUsers w))
             (set_users (update_status l "offline" (users w))
                (set_dbOutcomes (tl (dbOutcomes w)) w)))).
Proof.
  intros Hg Hl. rewrite db_accepts_one. intros Hdb.
  assert (Ht : truthy (Some l) = true).
  { simpl. apply String.eqb_neq in Hl. now rewrite Hl. }
  unfold Rev2.disconnect, Rev2.onlineUsers_get, Rev2.onlineUsers_delete,
    Rev2.onlineUsers_values, announce_online.
  unfold_async. rewrite Hg, Ht. simpl. rewrite Hdb. simpl.
  unfold set_effects; simpl. rewrite <- !app_assoc. reflexivity.
Qed.

Lemma disconnect_rejected (w : World) (socket : SocketId) (l : string) :
  JsMap.get socket (onlineUsers w) = Some l ->
  l <> "" ->
  db_accepts 1 w = false ->
  Rev2.disconnect socket w =
  (Throw MongoError,
   record [Mongo (UserFindOneAndUpdate l "offline") false]
          (set_dbOutcomes (tl (dbOutcomes w)) w)).
Proof.
  intros Hg Hl. rewrite db_accepts_one. intros Hdb.
  assert (Ht : truthy (Some l) = true).
  { simpl. apply String.eqb_neq in Hl. now rewrite Hl. }
  unfold Rev2.disconnect, Rev2.onlineUsers_get. unfold_async.
  rewrite Hg, Ht. simpl. now rewrite Hdb.
Qed.

(** What a handler of the second revision can do to the map. *)
Lemma handle_onlineUsers (e : Rev2.Event) (w : World) :
  onlineUsers (exec (Rev2.handle e) w) = onlineUsers w \/
  (exists k v,
     onlineUsers (exec (Rev2.handle e) w) = JsMap.set k v (onlineUsers w)) \/
  (exists k,
     onlineUsers (exec (Rev2.handle e) w) = JsMap.delete k (onlineUsers w)).
Proof.
  destruct e as [socket | socket name | socket]; unfold exec; simpl.
  - left. reflexivity.
  - right; left. exists socket, name.
    destruct (db_accepts 1 w) eqn:Hdb.
    + now rewrite setUsername_accepted.
    + now rewrite setUsername_rejected.
  - unfold bind, transport_close.
    set (w1 := set_sockets _ w).
    change (onlineUsers w) with (onlineUsers w1).
    destruct (JsMap.get socket (onlineUsers w1)) as [l|] eqn:Hg.
    + destruct (string_dec l "") as [-> | Hl].
      * left. rewrite disconnect_unclaimed; [reflexivity|now rewrite Hg].
      * destruct (db_accepts 1 w1) eqn:Hdb.
        -- right; right. exists socket.
           now rewrite (@disconnect_claimed w1 socket l Hg Hl Hdb).
        -- left. now rewrite (@disconnect_rejected w1 socket l Hg Hl Hdb).
    + left. rewrite disconnect_unclaimed; [reflexivity|now rewrite Hg].
Qed.

(** The map never holds two entries for one connection. *)
Lemma run_keeps_keys_distinct (es : list Rev2.Event) (w : World) :
  NoDup (JsMap.keys (onlineUsers w)) ->
  NoDup (JsMap.keys (onlineUsers (Rev2.run es w))).
Proof.
  revert w. induction es as [|e es IH]; intros w H; simpl; [exact H|].
  apply IH.
  destruct (handle_onlineUsers e w) as [-> | [(k & v & ->) | (k & ->)]].
  - exact H.
  - now apply NoDup_keys_set.
  - now apply NoDup_keys_delete.
Qed.

(** C5, as worded, fails: alice is written "offline" when [s1] closes
    although [s2] still claims the label. *)
Lemma offline_while_still_claimed :
  ~ offline_only_when_last two_devices "s1".
Proof.
  intros H.
  apply (H "alice" eq_refl) with (other := "s2").
  - left. reflexivity.
  - discriminate.
  - reflexivity.
Qed.

(** C5, amended.  When the session of a connection with a non-empty claimed
    label closes and the store accepts the update, the status of that label
    is written as "offline" whether or not another connection still claims
    the label; the entry of the connection is removed from the map, the other
    entries stay, and the values of the updated map are emitted to every
    live socket. *)
Theorem disconnect_sets_offline_regardless :
  forall (w : World) (socket : SocketId) (l : string),
    JsMap.get socket (onlineUsers w) = Some l ->
    l <> "" ->
    db_accepts 1 w = true ->
    let w' := exec (Rev2.disconnect socket) w in
    JsMap.get socket (onlineUsers w') = None /\
    (forall other,
       other <> socket ->
       JsMap.get other (onlineUsers w') = JsMap.get other (onlineUsers w)) /\
    users w' = update_status l "offline" (users w) /\
    trace_of (Rev2.disconnect socket) w =
      Mongo (UserFindOneAndUpdate l "offline") true
        :: map (fun s => Emit (sock_id s)
                           (onlineUsersEvent (JsMap.values (onlineUsers w'))))
               (sockets w)
        ++ [ConsoleLog ("User disconnected: " ++ socket)%string].
Proof.
  intros w socket l Hg Hl Hdb w'.
  assert (Hw' : w' = snd (Rev2.disconnect socket w)) by reflexivity.
  rewrite (@disconnect_claimed w socket l Hg Hl Hdb) in Hw'. simpl in Hw'.
  split; [rewrite Hw'; simpl; apply get_delete_same|].
  split.
  { intros other Hne. rewrite Hw'. simpl. apply get_delete_other. congruence. }
  split; [now rewrite Hw'|].
  apply trace_of_extends. unfold exec.
  rewrite (@disconnect_claimed w socket l Hg Hl Hdb). simpl.
  rewrite Hw'. reflexivity.
Qed.

Lemma disconnect_sets_offline_regardless_witness :
  let w' := exec (Rev2.disconnect "s1") two_devices in
  JsMap.get "s1" (onlineUsers w') = None /\
  (forall other,
     other <> "s1" ->
     JsMap.get other (onlineUsers w') =
     JsMap.get other (onlineUsers two_devices)) /\
  users w' = [mkUser "alice" "offline"; mkUser "bob" "offline"] /\
  trace_of (Rev2.disconnect "s1") two_devices =
    Mongo (UserFindOneAndUpdate "alice" "offline") true
      :: map (fun s => Emit (sock_id s)
                         (onlineUsersEvent (JsMap.values (onlineUsers w'))))
             (sockets two_devices)
      ++ [ConsoleLog "User disconnected: s1"].
Proof.
  apply (disconnect_sets_offline_regardless two_devices "s1" "alice").
  - reflexivity.
  - discriminate.
  - reflexivity.
Defined.

(** C6 on the code: [setUsername] with the empty label is not refused.  The
    handler returns normally, the empty label is entered in the map for the
    connection, the status update for the label "" is sent to the store and
    the labels, the empty one among them, are emitted to every live socket. *)
Theorem empty_label_is_accepted :
  result (Rev2.setUsername "s1" "") lobby = Return tt /\
  onlineUsers (exec (Rev2.setUsername "s1" "") lobby) =
    [("s2", "bob"); ("s1", "")] /\
  trace_of (Rev2.setUsername "s1" "") lobby =
    [Mongo (UserFindOneAndUpdate "" "online") true;
     Emit "s1" (onlineUsersEvent ["bob"; ""]);
     Emit "s2" (onlineUsersEvent ["bob"; ""]);
     ConsoleLog "Socket s1 set as "].
Proof.
  repeat split.
Qed.

(** The entry of an empty label is never removed: [disconnect] takes the
    empty label for no label at all. *)
Lemma empty_label_outlives_its_connection :
  onlineUsers (Rev2.run [Rev2.declared "s1" ""; Rev2.closed "s1"] lobby) =
    [("s2", "bob"); ("s1", "")] /\
  sockets (Rev2.run [Rev2.declared "s1" ""; Rev2.closed "s1"] lobby) =
    [mkSocket "s2" None].
Proof.
  split; reflexivity.
Qed.

(** C7.  From a server start (an empty map), after any sequence of events:
    when the same label is declared from two different connections one after
    the other, the map has distinct keys (one label per connection), both
    connections hold the label, the label occurs at least twice among the
    values of the map, and, when the store accepts the second update, the
    sequence emitted to every live socket is exactly those values,
    duplicates included. *)
Theorem same_label_twice_is_kept_twice :
  forall (w0 : World) (es : list Rev2.Event) (a b : SocketId) (l : string),
    onlineUsers w0 = JsMap.empty ->
    a <> b ->
    let w := Rev2.run es w0 in
    let w1 := exec (Rev2.setUsername a l) w in
    let w2 := exec (Rev2.setUsername b l) w1 in
    NoDup (JsMap.keys (onlineUsers w2)) /\
    JsMap.get a (onlineUsers w2) = Some l /\
    JsMap.get b (onlineUsers w2) = Some l /\
    2 <= count_occ string_dec (JsMap.values (onlineUsers w2)) l /\
    (db_accepts 1 w1 = true ->
     trace_of (Rev2.setUsername b l) w1 =
       Mongo (UserFindOneAndUpdate l "online") true
         :: map (fun s => Emit (sock_id s)
                            (onlineUsersEvent (JsMap.values (onlineUsers w2))))
                (sockets w1)
         ++ [ConsoleLog ("Socket " ++ b ++ " set as " ++ l)%string]).
Proof.
  intros w0 es a b l Hstart Hne w w1 w2.
  assert (Hw : NoDup (JsMap.keys (onlineUsers w))).
  { apply run_keeps_keys_distinct. rewrite Hstart. constructor. }
  assert (H1 : onlineUsers w1 = JsMap.set a l (onlineUsers w)).
  { unfold w1, exec. destruct (db_accepts 1 w) eqn:Hdb.
    - now rewrite setUsername_accepted.
    - now rewrite setUsername_rejected. }
  assert (H2 : onlineUsers w2 = JsMap.set b l (onlineUsers w1)).
  { unfold w2, exec. destruct (db_accepts 1 w1) eqn:Hdb.
    - now rewrite setUsername_accepted.
    - now rewrite setUsername_rejected. }
  assert (Ha : JsMap.get a (onlineUsers w1) = Some l)
    by (rewrite H1; apply get_set_same).
  split; [rewrite H2, H1; now do 2 apply NoDup_keys_set|].
  split; [rewrite H2, get_set_other by congruence; exact Ha|].
  split; [rewrite H2; apply get_set_same|].
  split; [rewrite H2; now apply count_values_set with a|].
  intros Hdb. apply trace_of_extends. unfold exec.
  rewrite (setUsername_accepted w1 b l Hdb). simpl. now rewrite H2.
Qed.

Lemma same_label_twice_is_kept_twice_witness :
  let w := Rev2.run [Rev2.declared "s2" "alice"] server_start in
  let w1 := exec (Rev2.setUsername "s1" "bob") w in
  let w2 := exec (Rev2.setUsername "s2" "bob") w1 in
  NoDup (JsMap.keys (onlineUsers w2)) /\
  JsMap.get "s1" (onlineUsers w2) = Some "bob" /\
  JsMap.get "s2" (onlineUsers w2) = Some "bob" /\
  2 <= count_occ string_dec (JsMap.values (onlineUsers w2)) "bob" /\
  (db_accepts 1 w1 = true ->
   trace_of (Rev2.setUsername "s2" "bob") w1 =
     Mongo (UserFindOneAndUpdate "bob" "online") true
       :: map (fun s => Emit (sock_id s)
                          (onlineUsersEvent (JsMap.values (onlineUsers w2))))
              (sockets w1)
       ++ [ConsoleLog "Socket s2 set as bob"]).
Proof.
  apply (same_label_twice_is_kept_twice
           server_start [Rev2.declared "s2" "alice"] "s1" "s2" "bob").
  - reflexivity.
  - discriminate.
Defined.

(** ** Persisting before broadcasting *)

Lemma emissions_after_write (A : Type) (f : A -> SocketId) (ev : OutEvent)
      (l : list A) (tail : list Effect) :
  emits_after_write true (map (fun s => Emit (f s) ev) l ++ tail) =
  emits_after_write true tail.
Proof.
  induction l as [|x l IH]; simpl; auto.
Qed.

Lemma emissions_not_rejected (A : Type) (f : A -> SocketId) (ev : OutEvent)
      (l : list A) (tail : list Effect) :
  existsb is_rejected (map (fun s => Emit (f s) ev) l ++ tail) =
  existsb is_rejected tail.
Proof.
  induction l as [|x l IH]; simpl; auto.
Qed.

(** The trace of [sendMessage], in every world. *)
Lemma sendMessage_trace (w : World) (socket : SocketId)
      (message : SendPayload) :
  trace_of (Rev1.sendMessage socket message) w =
  if valid_payload message
  then if db_accepts 1 w
       then Mongo (MessageInsert (savedMessage_of w message)) true
              :: delivery_of w message
       else [Mongo (MessageInsert (savedMessage_of w message)) false;
             ConsoleError "Error saving message:" MongoError]
  else [ConsoleError "Error saving message:"
                     (JsError "Invalid message payload")].
Proof.
  apply trace_of_extends. unfold exec.
  destruct (valid_payload message) eqn:Hv.
  - destruct (db_accepts 1 w) eqn:Hdb.
    + now rewrite sendMessage_stored.
    + now rewrite sendMessage_rejected.
  - now rewrite sendMessage_invalid.
Qed.

(** The trace of [markAsRead], in every world. *)
Lemma markAsRead_trace (w : World) (socket : SocketId) (id : ObjectId) :
  trace_of (Rev1.markAsRead socket id) w =
  if hd true (dbOutcomes w)
  then match lookup id (messages w) with
       | None => [Mongo (MessageFindById id) true]
       | Some m =>
           if truthy (sender m)
           then if hd true (tl (dbOutcomes w))
                then Mongo (MessageFindById id) true
                       :: Mongo (save_round_trip m) true
                       :: map (fun s => Emit (sock_id s)
                                          (updateMessageStatus (_id m) true))
                              (sockets w)
                else [Mongo (MessageFindById id) true;
                      Mongo (save_round_trip m) false;
                      ConsoleError "Error marking message as read:" MongoError]
           else [Mongo (MessageFindById id) true;
                 ConsoleError "Error marking message as read:"
                              (ValidationError "sender")]
       end
  else [Mongo (MessageFindById id) false;
        ConsoleError "Error marking message as read:" MongoError].
Proof.
  apply trace_of_extends.
  unfold exec, lookup, save_round_trip, Rev1.markAsRead. unfold_async.
  destruct (hd true (dbOutcomes w)); simpl.
  - destruct (find _ (messages w)) as [m|]; simpl; [|reflexivity].
    destruct (truthy (sender m)); simpl.
    + destruct (isRead m); simpl;
        destruct (hd true (tl (dbOutcomes w))); simpl;
        unfold set_effects, mark_read; simpl; rewrite <- !app_assoc;
        reflexivity.
    + unfold set_effects; simpl. rewrite <- !app_assoc. reflexivity.
  - unfold set_effects; simpl. rewrite <- !app_assoc. reflexivity.
Qed.

(** The trace of [setUsername] of the second revision, in every world. *)
Lemma setUsername_trace (w : World) (socket : SocketId) (name : string) :
  trace_of (Rev2.setUsername socket name) w =
  if db_accepts 1 w
  then Mongo (UserFindOneAndUpdate name "online") true
         :: announce_online
              (JsMap.values (JsMap.set socket name (onlineUsers w))) w
         ++ [ConsoleLog ("Socket " ++ socket ++ " set as " ++ name)%string]
  else [Mongo (UserFindOneAndUpdate name "online") false].
Proof.
  apply trace_of_extends. unfold exec.
  destruct (db_accepts 1 w) eqn:Hdb.
  - now rewrite setUsername_accepted.
  - now rewrite setUsername_rejected.
Qed.

(** [sendMessage] keeps the ordering guarantee in every world. *)
Lemma sendMessage_persists_then_broadcasts (w : World) (socket : SocketId)
      (message : SendPayload) :
  persists_then_broadcasts (trace_of (Rev1.sendMessage socket message) w)
  = true.
Proof.
  rewrite sendMessage_trace. unfold persists_then_broadcasts.
  destruct (valid_payload message); [|reflexivity].
  destruct (db_accepts 1 w); [|reflexivity].
  unfold delivery_of. simpl.
  destruct (truthy (p_receiver message)).
  - destruct (find _ (sockets w)); reflexivity.
  - rewrite <- (app_nil_r (map _ (sockets w))).
    now rewrite emissions_after_write, emissions_not_rejected.
Qed.

(** [markAsRead] keeps the ordering guarantee in every world in which the
    message is not already read. *)
Lemma markAsRead_persists_then_broadcasts (w : World) (socket : SocketId)
      (id : ObjectId) :
  (forall m, lookup id (messages w) = Some m -> isRead m = false) ->
  persists_then_broadcasts (trace_of (Rev1.markAsRead socket id) w) = true.
Proof.
  intros Hunread.
  rewrite markAsRead_trace. unfold persists_then_broadcasts, save_round_trip.
  destruct (hd true (dbOutcomes w)); [|reflexivity].
  destruct (lookup id (messages w)) as [m|]; [|reflexivity].
  rewrite (Hunread m eq_refl).
  destruct (truthy (sender m)); [|reflexivity].
  destruct (hd true (tl (dbOutcomes w))); [|reflexivity].
  simpl. rewrite <- (app_nil_r (map _ (sockets w))).
  now rewrite emissions_after_write, emissions_not_rejected.
Qed.

(** On a message that is already read there is nothing to write:
    [markAsRead] emits only after the save has looked the document up, and a
    rejected operation leaves an error line and no emission. *)
Lemma markAsRead_reannounces_after_check (w : World) (socket : SocketId)
      (id : ObjectId) (m : Message) :
  lookup id (messages w) = Some m ->
  isRead m = true ->
  let t := trace_of (Rev1.markAsRead socket id) w in
  (existsb is_emit t = true -> In (Mongo (MessageExists id) true) t) /\
  (existsb is_rejected t = true ->
   existsb is_emit t = false /\ existsb is_error_line t = true).
Proof.
  intros Hl Hr t. subst t.
  assert (Hid : _id m = id) by now apply lookup_id with (messages w).
  rewrite markAsRead_trace, Hl. unfold save_round_trip. rewrite Hr, Hid.
  destruct (hd true (dbOutcomes w)); [|now split].
  destruct (truthy (sender m)); [|now split].
  destruct (hd true (tl (dbOutcomes w))); [|now split].
  split.
  - intros _. right. now left.
  - simpl. rewrite <- (app_nil_r (map _ (sockets w))).
    rewrite emissions_not_rejected. discriminate.
Qed.

(** [setUsername] never emits before the status update is accepted, and
    emits nothing when the update is rejected. *)
Lemma setUsername_emits_after_update (w : World) (socket : SocketId)
      (name : string) :
  emits_after_write false (trace_of (Rev2.setUsername socket name) w) = true /\
  (db_accepts 1 w = false ->
   existsb is_emit (trace_of (Rev2.setUsername socket name) w) = false).
Proof.
  rewrite setUsername_trace. destruct (db_accepts 1 w); split; try easy.
  unfold announce_online. simpl. now rewrite emissions_after_write.
Qed.

(** C8 on the code: the rejected status update of a [setUsername] event is
    not logged.  The exception leaves the handler uncaught, the trace holds
    the rejected update and no error line, so the ordering guarantee fails on
    it; nothing is emitted, and the map has already been written. *)
Theorem setUsername_failure_goes_unlogged :
  result (Rev2.setUsername "s1" "alice") store_down = Throw MongoError /\
  trace_of (Rev2.setUsername "s1" "alice") store_down =
    [Mongo (UserFindOneAndUpdate "alice" "online") false] /\
  persists_then_broadcasts
    (trace_of (Rev2.setUsername "s1" "alice") store_down) = false /\
  onlineUsers (exec (Rev2.setUsername "s1" "alice") store_down) =
    [("s1", "alice")].
Proof.
  repeat split.
Qed.

(** ** The message routes *)

Lemma insert_desc_perm (m : Message) (l : list Message) :
  Permutation (insert_desc m l) (m :: l).
Proof.
  induction l as [|x l IH]; simpl; [reflexivity|].
  destruct (timestamp x <=? timestamp m)%Z; [reflexivity|].
  rewrite IH. apply perm_swap.
Qed.

Lemma sort_desc_perm (l : list Message) : Permutation (sort_desc l) l.
Proof.
  induction l as [|x l IH]; simpl; [reflexivity|].
  rewrite insert_desc_perm. now constructor.
Qed.

Lemma insert_desc_head (m x : Message) (l : list Message) :
  newer_first x m -> HdRel newer_first x l ->
  HdRel newer_first x (insert_desc m l).
Proof.
  intros Hxm Hl. destruct l as [|y l]; simpl.
  - now constructor.
  - destruct (timestamp y <=? timestamp m)%Z; constructor; auto.
    now inversion Hl.
Qed.

Lemma insert_desc_sorted (m : Message) (l : list Message) :
  Sorted newer_first l -> Sorted newer_first (insert_desc m l).
Proof.
  induction l as [|x l IH]; simpl; intros H.
  - repeat constructor.
  - destruct (timestamp x <=? timestamp m)%Z eqn:E.
    + constructor; [exact H|]. constructor.
      unfold newer_first. now apply Z.leb_le.
    + inversion H as [|? ? Hs Hh]; subst.
      constructor; [now apply IH|].
      apply insert_desc_head; [|exact Hh].
      unfold newer_first. apply Z.leb_gt in E. lia.
Qed.

Lemma sort_desc_sorted (l : list Message) : Sorted newer_first (sort_desc l).
Proof.
  induction l as [|x l IH]; simpl; [constructor|].
  now apply insert_desc_sorted.
Qed.

Lemma strict_eq_eq (a b : JsString) : strict_eq a b = true <-> a = b.
Proof.
  destruct a as [x|], b as [y|]; simpl; split; try easy.
  - intros H. apply String.eqb_eq in H. now subst.
  - intros [= ->]. apply String.eqb_refl.
Qed.

Lemma matches_selected (q_sender q_receiver : JsString) (m : Message) :
  matches (filter_key (option_map q_string q_sender))
          (filter_key (option_map q_string q_receiver)) m =
  selected q_sender q_receiver m.
Proof.
  unfold matches, selected, filter_key.
  destruct q_sender as [s|], q_receiver as [r|]; simpl;
    try destruct (s =? ""); try destruct (r =? ""); reflexivity.
Qed.

Lemma selected_spec (q_sender q_receiver : JsString) (m : Message) :
  selected q_sender q_receiver m = true <->
  (truthy q_sender = true -> sender m = q_sender) /\
  (truthy q_receiver = true -> receiver m = q_receiver).
Proof.
  unfold selected. rewrite andb_true_iff, !orb_true_iff, !negb_true_iff,
    !strict_eq_eq.
  destruct (truthy q_sender), (truthy q_receiver); intuition congruence.
Qed.

(** The outcome of [GET /messages] on parsed parameters, in every world. *)
Lemma get_messages_parsed_cases (w : World)
      (q_sender q_receiver : option QueryValue) :
  let op := MessageFind (filter_key q_sender) (filter_key q_receiver) in
  get_messages_parsed q_sender q_receiver w =
  if hd true (dbOutcomes w)
  then (Return (mkResponse 200
                  (json_messages
                     (sort_desc
                        (filter (matches (filter_key q_sender)
                                         (filter_key q_receiver))
                                (messages w))))),
        record [Mongo op true] (set_dbOutcomes (tl (dbOutcomes w)) w))
  else (Return (mkResponse 500 (json_error "Failed to fetch messages")),
        record [Mongo op false;
                ConsoleError "Error fetching messages:" MongoError]
               (set_dbOutcomes (tl (dbOutcomes w)) w)).
Proof.
  intros op. subst op. unfold get_messages_parsed, filter_key. unfold_async.
  destruct (hd true (dbOutcomes w)); simpl; [reflexivity|].
  unfold set_effects; simpl. rewrite <- app_assoc. reflexivity.
Qed.

Lemma get_messages_accepted (w : World) (q_sender q_receiver : JsString) :
  db_accepts 1 w = true ->
  get_messages q_sender q_receiver w =
  (Return (mkResponse 200
             (json_messages
                (sort_desc (filter (selected q_sender q_receiver)
                                   (messages w))))),
   record [Mongo (MessageFind (filter_key (option_map q_string q_sender))
                              (filter_key (option_map q_string q_receiver)))
                 true]
          (set_dbOutcomes (tl (dbOutcomes w)) w)).
Proof.
  rewrite db_accepts_one. intros Hdb.
  unfold get_messages. rewrite get_messages_parsed_cases, Hdb.
  now rewrite (filter_ext _ _ (matches_selected q_sender q_receiver)).
Qed.

(** C9, as worded, fails on a parameter that is not a plain string: for
    [?sender[$ne]=alice] the route lists the message of carol, whose sender
    is not alice. *)
Lemma operator_parameter_lists_other_senders :
  ~ lists_by_equality (Some (q_ne "alice")) None archive.
Proof.
  intros H.
  destruct (H [mkMessage 1 (Some "carol") (Some "bob") (Some "two") 300%Z
                         true false] eq_refl
              (mkMessage 1 (Some "carol") (Some "bob") (Some "two") 300%Z
                         true false)) as [Hs _].
  - now left.
  - discriminate Hs.
Qed.

(** A repeated parameter lists the messages of any of its values. *)
Lemma repeated_parameter_lists_any_of :
  result (get_messages_parsed (Some (q_array ["alice"; "carol"])) None)
         archive =
  Return (mkResponse 200
            (json_messages
               [mkMessage 1 (Some "carol") (Some "bob") (Some "two") 300%Z
                          true false;
                mkMessage 2 (Some "alice") None (Some "three") 200%Z
                          true true;
                mkMessage 0 (Some "alice") (Some "bob") (Some "one") 100%Z
                          true false])).
Proof.
  reflexivity.
Qed.

(** C9, amended.  [GET /messages] with parameters that are plain strings or
    missing, when the store answers: the response is 200 with a list that
    holds exactly the stored messages that agree with every supplied
    parameter (each as often as it is stored; all of them when no parameter
    is supplied), ordered by descending timestamp; the collection is not
    changed. *)
Theorem get_messages_filters_and_sorts :
  forall (w : World) (q_sender q_receiver : JsString),
    db_accepts 1 w = true ->
    exists found,
      result (get_messages q_sender q_receiver) w =
        Return (mkResponse 200 (json_messages found)) /\
      Permutation found
                  (filter (selected q_sender q_receiver) (messages w)) /\
      (forall m,
         In m found <->
         In m (messages w) /\
         (truthy q_sender = true -> sender m = q_sender) /\
         (truthy q_receiver = true -> receiver m = q_receiver)) /\
      (truthy q_sender = false -> truthy q_receiver = false ->
       Permutation found (messages w)) /\
      Sorted newer_first found /\
      messages (exec (get_messages q_sender q_receiver) w) = messages w.
Proof.
  intros w q_sender q_receiver Hdb.
  exists (sort_desc (filter (selected q_sender q_receiver) (messages w))).
  unfold result, exec. rewrite (get_messages_accepted _ _ _ Hdb). simpl.
  split; [reflexivity|].
  split; [apply sort_desc_perm|].
  split.
  { intros m. rewrite <- selected_spec, <- filter_In.
    split; apply Permutation_in;
      [apply sort_desc_perm | symmetry; apply sort_desc_perm]. }
  split.
  { intros Hs Hr. rewrite sort_desc_perm.
    erewrite filter_ext; [rewrite filter_true; reflexivity|].
    intros m. unfold selected. now rewrite Hs, Hr. }
  split; [apply sort_desc_sorted | reflexivity].
Qed.

Lemma get_messages_filters_and_sorts_witness :
  exists found,
    result (get_messages None (Some "bob")) archive =
      Return (mkResponse 200 (json_messages found)) /\
    found = [mkMessage 1 (Some "carol") (Some "bob") (Some "two") 300%Z
                       true false;
             mkMessage 0 (Some "alice") (Some "bob") (Some "one") 100%Z
                       true false] /\
    Sorted newer_first found.
Proof.
  destruct (get_messages_filters_and_sorts archive None (Some "bob") eq_refl)
    as (found & Hres & _ & _ & _ & Hsorted & _).
  exists found. split; [exact Hres|]. split; [|exact Hsorted].
  now injection Hres as <-.
Defined.

Lemma post_messages_accepted (w : World)
      (b_sender b_receiver b_content : JsString) :
  truthy b_sender = true ->
  db_accepts 1 w = true ->
  let m := {| _id := nextId w;
              sender := b_sender;
              receiver := b_receiver;
              content := b_content;
              timestamp := now w;
              isDelivered := true;
              isRead := false |} in
  post_messages b_sender b_receiver b_content w =
  (Return (mkResponse 201 (json_message m)),
   record [Mongo (MessageInsert m) true]
          (set_messages (messages w ++ [m])
             (set_dbOutcomes (tl (dbOutcomes w))
                (set_nextId (S (nextId w)) w)))).
Proof.
  intros Hs. rewrite db_accepts_one. intros Hdb m. subst m.
  unfold post_messages. unfold_async. simpl. rewrite Hs. simpl.
  now rewrite Hdb.
Qed.

(** C10.  [POST /messages] does not run the payload check of [sendMessage]:
    with a non-empty [sender] and an empty or missing [content], once the
    store accepts the insert, the route stores a new message with
    [isDelivered = true], [isRead = false] and that empty content and answers
    201 with it, whereas [sendMessage] given the same fields stores
    nothing. *)
Theorem post_messages_skips_payload_check :
  forall (w : World) (socket : SocketId)
         (b_sender b_receiver b_content : JsString),
    truthy b_sender = true ->
    truthy b_content = false ->
    db_accepts 1 w = true ->
    (exists m,
       result (post_messages b_sender b_receiver b_content) w =
         Return (mkResponse 201 (json_message m)) /\
       messages (exec (post_messages b_sender b_receiver b_content) w) =
         messages w ++ [m] /\
       sender m = b_sender /\
       content m = b_content /\
       truthy (content m) = false /\
       isDelivered m = true /\
       isRead m = false) /\
    messages (exec (Rev1.sendMessage socket
                      (mkSendPayload b_sender b_receiver b_content None)) w) =
      messages w.
Proof.
  intros w socket b_sender b_receiver b_content Hs Hc Hdb. split.
  - eexists. unfold result, exec.
    rewrite (post_messages_accepted w b_sender b_receiver b_content Hs Hdb).
    simpl. repeat split. exact Hc.
  - unfold exec. rewrite sendMessage_invalid; [reflexivity|].
    unfold valid_payload. simpl. rewrite Hc. apply andb_false_r.
Qed.

Lemma post_messages_skips_payload_check_witness :
  (exists m,
     result (post_messages (Some "alice") (Some "bob") (Some "")) archive =
       Return (mkResponse 201 (json_message m)) /\
     messages (exec (post_messages (Some "alice") (Some "bob") (Some ""))
                    archive) = messages archive ++ [m] /\
     sender m = Some "alice" /\
     content m = Some "" /\
     truthy (content m) = false /\
     isDelivered m = true /\
     isRead m = false) /\
  messages (exec (Rev1.sendMessage "s1"
                    (mkSendPayload (Some "alice") (Some "bob") (Some "") None))
                 archive) = messages archive.
Proof.
  apply (post_messages_skips_payload_check
           archive "s1" (Some "alice") (Some "bob") (Some ""));
    reflexivity.
Defined.

(** ** The schema is an invariant of the collection *)

Lemma schema_holds_app (ms : list Message) (m : Message) :
  forallb (fun m => truthy (sender m)) ms = true ->
  truthy (sender m) = true ->
  forallb (fun m => truthy (sender m)) (ms ++ [m]) = true.
Proof.
  intros Hms Hm. rewrite forallb_app, Hms. simpl. now rewrite Hm.
Qed.

Lemma sendMessage_keeps_schema (w : World) (socket : SocketId)
      (message : SendPayload) :
  schema_holds w = true ->
  schema_holds (exec (Rev1.sendMessage socket message) w) = true.
Proof.
  unfold schema_holds, exec. intros H.
  destruct (valid_payload message) eqn:Hv.
  - destruct (db_accepts 1 w) eqn:Hdb.
    + rewrite sendMessage_stored by assumption. simpl.
      apply schema_holds_app; [exact H|]. simpl.
      unfold valid_payload in Hv. now apply andb_true_iff in Hv.
    + now rewrite sendMessage_rejected.
  - now rewrite sendMessage_invalid.
Qed.

Lemma markAsRead_keeps_schema (w : World) (socket : SocketId)
      (id : ObjectId) :
  schema_holds w = true ->
  schema_holds (exec (Rev1.markAsRead socket id) w) = true.
Proof.
  unfold schema_holds, exec, Rev1.markAsRead. intros H. unfold_async.
  destruct (hd true (dbOutcomes w)); simpl; [|exact H].
  destruct (find _ (messages w)) as [m|]; simpl; [|exact H].
  destruct (truthy (sender m)) eqn:Hs; simpl; [|exact H].
  destruct (isRead m); simpl;
    (destruct (hd true (tl (dbOutcomes w))); simpl; [|exact H]).
  - exact H.
  - now apply schema_holds_replace_first.
Qed.

Lemma post_messages_keeps_schema (w : World)
      (b_sender b_receiver b_content : JsString) :
  schema_holds w = true ->
  schema_holds (exec (post_messages b_sender b_receiver b_content) w) = true.
Proof.
  unfold schema_holds, exec, post_messages. intros H. unfold_async. simpl.
  destruct (truthy b_sender) eqn:Hs; simpl; [|exact H].
  destruct (hd true (dbOutcomes w)); simpl; [|exact H].
  now apply schema_holds_app.
Qed.

(** * Further properties of the handlers and routes *)

(** ** [sendMessage], in every world *)

(** X1.  [sendMessage] never lets an exception leave the handler and touches
    nothing but the message collection: in every world, whatever the payload
    and whatever the store answers, it returns normally, leaves the users,
    the sockets and the [onlineUsers] map as they were, and either leaves the
    collection unchanged and emits nothing, or appends exactly one message to
    it. *)
Theorem sendMessage_total :
  forall (w : World) (socket : SocketId) (message : SendPayload),
    let w' := exec (Rev1.sendMessage socket message) w in
    result (Rev1.sendMessage socket message) w = Return tt /\
    users w' = users w /\
    sockets w' = sockets w /\
    onlineUsers w' = onlineUsers w /\
    ((messages w' = messages w /\
      existsb is_emit (trace_of (Rev1.sendMessage socket message) w) = false)
     \/ exists m, messages w' = messages w ++ [m]).
Proof.
  intros w socket message w'. subst w'.
  rewrite sendMessage_trace. unfold result, exec.
  destruct (valid_payload message) eqn:Hv.
  - destruct (db_accepts 1 w) eqn:Hdb.
    + rewrite (sendMessage_stored w socket message Hv Hdb). simpl.
      repeat split. right. eexists. reflexivity.
    + rewrite (sendMessage_rejected w socket message Hv Hdb). simpl.
      repeat split. left. split; reflexivity.
  - rewrite (sendMessage_invalid w socket message Hv). simpl.
    repeat split. left. split; reflexivity.
Qed.

(** X2.  A valid payload that the store rejects: the handler returns
    normally, the collection is unchanged, nothing is emitted and the error
    is logged after the rejected insert. *)
Theorem sendMessage_store_rejects :
  forall (w : World) (socket : SocketId) (message : SendPayload),
    truthy (p_sender message) = true ->
    truthy (p_content message) = true ->
    db_accepts 1 w = false ->
    result (Rev1.sendMessage socket message) w = Return tt /\
    messages (exec (Rev1.sendMessage socket message) w) = messages w /\
    exists m,
      sender m = p_sender message /\ content m = p_content message /\
      trace_of (Rev1.sendMessage socket message) w =
        [Mongo (MessageInsert m) false;
         ConsoleError "Error saving message:" MongoError].
Proof.
  intros w socket message Hs Hc Hdb.
  assert (Hv : valid_payload message = true)
    by (unfold valid_payload; now rewrite Hs, Hc).
  rewrite sendMessage_trace, Hv, Hdb. unfold result, exec.
  rewrite (sendMessage_rejected w socket message Hv Hdb). simpl.
  split; [reflexivity|]. split; [reflexivity|].
  exists (savedMessage_of w message). repeat split.
Qed.

Lemma sendMessage_store_rejects_witness :
  result (Rev1.sendMessage "s1" (hi_to (Some "bob"))) three_sockets_down
    = Return tt /\
  messages (exec (Rev1.sendMessage "s1" (hi_to (Some "bob")))
                 three_sockets_down) = [] /\
  exists m,
    sender m = Some "alice" /\ content m = Some "hi" /\
    trace_of (Rev1.sendMessage "s1" (hi_to (Some "bob"))) three_sockets_down =
      [Mongo (MessageInsert m) false;
       ConsoleError "Error saving message:" MongoError].
Proof.
  apply (sendMessage_store_rejects three_sockets_down "s1"
           (hi_to (Some "bob"))); reflexivity.
Defined.

Lemma find_of_filter_cons (A : Type) (f : A -> bool) (l : list A) (x : A)
      (rest : list A) :
  filter f l = x :: rest -> find f l = Some x.
Proof.
  induction l as [|a l IH]; simpl; [discriminate|].
  destruct (f a); [now intros [= -> _]|exact IH].
Qed.

(** X3.  When several live sockets carry the receiver's label, an addressed
    message goes to the first of them in connection order and to no other:
    the later claimants of the label receive nothing. *)
Theorem addressed_delivery_first_claimant :
  forall (w : World) (socket : SocketId) (message : SendPayload)
         (first : Socket) (others : list Socket),
    valid_payload message = true ->
    truthy (p_receiver message) = true ->
    db_accepts 1 w = true ->
    filter (fun s => strict_eq (sock_username s) (p_receiver message))
           (sockets w) = first :: others ->
    exists m,
      messages (exec (Rev1.sendMessage socket message) w) =
        messages w ++ [m] /\
      trace_of (Rev1.sendMessage socket message) w =
        [Mongo (MessageInsert m) true;
         Emit (sock_id first) (receiveMessage m)].
Proof.
  intros w socket message first others Hv Hr Hdb Hf.
  destruct (sendMessage_stored_trace w socket message Hv Hdb) as [Hm Ht].
  exists (savedMessage_of w message). rewrite Hm, Ht.
  unfold delivery_of. rewrite Hr, (find_of_filter_cons _ _ _ _ _ Hf).
  split; reflexivity.
Qed.

Lemma addressed_delivery_first_claimant_witness :
  exists m,
    messages (exec (Rev1.sendMessage "s3" (hi_to (Some "alice"))) two_alices)
      = messages two_alices ++ [m] /\
    trace_of (Rev1.sendMessage "s3" (hi_to (Some "alice"))) two_alices =
      [Mongo (MessageInsert m) true; Emit "s1" (receiveMessage m)].
Proof.
  apply (addressed_delivery_first_claimant two_alices "s3"
           (hi_to (Some "alice")) (mkSocket "s1" (Some "alice"))
           [mkSocket "s2" (Some "alice")]); reflexivity.
Defined.

(** ** [markAsRead], in every world *)

Lemma read_step_keeps (id : ObjectId) (a b : Message) :
  read_step id a b ->
  _id b = _id a /\ sender b = sender a /\ receiver b = receiver a /\
  content b = content a /\ timestamp b = timestamp a /\
  isDelivered b = isDelivered a /\ (isRead a = true -> isRead b = true).
Proof.
  intros [-> | [_ ->]]; simpl; repeat split; auto.
Qed.

Lemma read_step_refl (id : ObjectId) (ms : list Message) :
  Forall2 (read_step id) ms ms.
Proof.
  induction ms; constructor; auto. now left.
Qed.

Lemma read_step_replace_first (id : ObjectId) (ms : list Message)
      (m : Message) :
  lookup id ms = Some m ->
  Forall2 (read_step id) ms (replace_first (mark_read m) ms).
Proof.
  unfold lookup. induction ms as [|x ms IH]; simpl; [discriminate|].
  destruct (_id x =? id)%nat eqn:Hx.
  - intros [= ->]. rewrite Nat.eqb_refl. constructor.
    + right. apply Nat.eqb_eq in Hx. now split.
    + apply read_step_refl.
  - intros H.
    assert (Hid : _id m = id) by now apply (lookup_id id ms).
    rewrite Hid, Hx. constructor; [now left | now apply IH].
Qed.

(** The world [markAsRead] ends in, in every world. *)
Lemma markAsRead_messages (w : World) (socket : SocketId) (id : ObjectId) :
  let w' := exec (Rev1.markAsRead socket id) w in
  result (Rev1.markAsRead socket id) w = Return tt /\
  users w' = users w /\ sockets w' = sockets w /\
  onlineUsers w' = onlineUsers w /\ nextId w' = nextId w /\
  messages w' =
    match lookup id (messages w) with
    | Some m =>
        if hd true (dbOutcomes w) && truthy (sender m)
           && hd true (tl (dbOutcomes w))
        then replace_first (mark_read m) (messages w)
        else messages w
    | None => messages w
    end.
Proof.
  unfold result, exec, lookup, Rev1.markAsRead. unfold_async.
  destruct (hd true (dbOutcomes w)); simpl.
  - destruct (find _ (messages w)) as [m|] eqn:Hl; simpl;
      [|now repeat split].
    destruct (truthy (sender m)); simpl; [|now repeat split].
    destruct (isRead m) eqn:Hr; simpl;
      (destruct (hd true (tl (dbOutcomes w))); simpl; [|now repeat split]).
    + do 5 (split; [reflexivity|]).
      symmetry. apply replace_first_read with id; [exact Hl|exact Hr].
    + now repeat split.
  - destruct (find _ (messages w)); now repeat split.
Qed.

(** X4.  [markAsRead] never lets an exception leave the handler, never adds
    or removes a message and changes no field but [isRead]: in every world it
    returns normally, leaves users, sockets and the map alone, and each
    stored document is afterwards either itself or itself with [isRead] set
    (so a read message is never made unread); documents of other identifiers
    are found exactly as before. *)
Theorem markAsRead_total :
  forall (w : World) (socket : SocketId) (id : ObjectId),
    let w' := exec (Rev1.markAsRead socket id) w in
    result (Rev1.markAsRead socket id) w = Return tt /\
    users w' = users w /\
    sockets w' = sockets w /\
    onlineUsers w' = onlineUsers w /\
    List.length (messages w') = List.length (messages w) /\
    Forall2 (fun before after =>
               _id after = _id before /\ sender after = sender before /\
               receiver after = receiver before /\
               content after = content before /\
               timestamp after = timestamp before /\
               isDelivered after = isDelivered before /\
               (isRead before = true -> isRead after = true))
            (messages w) (messages w') /\
    (forall other,
       other <> id ->
       lookup other (messages w') = lookup other (messages w)).
Proof.
  intros w socket id w'.
  destruct (markAsRead_messages w socket id) as (Hr & Hu & Hs & Ho & _ & Hm).
  fold w' in Hu, Hs, Ho, Hm.
  assert (Hstep : Forall2 (read_step id) (messages w) (messages w')).
  { rewrite Hm. destruct (lookup id (messages w)) as [m|] eqn:Hl;
      [|apply read_step_refl].
    destruct (_ && _ && _); [|apply read_step_refl].
    now apply read_step_replace_first. }
  split; [exact Hr|]. split; [exact Hu|]. split; [exact Hs|].
  split; [exact Ho|].
  split; [symmetry; eapply Forall2_length; exact Hstep|].
  split.
  - eapply Forall2_impl; [|exact Hstep]. apply read_step_keeps.
  - intros other Hne. rewrite Hm.
    destruct (lookup id (messages w)) as [m|] eqn:Hl; [|reflexivity].
    destruct (_ && _ && _); [|reflexivity].
    apply lookup_replace_first_other. simpl.
    rewrite (lookup_id id (messages w) m Hl). congruence.
Qed.

(** X5.  [markAsRead] announces only what is stored: in every world, if the
    handler emits anything, then the collection afterwards holds a document
    of that identifier with [isRead = true], and every emission is the update
    [{_id, isRead: true}] of that identifier. *)
Theorem markAsRead_announces_only_stored :
  forall (w : World) (socket : SocketId) (id : ObjectId),
    existsb is_emit (trace_of (Rev1.markAsRead socket id) w) = true ->
    (exists m1,
       lookup id (messages (exec (Rev1.markAsRead socket id) w)) = Some m1 /\
       isRead m1 = true) /\
    (forall to ev,
       In (Emit to ev) (trace_of (Rev1.markAsRead socket id) w) ->
       ev = updateMessageStatus id true).
Proof.
  intros w socket id.
  destruct (markAsRead_messages w socket id) as (_ & _ & _ & _ & _ & Hm).
  rewrite Hm, markAsRead_trace. clear Hm.
  destruct (hd true (dbOutcomes w)); simpl; [|discriminate].
  destruct (lookup id (messages w)) as [m|] eqn:Hl; simpl; [|discriminate].
  destruct (truthy (sender m)); simpl; [|discriminate].
  destruct (hd true (tl (dbOutcomes w))); simpl; [|discriminate].
  intros _. split.
  - exists (mark_read m). split; [|reflexivity].
    now apply lookup_replace_first with m.
  - intros to ev [E | [E | Hin]]; try discriminate.
    apply in_map_iff in Hin as (s & E & _). injection E as _ <-.
    now rewrite (lookup_id id (messages w) m Hl).
Qed.

Lemma markAsRead_announces_only_stored_witness :
  (exists m1,
     lookup 0 (messages (exec (Rev1.markAsRead "s2" 0) one_unread)) = Some m1 /\
     isRead m1 = true) /\
  (forall to ev,
     In (Emit to ev) (trace_of (Rev1.markAsRead "s2" 0) one_unread) ->
     ev = updateMessageStatus 0 true).
Proof.
  apply (markAsRead_announces_only_stored one_unread "s2" 0). reflexivity.
Defined.

(** X6.  The lookup finds an unread message and the store rejects the
    update: the collection is unchanged, the message stays unread, nothing is
    emitted, and the error is logged after the rejected update; the handler
    returns normally. *)
Theorem markAsRead_update_rejected :
  forall (w : World) (socket : SocketId) (id : ObjectId) (m : Message),
    lookup id (messages w) = Some m ->
    isRead m = false ->
    truthy (sender m) = true ->
    hd true (dbOutcomes w) = true ->
    hd true (tl (dbOutcomes w)) = false ->
    result (Rev1.markAsRead socket id) w = Return tt /\
    messages (exec (Rev1.markAsRead socket id) w) = messages w /\
    trace_of (Rev1.markAsRead socket id) w =
      [Mongo (MessageFindById id) true;
       Mongo (MessageUpdate (mark_read m)) false;
       ConsoleError "Error marking message as read:" MongoError].
Proof.
  intros w socket id m Hl Hunread Hs H1 H2.
  destruct (markAsRead_messages w socket id) as (Hr & _ & _ & _ & _ & Hm).
  rewrite Hm, markAsRead_trace, Hl, H1, Hs, H2.
  unfold save_round_trip. rewrite Hunread. simpl. now repeat split.
Qed.

Lemma markAsRead_update_rejected_witness :
  result (Rev1.markAsRead "s2" 0) one_unread_readonly = Return tt /\
  messages (exec (Rev1.markAsRead "s2" 0) one_unread_readonly) =
    messages one_unread /\
  trace_of (Rev1.markAsRead "s2" 0) one_unread_readonly =
    [Mongo (MessageFindById 0) true;
     Mongo (MessageUpdate
              (mkMessage 0 (Some "alice") (Some "bob") (Some "hi") 900%Z
                         true true)) false;
     ConsoleError "Error marking message as read:" MongoError].
Proof.
  apply (markAsRead_update_rejected one_unread_readonly "s2" 0
           (mkMessage 0 (Some "alice") (Some "bob") (Some "hi") 900%Z
                      true false)); reflexivity.
Defined.

(** ** Sending or marking, then querying *)

Lemma sort_desc_newest (ms : list Message) (m : Message) :
  forallb (fun x => (timestamp x <? timestamp m)%Z) ms = true ->
  sort_desc (ms ++ [m]) = m :: sort_desc ms.
Proof.
  induction ms as [|x ms IH]; simpl; [reflexivity|].
  intros H. apply andb_true_iff in H as [Hx Hms].
  rewrite (IH Hms). simpl.
  apply Z.ltb_lt in Hx.
  assert (E : (timestamp m <=? timestamp x)%Z = false)
    by (apply Z.leb_gt; exact Hx).
  now rewrite E.
Qed.

Lemma forallb_filter (A : Type) (p f : A -> bool) (l : list A) :
  forallb p l = true -> forallb p (filter f l) = true.
Proof.
  induction l as [|x l IH]; simpl; [reflexivity|].
  intros H. apply andb_true_iff in H as [Hx Hl].
  destruct (f x); simpl; [rewrite Hx|]; auto.
Qed.

(** X7.  A message sent to a receiver is the first one a query for that
    receiver lists: after a valid addressed [sendMessage] that the store
    accepted, with every stored message older than the server clock,
    [GET /messages?receiver=...] answers 200 with the new message first,
    followed by what the same query listed before. *)
Theorem sent_message_is_listed_first :
  forall (w : World) (socket : SocketId) (message : SendPayload),
    valid_payload message = true ->
    truthy (p_receiver message) = true ->
    db_accepts 2 w = true ->
    all_older w = true ->
    let w' := exec (Rev1.sendMessage socket message) w in
    exists m,
      messages w' = messages w ++ [m] /\
      result (get_messages None (p_receiver message)) w' =
        Return (mkResponse 200
                  (json_messages
                     (m :: listing None (p_receiver message) w))).
Proof.
  intros w socket message Hv Hr Hdb Hold w'.
  rewrite db_accepts_next in Hdb. apply andb_true_iff in Hdb as [Hd1 Hd2].
  rewrite <- db_accepts_one in Hd1.
  assert (Hw' : w' = snd (Rev1.sendMessage socket message w)) by reflexivity.
  rewrite (sendMessage_stored w socket message Hv Hd1) in Hw'. simpl in Hw'.
  assert (Hd2' : db_accepts 1 w' = true) by (rewrite Hw'; exact Hd2).
  exists (savedMessage_of w message).
  split; [now rewrite Hw'|].
  unfold result. rewrite (get_messages_accepted w' _ _ Hd2'). simpl.
  rewrite Hw'. simpl messages. rewrite filter_app. simpl.
  assert (Hsel : selected None (p_receiver message)
                          (savedMessage_of w message) = true).
  { unfold selected. simpl. rewrite Hr. simpl.
    apply strict_eq_eq. reflexivity. }
  rewrite Hsel. unfold listing.
  rewrite sort_desc_newest; [reflexivity|].
  apply forallb_filter. exact Hold.
Qed.

Lemma sent_message_is_listed_first_witness :
  let w' := exec (Rev1.sendMessage "s3" (hi_to (Some "alice"))) two_alices in
  exists m,
    messages w' = messages two_alices ++ [m] /\
    result (get_messages None (Some "alice")) w' =
      Return (mkResponse 200
                (json_messages
                   (m :: listing None (Some "alice") two_alices))).
Proof.
  apply (sent_message_is_listed_first two_alices "s3" (hi_to (Some "alice")));
    reflexivity.
Defined.

Lemma replace_first_unique (ms : list Message) (m x : Message) :
  NoDup (map _id ms) ->
  lookup (_id m) ms = Some m ->
  In x (replace_first (mark_read m) ms) ->
  _id x = _id m -> x = mark_read m.
Proof.
  unfold lookup. induction ms as [|y ms IH]; simpl; [discriminate|].
  intros Hnd Hl Hin Hid. inversion Hnd as [|? ? Hnin Hnd']; subst.
  destruct (_id y =? _id m)%nat eqn:Hy.
  - injection Hl as ->. destruct Hin as [<- | Hin]; [reflexivity|].
    exfalso. apply Hnin. rewrite <- Hid. now apply in_map.
  - destruct Hin as [<- | Hin].
    + rewrite Hid, Nat.eqb_refl in Hy. discriminate.
    + now apply IH.
Qed.

(** X8.  A fetch after [markAsRead] shows the message read: with pairwise
    distinct identifiers in a collection that satisfies its schema, after a
    [markAsRead] of a stored identifier that the store accepted,
    [GET /messages] without parameters answers 200 with a list that holds
    the message with [isRead = true], and every listed message of that
    identifier is read. *)
Theorem read_message_is_listed_read :
  forall (w : World) (socket : SocketId) (id : ObjectId) (m : Message),
    NoDup (map _id (messages w)) ->
    schema_holds w = true ->
    lookup id (messages w) = Some m ->
    db_accepts 3 w = true ->
    let w' := exec (Rev1.markAsRead socket id) w in
    exists found,
      result (get_messages None None) w' =
        Return (mkResponse 200 (json_messages found)) /\
      In (mark_read m) found /\
      (forall x, In x found -> _id x = id -> isRead x = true).
Proof.
  intros w socket id m Hnd Hschema Hl Hdb w'.
  assert (Hs : truthy (sender m) = true) by now apply lookup_sender with w id.
  assert (Hid : _id m = id) by now apply (lookup_id id (messages w)).
  unfold db_accepts in Hdb. change 3 with (2 + 1) in Hdb.
  rewrite accepted_split in Hdb. apply andb_true_iff in Hdb as [Hd2 Hd1].
  assert (Hw' : w' = snd (Rev1.markAsRead socket id w)) by reflexivity.
  rewrite (markAsRead_found w socket id m Hl Hs Hd2) in Hw'. simpl in Hw'.
  assert (Hd1' : db_accepts 1 w' = true).
  { unfold db_accepts. rewrite Hw'. simpl dbOutcomes.
    destruct (dbOutcomes w) as [|a [|b os]]; simpl in *; auto. }
  exists (listing None None w'). unfold result.
  rewrite (get_messages_accepted w' None None Hd1'). simpl.
  split; [reflexivity|].
  assert (Hall : forall x, In x (listing None None w') <->
                           In x (messages w')).
  { intros x. unfold listing. split; intros H.
    - apply (Permutation_in _ (sort_desc_perm _)) in H.
      now apply filter_In in H.
    - apply (Permutation_in _ (Permutation_sym (sort_desc_perm _))).
      apply filter_In. split; [exact H|reflexivity]. }
  split.
  - apply Hall. rewrite Hw'. simpl.
    assert (Hf : lookup id (replace_first (mark_read m) (messages w))
                 = Some (mark_read m))
      by now apply lookup_replace_first with m.
    unfold lookup in Hf. now apply find_some in Hf.
  - intros x Hx Hxid. apply Hall in Hx. rewrite Hw' in Hx. simpl in Hx.
    rewrite <- Hid in Hl, Hxid.
    now rewrite (replace_first_unique (messages w) m x Hnd Hl Hx Hxid).
Qed.

Lemma read_message_is_listed_read_witness :
  let w' := exec (Rev1.markAsRead "s2" 0) one_unread in
  exists found,
    result (get_messages None None) w' =
      Return (mkResponse 200 (json_messages found)) /\
    In (mkMessage 0 (Some "alice") (Some "bob") (Some "hi") 900%Z true true)
       found /\
    (forall x, In x found -> _id x = 0 -> isRead x = true).
Proof.
  apply (read_message_is_listed_read one_unread "s2" 0
           (mkMessage 0 (Some "alice") (Some "bob") (Some "hi") 900%Z
                      true false)); try reflexivity.
  repeat constructor. intros [].
Defined.

(** ** The message routes, in every world *)

(** The outcome of [POST /messages], in every world. *)
Lemma post_messages_cases (w : World)
      (b_sender b_receiver b_content : JsString) :
  let m := {| _id := nextId w;
              sender := b_sender;
              receiver := b_receiver;
              content := b_content;
              timestamp := now w;
              isDelivered := true;
              isRead := false |} in
  post_messages b_sender b_receiver b_content w =
  if truthy b_sender
  then if hd true (dbOutcomes w)
       then (Return (mkResponse 201 (json_message m)),
             record [Mongo (MessageInsert m) true]
                    (set_messages (messages w ++ [m])
                       (set_dbOutcomes (tl (dbOutcomes w))
                          (set_nextId (S (nextId w)) w))))
       else (Return (mkResponse 500 (json_error "Failed to save message")),
             record [Mongo (MessageInsert m) false;
                     ConsoleError "Error saving message:" MongoError]
                    (set_dbOutcomes (tl (dbOutcomes w))
                       (set_nextId (S (nextId w)) w)))
  else (Return (mkResponse 500 (json_error "Failed to save message")),
        record [ConsoleError "Error saving message:"
                             (ValidationError "sender")]
               (set_nextId (S (nextId w)) w)).
Proof.
  intros m. subst m. unfold post_messages. unfold_async. simpl.
  destruct (truthy b_sender); simpl; [|reflexivity].
  destruct (hd true (dbOutcomes w)); simpl; [reflexivity|].
  unfold set_effects; simpl. rewrite <- app_assoc. reflexivity.
Qed.

(** X9.  [POST /messages] never emits to a socket and answers 201 exactly
    when it stored: in every world the users, the sockets and the map are
    untouched and nothing is emitted; either the response is 201 with a
    message that was appended to the collection, or it is 500 "Failed to save
    message", the collection is unchanged and an error line was logged. *)
Theorem post_messages_total :
  forall (w : World) (b_sender b_receiver b_content : JsString),
    let route := post_messages b_sender b_receiver b_content in
    let w' := exec route w in
    users w' = users w /\ sockets w' = sockets w /\
    onlineUsers w' = onlineUsers w /\
    existsb is_emit (trace_of route w) = false /\
    ((exists m,
        result route w = Return (mkResponse 201 (json_message m)) /\
        messages w' = messages w ++ [m])
     \/
     (result route w =
        Return (mkResponse 500 (json_error "Failed to save message")) /\
      messages w' = messages w /\
      existsb is_error_line (trace_of route w) = true)).
Proof.
  intros w b_sender b_receiver b_content route w'. subst route w'.
  unfold trace_of, result, exec.
  rewrite post_messages_cases.
  destruct (truthy b_sender); [destruct (hd true (dbOutcomes w))|];
    simpl; rewrite skipn_length_app; simpl; repeat split.
  - left. eexists. split; reflexivity.
  - right. repeat split.
  - right. repeat split.
Qed.

(** X10.  [POST /messages] without a sender (missing or empty): the schema
    refuses the document before any database operation, the route answers 500
    "Failed to save message", stores nothing and logs the validation error of
    the path [sender]. *)
Theorem post_messages_needs_sender :
  forall (w : World) (b_sender b_receiver b_content : JsString),
    truthy b_sender = false ->
    let route := post_messages b_sender b_receiver b_content in
    result route w =
      Return (mkResponse 500 (json_error "Failed to save message")) /\
    messages (exec route w) = messages w /\
    trace_of route w =
      [ConsoleError "Error saving message:" (ValidationError "sender")].
Proof.
  intros w b_sender b_receiver b_content Hs route. subst route.
  unfold trace_of, result, exec. rewrite post_messages_cases, Hs. simpl.
  rewrite skipn_length_app. repeat split.
Qed.

Lemma post_messages_needs_sender_witness :
  result (post_messages None (Some "bob") (Some "hi")) archive =
    Return (mkResponse 500 (json_error "Failed to save message")) /\
  messages (exec (post_messages None (Some "bob") (Some "hi")) archive) =
    messages archive /\
  trace_of (post_messages None (Some "bob") (Some "hi")) archive =
    [ConsoleError "Error saving message:" (ValidationError "sender")].
Proof.
  apply (post_messages_needs_sender archive None (Some "bob") (Some "hi")).
  reflexivity.
Defined.

(** The outcome of [GET /messages], in every world. *)
Lemma get_messages_cases (w : World) (q_sender q_receiver : JsString) :
  let op := MessageFind (filter_key (option_map q_string q_sender))
                        (filter_key (option_map q_string q_receiver)) in
  get_messages q_sender q_receiver w =
  if hd true (dbOutcomes w)
  then (Return (mkResponse 200
                  (json_messages (listing q_sender q_receiver w))),
        record [Mongo op true] (set_dbOutcomes (tl (dbOutcomes w)) w))
  else (Return (mkResponse 500 (json_error "Failed to fetch messages")),
        record [Mongo op false;
                ConsoleError "Error fetching messages:" MongoError]
               (set_dbOutcomes (tl (dbOutcomes w)) w)).
Proof.
  intros op. subst op. unfold get_messages, listing.
  rewrite get_messages_parsed_cases.
  destruct (hd true (dbOutcomes w)); [|reflexivity].
  now rewrite (filter_ext _ _ (matches_selected q_sender q_receiver)).
Qed.



(** ** [setUsername] of the first revision, then [sendMessage] *)

Lemma setUsername_sockets (w : World) (socket : SocketId) (name : string) :
  Rev1.setUsername socket name w =
  (Return tt,
   record [ConsoleLog ("Socket " ++ socket ++ " set as " ++ name)%string]
          (set_sockets
             (map (fun s => if sock_id s =? socket
                            then mkSocket (sock_id s) (Some name)
                            else s)
                  (sockets w)) w)).
Proof.
  unfold Rev1.setUsername, Rev1.assign_username. unfold_async. reflexivity.
Qed.

Lemma find_assigned (ss : list Socket) (b : SocketId) (r : string) :
  (exists s, In s ss /\ sock_id s = b) ->
  (forall s, In s ss -> sock_id s <> b -> sock_username s <> Some r) ->
  exists target,
    sock_id target = b /\
    find (fun s => strict_eq (sock_username s) (Some r))
         (map (fun s => if sock_id s =? b
                        then mkSocket (sock_id s) (Some r)
                        else s) ss) = Some target.
Proof.
  induction ss as [|x ss IH]; intros (s & Hin & Hs) Hothers.
  - destruct Hin.
  - simpl. destruct (sock_id x =? b) eqn:Hx.
    + apply String.eqb_eq in Hx. simpl. rewrite String.eqb_refl.
      exists (mkSocket (sock_id x) (Some r)). now split.
    + assert (Hxr : strict_eq (sock_username x) (Some r) = false).
      { apply not_true_is_false. rewrite strict_eq_eq.
        apply Hothers; [now left|]. now apply String.eqb_neq. }
      rewrite Hxr. apply IH.
      * destruct Hin as [-> | Hin].
        -- rewrite Hs, String.eqb_refl in Hx. discriminate.
        -- now exists s.
      * intros y Hy. apply Hothers. now right.
Qed.

(** X12.  Declaring, then being addressed: once a live socket has declared a
    label that no other live socket carries, a valid message addressed to
    that label (stored by the store) is emitted to that socket and to it
    alone, whoever sends it. *)
Theorem declared_label_receives :
  forall (w : World) (from to : SocketId) (r : string)
         (message : SendPayload),
    (exists s, In s (sockets w) /\ sock_id s = to) ->
    (forall s, In s (sockets w) -> sock_id s <> to ->
               sock_username s <> Some r) ->
    valid_payload message = true ->
    p_receiver message = Some r ->
    r <> "" ->
    db_accepts 1 w = true ->
    let w1 := exec (Rev1.setUsername to r) w in
    exists m,
      receiver m = Some r /\
      messages (exec (Rev1.sendMessage from message) w1) =
        messages w ++ [m] /\
      trace_of (Rev1.sendMessage from message) w1 =
        [Mongo (MessageInsert m) true; Emit to (receiveMessage m)].
Proof.
  intros w from to r message Hlive Hothers Hv Hrecv Hr Hdb w1.
  assert (Hw1 : w1 = snd (Rev1.setUsername to r w)) by reflexivity.
  rewrite setUsername_sockets in Hw1. simpl in Hw1.
  assert (Htr : truthy (p_receiver message) = true).
  { rewrite Hrecv. simpl. apply String.eqb_neq in Hr. now rewrite Hr. }
  assert (Hdb1 : db_accepts 1 w1 = true) by (rewrite Hw1; exact Hdb).
  destruct (sendMessage_stored_trace w1 from message Hv Hdb1) as [Hm Ht].
  destruct (find_assigned (sockets w) to r Hlive Hothers)
    as (target & Hid & Hfind).
  exists (savedMessage_of w1 message). rewrite Hm, Ht.
  split; [simpl; now rewrite Htr|].
  split; [now rewrite Hw1|].
  unfold delivery_of. rewrite Htr, Hrecv.
  replace (sockets w1) with
    (map (fun s => if sock_id s =? to then mkSocket (sock_id s) (Some r)
                   else s) (sockets w)) by now rewrite Hw1.
  now rewrite Hfind, Hid.
Qed.

Lemma declared_label_receives_witness :
  let w1 := exec (Rev1.setUsername "s3" "carol") three_sockets in
  exists m,
    receiver m = Some "carol" /\
    messages (exec (Rev1.sendMessage "s1" (hi_to (Some "carol"))) w1) =
      messages three_sockets ++ [m] /\
    trace_of (Rev1.sendMessage "s1" (hi_to (Some "carol"))) w1 =
      [Mongo (MessageInsert m) true; Emit "s3" (receiveMessage m)].
Proof.
  apply (declared_label_receives three_sockets "s1" "s3" "carol"
           (hi_to (Some "carol"))); try reflexivity; try discriminate.
  - exists (mkSocket "s3" None). split; [simpl; tauto|reflexivity].
  - intros s [<- | [<- | [<- | []]]] H; simpl in *; congruence.
Defined.

(** ** The presence registry of the second revision *)

Lemma status_of_update_same (name s : string) (us : list User) :
  status_of name us <> None ->
  status_of name (update_status name s us) = Some s.
Proof.
  unfold status_of. induction us as [|u us IH]; simpl; [congruence|].
  destruct (username u =? name) eqn:E; simpl.
  - now rewrite E.
  - rewrite E. exact IH.
Qed.

Lemma status_of_update_other (name other s : string) (us : list User) :
  other <> name ->
  status_of other (update_status name s us) = status_of other us.
Proof.
  unfold status_of. intros Hne. induction us as [|u us IH]; simpl; [easy|].
  destruct (username u =? name) eqn:E; simpl.
  - apply String.eqb_eq in E.
    assert (Ho : (username u =? other) = false)
      by (apply String.eqb_neq; congruence).
    now rewrite Ho.
  - destruct (username u =? other); [reflexivity|exact IH].
Qed.

Lemma update_status_absent (name s : string) (us : list User) :
  status_of name us = None -> update_status name s us = us.
Proof.
  unfold status_of. induction us as [|u us IH]; simpl; [easy|].
  destruct (username u =? name); [discriminate|].
  intros H. now rewrite IH.
Qed.

Lemma get_none_not_key (k : SocketId) (m : JsMap.t) :
  JsMap.get k m = None -> ~ In k (JsMap.keys m).
Proof.
  induction m as [|[k' v'] m IH]; simpl; [tauto|].
  destruct (k' =? k) eqn:E; [discriminate|].
  intros H [Hk | Hin]; [|now apply IH].
  subst k'. now rewrite String.eqb_refl in E.
Qed.

Lemma get_some_value (k : SocketId) (l : string) (m : JsMap.t) :
  JsMap.get k m = Some l -> In l (JsMap.values m).
Proof.
  induction m as [|[k' v'] m IH]; simpl; [discriminate|].
  destruct (k' =? k); [intros [= ->]; now left|].
  intros H. right. now apply IH.
Qed.

Lemma set_absent (k : SocketId) (v : string) (m : JsMap.t) :
  JsMap.get k m = None -> JsMap.set k v m = m ++ [(k, v)].
Proof.
  induction m as [|[k' v'] m IH]; simpl; [reflexivity|].
  destruct (k' =? k); [discriminate|].
  intros H. now rewrite IH.
Qed.

Lemma delete_absent (k : SocketId) (m : JsMap.t) :
  JsMap.get k m = None -> JsMap.delete k m = m.
Proof.
  unfold JsMap.delete.
  induction m as [|[k' v'] m IH]; simpl; [reflexivity|].
  destruct (k' =? k); [discriminate|].
  intros H. simpl. now rewrite IH.
Qed.

Lemma delete_set_absent (k : SocketId) (v : string) (m : JsMap.t) :
  JsMap.get k m = None -> JsMap.delete k (JsMap.set k v m) = m.
Proof.
  intros H. rewrite (set_absent k v m H).
  unfold JsMap.delete. rewrite filter_app. simpl.
  rewrite String.eqb_refl. simpl. rewrite app_nil_r.
  now apply delete_absent.
Qed.

Lemma keys_set_present (k : SocketId) (v old : string) (m : JsMap.t) :
  JsMap.get k m = Some old -> JsMap.keys (JsMap.set k v m) = JsMap.keys m.
Proof.
  unfold JsMap.keys.
  induction m as [|[k' v'] m IH]; simpl; [discriminate|].
  destruct (k' =? k) eqn:E; simpl.
  - apply String.eqb_eq in E. now subst k'.
  - intros H. now rewrite IH.
Qed.

Lemma keys_delete_in (k x : SocketId) (m : JsMap.t) :
  In x (JsMap.keys (JsMap.delete k m)) -> x <> k /\ In x (JsMap.keys m).
Proof.
  unfold JsMap.delete.
  induction m as [|[k' v'] m IH]; simpl; [tauto|].
  destruct (k' =? k) eqn:E; simpl.
  - intros H. destruct (IH H). tauto.
  - apply String.eqb_neq in E.
    intros [<- | H]; [tauto|]. destruct (IH H). tauto.
Qed.

Lemma values_set (k : SocketId) (v : string) (m : JsMap.t) (x : string) :
  In x (JsMap.values (JsMap.set k v m)) -> x = v \/ In x (JsMap.values m).
Proof.
  unfold JsMap.values.
  induction m as [|[k' v'] m IH]; simpl.
  - intros [<- | []]. now left.
  - destruct (k' =? k); simpl.
    + intros [<- | H]; tauto.
    + intros [<- | H]; [tauto|]. destruct (IH H); tauto.
Qed.

Lemma values_delete (k : SocketId) (m : JsMap.t) (x : string) :
  In x (JsMap.values (JsMap.delete k m)) -> In x (JsMap.values m).
Proof.
  unfold JsMap.values, JsMap.delete.
  induction m as [|[k' v'] m IH]; simpl; [tauto|].
  destruct (k' =? k); simpl; tauto.
Qed.

(** X13.  Closing a connection that never declared a label is invisible: the
    [disconnect] handler sends nothing to the store, leaves the map and the
    users as they were, emits nothing, and only writes its console line. *)
Theorem disconnect_unclaimed_is_silent :
  forall (w : World) (socket : SocketId),
    JsMap.get socket (onlineUsers w) = None ->
    let w' := exec (Rev2.disconnect socket) w in
    result (Rev2.disconnect socket) w = Return tt /\
    onlineUsers w' = onlineUsers w /\
    users w' = users w /\
    dbOutcomes w' = dbOutcomes w /\
    trace_of (Rev2.disconnect socket) w =
      [ConsoleLog ("User disconnected: " ++ socket)%string].
Proof.
  intros w socket Hg w'. subst w'. unfold trace_of, result, exec.
  rewrite disconnect_unclaimed by now rewrite Hg.
  simpl. rewrite skipn_length_app. now repeat split.
Qed.

Lemma disconnect_unclaimed_is_silent_witness :
  let w' := exec (Rev2.disconnect "s2") alice_online in
  result (Rev2.disconnect "s2") alice_online = Return tt /\
  onlineUsers w' = [("s1", "alice")] /\
  users w' = users alice_online /\
  dbOutcomes w' = [] /\
  trace_of (Rev2.disconnect "s2") alice_online =
    [ConsoleLog "User disconnected: s2"].
Proof.
  apply (disconnect_unclaimed_is_silent alice_online "s2"). reflexivity.
Defined.

(** X14.  Declaring and then closing is a round trip on the map: for a
    connection without an entry and a non-empty label, after the
    [setUsername] event and then the close of the connection (the socket
    leaves the live sockets, then the [disconnect] listener runs), both
    accepted by the store, the [onlineUsers] map is what it was before the
    declaration, the sequence of that map is emitted to the sockets that
    remain and nothing is emitted to the closed one, and a user of that
    name, if there is one, has the status "offline" while the other users
    keep theirs. *)
Theorem declare_then_close_restores_registry :
  forall (w : World) (socket : SocketId) (name : string),
    JsMap.get socket (onlineUsers w) = None ->
    name <> "" ->
    db_accepts 2 w = true ->
    let w1 := exec (Rev2.handle (Rev2.declared socket name)) w in
    let w2 := exec (Rev2.handle (Rev2.closed socket)) w1 in
    let remaining :=
      filter (fun s => negb (sock_id s =? socket)) (sockets w) in
    onlineUsers w2 = onlineUsers w /\
    sockets w2 = remaining /\
    (status_of name (users w) <> None ->
     status_of name (users w2) = Some "offline") /\
    (forall other,
       other <> name ->
       status_of other (users w2) = status_of other (users w)) /\
    trace_of (Rev2.handle (Rev2.closed socket)) w1 =
      Mongo (UserFindOneAndUpdate name "offline") true
        :: map (fun s => Emit (sock_id s)
                           (onlineUsersEvent (JsMap.values (onlineUsers w))))
               remaining
        ++ [ConsoleLog ("User disconnected: " ++ socket)%string] /\
    (forall ev,
       ~ In (Emit socket ev) (trace_of (Rev2.handle (Rev2.closed socket)) w1)).
Proof.
  intros w socket name Hg Hname Hdb w1 w2 remaining.
  rewrite db_accepts_next in Hdb. apply andb_true_iff in Hdb as [Hd1 Hd2].
  rewrite <- db_accepts_one in Hd1.
  assert (Hw1 : w1 = snd (Rev2.setUsername socket name w)) by reflexivity.
  rewrite (setUsername_accepted w socket name Hd1) in Hw1. simpl in Hw1.
  remember (set_sockets remaining w1) as closed1 eqn:Hc.
  assert (Hou : onlineUsers closed1 = JsMap.set socket name (onlineUsers w))
    by (rewrite Hc, Hw1; reflexivity).
  assert (Hus : users closed1 = update_status name "online" (users w))
    by (rewrite Hc, Hw1; reflexivity).
  assert (Hso : sockets closed1 = remaining) by (rewrite Hc; reflexivity).
  assert (Hef : effects closed1 = effects w1) by (rewrite Hc; reflexivity).
  assert (Hg1 : JsMap.get socket (onlineUsers closed1) = Some name)
    by (rewrite Hou; apply get_set_same).
  assert (Hd2' : db_accepts 1 closed1 = true)
    by (rewrite Hc, Hw1; exact Hd2).
  assert (Hhandle : Rev2.handle (Rev2.closed socket) w1
                    = Rev2.disconnect socket closed1).
  { rewrite Hc. unfold remaining. simpl. unfold bind, transport_close.
    now rewrite Hw1. }
  assert (Hreg : JsMap.delete socket (onlineUsers closed1) = onlineUsers w).
  { rewrite Hou. now apply delete_set_absent. }
  pose proof (disconnect_claimed closed1 socket name Hg1 Hname Hd2') as Hd.
  rewrite Hreg, Hus in Hd. unfold announce_online in Hd. rewrite Hso in Hd.
  assert (Hw2 : w2 = snd (Rev2.disconnect socket closed1))
    by (unfold w2, exec; now rewrite Hhandle).
  rewrite Hd in Hw2. simpl in Hw2.
  assert (Htrace :
            trace_of (Rev2.handle (Rev2.closed socket)) w1 =
            Mongo (UserFindOneAndUpdate name "offline") true
              :: map (fun s => Emit (sock_id s)
                                 (onlineUsersEvent
                                    (JsMap.values (onlineUsers w))))
                     remaining
              ++ [ConsoleLog ("User disconnected: " ++ socket)%string]).
  { apply trace_of_extends. unfold exec. rewrite Hhandle, Hd.
    unfold record. cbn [snd effects set_effects set_onlineUsers set_users
                        set_dbOutcomes].
    now rewrite Hef. }
  split; [now rewrite Hw2|].
  split; [rewrite Hw2; simpl; exact Hso|].
  split.
  { intros Hu. rewrite Hw2. simpl. apply status_of_update_same.
    rewrite status_of_update_same by exact Hu. discriminate. }
  split.
  { intros other Hne. rewrite Hw2. simpl.
    rewrite status_of_update_other by exact Hne.
    now apply status_of_update_other. }
  split; [exact Htrace|].
  intros ev Hin. rewrite Htrace in Hin.
  destruct Hin as [E | Hin]; [discriminate|].
  apply in_app_or in Hin as [Hin | [E | []]]; [|discriminate].
  apply in_map_iff in Hin as (s & E & Hs). injection E as E _.
  unfold remaining in Hs. apply filter_In in Hs as [_ Hs].
  apply negb_true_iff, String.eqb_neq in Hs. contradiction.
Qed.

Lemma declare_then_close_restores_registry_witness :
  let w1 := exec (Rev2.handle (Rev2.declared "s1" "alice")) lobby in
  let w2 := exec (Rev2.handle (Rev2.closed "s1")) w1 in
  onlineUsers w2 = [("s2", "bob")] /\
  sockets w2 = [mkSocket "s2" None] /\
  (status_of "alice" (users lobby) <> None ->
   status_of "alice" (users w2) = Some "offline") /\
  (forall other,
     other <> "alice" ->
     status_of other (users w2) = status_of other (users lobby)) /\
  trace_of (Rev2.handle (Rev2.closed "s1")) w1 =
    [Mongo (UserFindOneAndUpdate "alice" "offline") true;
     Emit "s2" (onlineUsersEvent ["bob"]);
     ConsoleLog "User disconnected: s1"] /\
  (forall ev,
     ~ In (Emit "s1" ev) (trace_of (Rev2.handle (Rev2.closed "s1")) w1)).
Proof.
  apply (declare_then_close_restores_registry lobby "s1" "alice").
  - reflexivity.
  - discriminate.
  - reflexivity.
Defined.

(** X15.  Declaring a second label on a connection replaces the first in
    place and never marks the first identity offline: the connection holds
    the new label, the map has the same keys in the same order, the only
    operation sent to the store is the "online" update of the new label, and
    the status of the user of the old label is what it was. *)
Theorem redeclare_replaces_label :
  forall (w : World) (socket : SocketId) (old name : string),
    JsMap.get socket (onlineUsers w) = Some old ->
    old <> name ->
    db_accepts 1 w = true ->
    let w' := exec (Rev2.setUsername socket name) w in
    JsMap.get socket (onlineUsers w') = Some name /\
    JsMap.keys (onlineUsers w') = JsMap.keys (onlineUsers w) /\
    status_of old (users w') = status_of old (users w) /\
    filter (fun e => negb (is_emit e))
           (trace_of (Rev2.setUsername socket name) w) =
      [Mongo (UserFindOneAndUpdate name "online") true;
       ConsoleLog ("Socket " ++ socket ++ " set as " ++ name)%string].
Proof.
  intros w socket old name Hg Hne Hdb w'.
  assert (Hw' : w' = snd (Rev2.setUsername socket name w)) by reflexivity.
  rewrite (setUsername_accepted w socket name Hdb) in Hw'. simpl in Hw'.
  split; [rewrite Hw'; apply get_set_same|].
  split; [rewrite Hw'; simpl; now apply keys_set_present with old|].
  split; [rewrite Hw'; simpl; now apply status_of_update_other|].
  rewrite setUsername_trace, Hdb. unfold announce_online. simpl.
  rewrite filter_app. simpl. f_equal.
  set (labels := JsMap.values _).
  induction (sockets w) as [|s ss IH]; simpl; auto.
Qed.

Lemma redeclare_replaces_label_witness :
  let w' := exec (Rev2.setUsername "s1" "bob") alice_online in
  JsMap.get "s1" (onlineUsers w') = Some "bob" /\
  JsMap.keys (onlineUsers w') = ["s1"] /\
  status_of "alice" (users w') = Some "online" /\
  filter (fun e => negb (is_emit e))
         (trace_of (Rev2.setUsername "s1" "bob") alice_online) =
    [Mongo (UserFindOneAndUpdate "bob" "online") true;
     ConsoleLog "Socket s1 set as bob"].
Proof.
  apply (redeclare_replaces_label alice_online "s1" "alice" "bob").
  - reflexivity.
  - discriminate.
  - reflexivity.
Defined.

(** X16.  A [disconnect] whose status update the store rejects leaves the
    entry of the closed connection in the map: the exception leaves the
    handler uncaught, the map and the users are unchanged, nothing is
    emitted and no console line, not even the one of the disconnect, is
    written. *)
Theorem disconnect_rejected_leaves_entry :
  forall (w : World) (socket : SocketId) (l : string),
    JsMap.get socket (onlineUsers w) = Some l ->
    l <> "" ->
    db_accepts 1 w = false ->
    let w' := exec (Rev2.disconnect socket) w in
    result (Rev2.disconnect socket) w = Throw MongoError /\
    JsMap.get socket (onlineUsers w') = Some l /\
    onlineUsers w' = onlineUsers w /\
    users w' = users w /\
    trace_of (Rev2.disconnect socket) w =
      [Mongo (UserFindOneAndUpdate l "offline") false].
Proof.
  intros w socket l Hg Hl Hdb w'. subst w'. unfold trace_of, result, exec.
  rewrite (disconnect_rejected w socket l Hg Hl Hdb). simpl.
  rewrite skipn_length_app. now repeat split.
Qed.

Lemma disconnect_rejected_leaves_entry_witness :
  let w' := exec (Rev2.disconnect "s1") alice_online_down in
  result (Rev2.disconnect "s1") alice_online_down = Throw MongoError /\
  JsMap.get "s1" (onlineUsers w') = Some "alice" /\
  onlineUsers w' = [("s1", "alice")] /\
  users w' = users alice_online /\
  trace_of (Rev2.disconnect "s1") alice_online_down =
    [Mongo (UserFindOneAndUpdate "alice" "offline") false].
Proof.
  apply (disconnect_rejected_leaves_entry alice_online_down "s1" "alice").
  - reflexivity.
  - discriminate.
  - reflexivity.
Defined.

(** X17.  A label without a user record goes online all the same:
    [setUsername] does not look the label up and the update creates nothing,
    so the user collection is unchanged while the label is entered in the
    map and is part of the sequence emitted to every live socket. *)
Theorem unknown_label_goes_online :
  forall (w : World) (socket : SocketId) (name : string),
    status_of name (users w) = None ->
    db_accepts 1 w = true ->
    let w' := exec (Rev2.setUsername socket name) w in
    result (Rev2.setUsername socket name) w = Return tt /\
    users w' = users w /\
    JsMap.get socket (onlineUsers w') = Some name /\
    exists labels,
      In name labels /\
      forall s, In s (sockets w) ->
                In (Emit (sock_id s) (onlineUsersEvent labels))
                   (trace_of (Rev2.setUsername socket name) w).
Proof.
  intros w socket name Hu Hdb w'.
  assert (Hw' : w' = snd (Rev2.setUsername socket name w)) by reflexivity.
  rewrite setUsername_trace, Hdb. unfold result.
  rewrite (setUsername_accepted w socket name Hdb) in Hw' |- *.
  simpl in Hw' |- *.
  split; [reflexivity|].
  split; [rewrite Hw'; simpl; now apply update_status_absent|].
  split; [rewrite Hw'; apply get_set_same|].
  exists (JsMap.values (JsMap.set socket name (onlineUsers w))). split.
  - apply get_some_value with socket. apply get_set_same.
  - intros s Hs. right. apply in_or_app. left. unfold announce_online.
    apply (in_map (fun s => Emit (sock_id s) _) _ _ Hs).
Qed.

Lemma unknown_label_goes_online_witness :
  let w' := exec (Rev2.setUsername "s1" "mallory") lobby in
  result (Rev2.setUsername "s1" "mallory") lobby = Return tt /\
  users w' = users lobby /\
  JsMap.get "s1" (onlineUsers w') = Some "mallory" /\
  exists labels,
    In "mallory" labels /\
    forall s, In s (sockets lobby) ->
              In (Emit (sock_id s) (onlineUsersEvent labels))
                 (trace_of (Rev2.setUsername "s1" "mallory") lobby).
Proof.
  apply (unknown_label_goes_online lobby "s1" "mallory"); reflexivity.
Defined.

(** X18.  [GET /online-users] serves what was last broadcast: after a
    [setUsername] that the store accepted, the route answers with the very
    sequence of labels that the handler emitted to every live socket, and the
    declared label is in it. *)
Theorem online_users_route_matches_broadcast :
  forall (w : World) (socket : SocketId) (name : string),
    db_accepts 1 w = true ->
    let w' := exec (Rev2.setUsername socket name) w in
    exists labels,
      result Rev2.get_online_users w' = Return labels /\
      In name labels /\
      (forall to ev,
         In (Emit to ev) (trace_of (Rev2.setUsername socket name) w) ->
         ev = onlineUsersEvent labels) /\
      (forall s, In s (sockets w) ->
                 In (Emit (sock_id s) (onlineUsersEvent labels))
                    (trace_of (Rev2.setUsername socket name) w)).
Proof.
  intros w socket name Hdb w'.
  assert (Hw' : w' = snd (Rev2.setUsername socket name w)) by reflexivity.
  rewrite (setUsername_accepted w socket name Hdb) in Hw'. simpl in Hw'.
  rewrite setUsername_trace, Hdb.
  exists (JsMap.values (JsMap.set socket name (onlineUsers w))).
  split; [now rewrite Hw'|].
  split; [apply get_some_value with socket; apply get_set_same|].
  unfold announce_online. split.
  - intros to ev [E | Hin]; [discriminate|].
    apply in_app_or in Hin as [Hin | [E | []]]; [|discriminate].
    apply in_map_iff in Hin as (s & E & _). now injection E.
  - intros s Hs. right. apply in_or_app. left.
    apply (in_map (fun s => Emit (sock_id s) _) _ _ Hs).
Qed.

Lemma online_users_route_matches_broadcast_witness :
  let w' := exec (Rev2.setUsername "s1" "alice") lobby in
  exists labels,
    result Rev2.get_online_users w' = Return labels /\
    In "alice" labels /\
    (forall to ev,
       In (Emit to ev) (trace_of (Rev2.setUsername "s1" "alice") lobby) ->
       ev = onlineUsersEvent labels) /\
    (forall s, In s (sockets lobby) ->
               In (Emit (sock_id s) (onlineUsersEvent labels))
                  (trace_of (Rev2.setUsername "s1" "alice") lobby)).
Proof.
  apply (online_users_route_matches_broadcast lobby "s1" "alice").
  reflexivity.
Defined.

(** ** The entries of the map and the live sockets *)

Lemma live_after_close (k socket : SocketId) (ss : list Socket) :
  existsb (fun s => sock_id s =? k) ss = true ->
  k <> socket ->
  existsb (fun s => sock_id s =? k)
          (filter (fun s => negb (sock_id s =? socket)) ss) = true.
Proof.
  intros H Hne. apply existsb_exists in H as (s & Hin & Hs).
  apply existsb_exists. exists s. split; [|exact Hs].
  apply filter_In. split; [exact Hin|].
  apply String.eqb_eq in Hs. apply negb_true_iff, String.eqb_neq. congruence.
Qed.

Lemma handle_keeps_orderly_registry (e : Rev2.Event) (w : World) :
  orderly_registry w ->
  admissible e w = true ->
  orderly_registry (exec (Rev2.handle e) w).
Proof.
  intros (Hdb & Hlive & Hval) Hadm.
  assert (Hacc : forall w0, dbOutcomes w0 = [] -> db_accepts 1 w0 = true).
  { intros w0 H0. rewrite db_accepts_one, H0. reflexivity. }
  destruct e as [socket | socket name | socket]; unfold exec; simpl.
  - (* opened *)
    unfold bind, transport_open, Rev2.connection, console_log. simpl.
    split; [exact Hdb|]. split.
    + intros k Hk. unfold live. simpl. rewrite existsb_app.
      apply orb_true_iff. left. now apply Hlive.
    + exact Hval.
  - (* declared *)
    simpl in Hadm. apply andb_true_iff in Hadm as [Hsock Hname].
    apply negb_true_iff, String.eqb_neq in Hname.
    rewrite (setUsername_accepted w socket name (Hacc w Hdb)). simpl.
    split; [now rewrite Hdb|]. split.
    + intros k Hk. unfold live. simpl.
      apply keys_set in Hk as [-> | Hk]; [exact Hsock|now apply Hlive].
    + intros v Hv. apply values_set in Hv as [-> | Hv]; auto.
  - (* closed *)
    unfold bind, transport_close.
    set (w1 := set_sockets _ w).
    assert (Hdb1 : dbOutcomes w1 = []) by exact Hdb.
    destruct (JsMap.get socket (onlineUsers w1)) as [l|] eqn:Hg.
    + assert (Hl : l <> "").
      { apply Hval. now apply get_some_value with socket. }
      rewrite (disconnect_claimed w1 socket l Hg Hl (Hacc w1 Hdb1)). simpl.
      split; [now rewrite Hdb|]. split.
      * intros k Hk. unfold live. simpl in Hk |- *.
        apply keys_delete_in in Hk as [Hne Hk].
        apply live_after_close; [now apply Hlive|exact Hne].
      * intros v Hv. simpl in Hv. apply values_delete in Hv. now apply Hval.
    + rewrite disconnect_unclaimed by now rewrite Hg. simpl.
      split; [exact Hdb|]. split.
      * intros k Hk. unfold live. simpl in Hk |- *.
        apply live_after_close; [now apply Hlive|].
        intros ->. now apply (get_none_not_key socket (onlineUsers w)).
      * exact Hval.
Qed.

(** X19.  No stale presence while the store works: from a server start (no
    entry in the map) with a store that accepts every operation, after any
    sequence of connection, declaration and close events in which labels are
    declared non-empty and on live sockets, every entry of the
    [onlineUsers] map belongs to a socket that is still live, and no entry
    holds the empty label. *)
Theorem registry_entries_are_live :
  forall (w0 : World) (es : list Rev2.Event),
    onlineUsers w0 = JsMap.empty ->
    dbOutcomes w0 = [] ->
    admissible_run es w0 = true ->
    registry_is_live (Rev2.run es w0) /\
    (forall k v,
       JsMap.get k (onlineUsers (Rev2.run es w0)) = Some v -> v <> "").
Proof.
  intros w0 es Hstart Hdb Hadm.
  assert (H : orderly_registry (Rev2.run es w0)).
  { assert (H0 : orderly_registry w0).
    { split; [exact Hdb|]. split.
      - intros k Hk. rewrite Hstart in Hk. destruct Hk.
      - intros v Hv. rewrite Hstart in Hv. destruct Hv. }
    clear Hstart Hdb. revert w0 H0 Hadm.
    induction es as [|e es IH]; intros w0 H0 Hadm; simpl; [exact H0|].
    simpl in Hadm. apply andb_true_iff in Hadm as [He Hes].
    apply IH; [|exact Hes]. now apply handle_keeps_orderly_registry. }
  destruct H as (_ & Hlive & Hval). split; [exact Hlive|].
  intros k v Hg. apply Hval. now apply get_some_value with k.
Qed.

Lemma registry_entries_are_live_witness :
  let es := [Rev2.declared "s1" "alice"; Rev2.opened "s3";
             Rev2.declared "s3" "alice"; Rev2.closed "s1"] in
  registry_is_live (Rev2.run es server_start) /\
  (forall k v,
     JsMap.get k (onlineUsers (Rev2.run es server_start)) = Some v ->
     v <> "").
Proof.
  apply (registry_entries_are_live server_start
           [Rev2.declared "s1" "alice"; Rev2.opened "s3";
            Rev2.declared "s3" "alice"; Rev2.closed "s1"]); reflexivity.
Defined.

(** ** [split], the upload route and the middleware [authenticate] *)

Lemma split_on_lacks (sep : Ascii.ascii) (s : string) :
  lacks sep s = true -> split_on sep s = [s].
Proof.
  induction s as [|c s IH]; simpl; [reflexivity|].
  destruct (Ascii.eqb c sep); simpl; [discriminate|].
  intros H. now rewrite (IH H).
Qed.

Lemma split_on_app (sep : Ascii.ascii) (a b : string) :
  lacks sep a = true ->
  split_on sep (a ++ String sep b)%string = a :: split_on sep b.
Proof.
  induction a as [|c a IH]; simpl.
  - now rewrite Ascii.eqb_refl.
  - destruct (Ascii.eqb c sep); simpl; [discriminate|].
    intros H. now rewrite (IH H).
Qed.

Lemma split_on_not_nil (sep : Ascii.ascii) (s : string) :
  split_on sep s <> [].
Proof.
  destruct s as [|c s]; simpl; [discriminate|].
  destruct (Ascii.eqb c sep); [discriminate|].
  destruct (split_on sep s); discriminate.
Qed.

(** Joining the pieces of a split with the separator gives the string
    back. *)
Lemma join_split_on (sep : Ascii.ascii) (s : string) :
  join_with sep (split_on sep s) = s.
Proof.
  induction s as [|c s IH]; simpl; [reflexivity|].
  pose proof (split_on_not_nil sep s) as Hnil.
  destruct (split_on sep s) as [|p ps]; [contradiction|].
  destruct (Ascii.eqb c sep) eqn:E.
  - apply Ascii.eqb_eq in E. subst c.
    change (join_with sep ("" :: p :: ps))
      with (String sep (join_with sep (p :: ps))).
    now rewrite IH.
  - destruct ps as [|q qs].
    + simpl in *. now rewrite IH.
    + change (join_with sep (String c p :: q :: qs))
        with (String c (p ++ String sep (join_with sep (q :: qs))))%string.
      change (join_with sep (p :: q :: qs))
        with (p ++ String sep (join_with sep (q :: qs)))%string in IH.
      now rewrite IH.
Qed.

Lemma split_on_pieces_lack (sep : Ascii.ascii) (s : string) :
  Forall (fun piece => lacks sep piece = true) (split_on sep s).
Proof.
  induction s as [|c s IH]; simpl; [now repeat constructor|].
  destruct (Ascii.eqb c sep) eqn:E.
  - now constructor.
  - destruct (split_on sep s) as [|p ps]; [now repeat constructor; simpl; rewrite E|].
    inversion IH; subst. constructor; [|assumption].
    simpl. now rewrite E.
Qed.

(** X20.  [POST /upload] reports the major type of the file: for a file whose
    MIME type is [major/minor] the response is 200 with [type = major] and
    the URL [protocol://host/uploads/filename]; a MIME type without a slash
    is reported whole; the reported type never contains a slash; without a
    file the response is 400 "File upload failed". *)
Theorem post_upload_reports_major_type :
  forall (f : UploadedFile) (protocol host : string),
    (forall major minor,
       file_mimetype f = (major ++ "/" ++ minor)%string ->
       lacks "/" major = true ->
       post_upload (Some f) protocol host =
         mkReply 200
           (JObj [("url", JStr (protocol ++ "://" ++ host ++ "/uploads/"
                                  ++ file_filename f)%string);
                  ("type", JStr major)])) /\
    (lacks "/" (file_mimetype f) = true ->
     post_upload (Some f) protocol host =
       mkReply 200
         (JObj [("url", JStr (protocol ++ "://" ++ host ++ "/uploads/"
                                ++ file_filename f)%string);
                ("type", JStr (file_mimetype f))])) /\
    (exists url type,
       post_upload (Some f) protocol host =
         mkReply 200 (JObj [("url", JStr url); ("type", JStr type)]) /\
       lacks "/" type = true) /\
    post_upload None protocol host =
      mkReply 400 (JObj [("error", JStr "File upload failed")]).
Proof.
  intros f protocol host. unfold post_upload. repeat split.
  - intros major minor Hm Hmajor. rewrite Hm.
    change (major ++ "/" ++ minor)%string
      with (major ++ String "/" minor)%string.
    now rewrite (split_on_app "/" major minor Hmajor).
  - intros H. now rewrite (split_on_lacks "/" _ H).
  - eexists. eexists. split; [reflexivity|].
    pose proof (split_on_pieces_lack "/" (file_mimetype f)) as H.
    destruct (split_on "/" (file_mimetype f)); simpl; [reflexivity|].
    now inversion H.
Qed.

Lemma post_upload_reports_major_type_witness :
  post_upload (Some picture) "http" "localhost:5000" =
    mkReply 200
      (JObj [("url", JStr "http://localhost:5000/uploads/1700000000000.png");
             ("type", JStr "image")]).
Proof.
  apply (proj1 (post_upload_reports_major_type picture "http"
                  "localhost:5000") "image" "png"); reflexivity.
Defined.

Lemma authenticate_with_token (L : Libs) (header token : string)
      (next : Claims -> Accounts.Route Reply) (d : Accounts.Db) :
  nth_error (split_on " " header) 1 = Some token ->
  token <> "" ->
  Accounts.authenticate L (Some header) next d =
  match jwt_verify L token (Accounts.clock d) with
  | Some decoded => next decoded d
  | None =>
      (Return (mkReply 401
                 (Accounts.message_json "Invalid or expired token")), d)
  end.
Proof.
  intros Hn Ht. unfold Accounts.authenticate. rewrite Hn. simpl.
  apply String.eqb_neq in Ht. now rewrite Ht.
Qed.

(** X21.  [authenticate] asks for a second word in the header: without an
    [Authorization] header, or with one that holds no space, or whose second
    word is empty, the request is answered 401 "Token not provided"; neither
    the token check nor the route behind the middleware runs, and the store
    is untouched. *)
Theorem authenticate_needs_token :
  forall (L : Libs) (next : Claims -> Accounts.Route Reply)
         (d : Accounts.Db),
    let refused :=
      (Return (mkReply 401 (Accounts.message_json "Token not provided")), d) in
    Accounts.authenticate L None next d = refused /\
    (forall header,
       lacks " " header = true ->
       Accounts.authenticate L (Some header) next d = refused) /\
    (forall scheme rest,
       lacks " " scheme = true ->
       Accounts.authenticate L (Some (scheme ++ "  " ++ rest)%string) next d
       = refused).
Proof.
  intros L next d refused. subst refused. unfold Accounts.authenticate.
  split; [reflexivity|]. split.
  - intros header H. now rewrite (split_on_lacks " " header H).
  - intros scheme rest H.
    change (scheme ++ "  " ++ rest)%string
      with (scheme ++ String " " (String " " rest))%string.
    rewrite (split_on_app " " scheme _ H). simpl.
    now destruct (split_on " " rest).
Qed.

Lemma authenticate_needs_token_witness :
  Accounts.authenticate toy_libs (Some "tok-alice")
    (fun user => Accounts.update_profile user None (Some "busy") None None)
    two_accounts =
  (Return (mkReply 401 (Accounts.message_json "Token not provided")),
   two_accounts).
Proof.
  apply (proj1 (proj2 (authenticate_needs_token toy_libs
                         (fun user => Accounts.update_profile
                                        user None (Some "busy") None None)
                         two_accounts)) "tok-alice").
  reflexivity.
Defined.

(** X22.  [authenticate] does not look at the first word of the header:
    whatever the scheme, a header [scheme token] with a non-empty token
    without spaces is decided by [jwt.verify] on the token alone; an accepted
    token runs the route with the decoded payload, a refused one is answered
    401 "Invalid or expired token" without touching the store. *)
Theorem authenticate_ignores_scheme :
  forall (L : Libs) (scheme token : string)
         (next : Claims -> Accounts.Route Reply) (d : Accounts.Db),
    lacks " " scheme = true ->
    lacks " " token = true ->
    token <> "" ->
    Accounts.authenticate L (Some (scheme ++ " " ++ token)%string) next d =
    match jwt_verify L token (Accounts.clock d) with
    | Some decoded => next decoded d
    | None =>
        (Return (mkReply 401
                   (Accounts.message_json "Invalid or expired token")), d)
    end.
Proof.
  intros L scheme token next d Hs Ht Hne.
  apply authenticate_with_token; [|exact Hne].
  change (scheme ++ " " ++ token)%string
    with (scheme ++ String " " token)%string.
  rewrite (split_on_app " " scheme token Hs).
  now rewrite (split_on_lacks " " token Ht).
Qed.

Lemma authenticate_ignores_scheme_witness :
  Accounts.authenticate toy_libs (Some "Basic tok-alice")
    (fun user => Accounts.update_profile user None (Some "busy") None None)
    two_accounts =
  Accounts.update_profile (mkClaims 0 "alice") None (Some "busy") None None
    two_accounts.
Proof.
  apply (authenticate_ignores_scheme toy_libs "Basic" "tok-alice"
           (fun user =>
              Accounts.update_profile user None (Some "busy") None None)
           two_accounts); try reflexivity.
  discriminate.
Defined.

(** ** The account routes *)

Create HintDb route discriminated.

#[global] Hint Unfold Accounts.rtry Accounts.rbind Accounts.rret
  Accounts.rthrow Accounts.query Accounts.User_findOne Accounts.hash_password
  Accounts.new_User Accounts.User_save Accounts.User_find
  Accounts.User_findByIdAndUpdate Accounts.reply_of Accounts.db_after
  account_named account_with_id : route.

(** Unfolds a route down to its transformer of the store. *)
Ltac unfold_route := repeat (autounfold with route; cbn beta iota).

Lemma store_accepts_one (d : Accounts.Db) :
  store_accepts 1 d = hd true (Accounts.answers d).
Proof.
  unfold store_accepts. destruct (Accounts.answers d) as [|b bs]; simpl;
    [reflexivity|apply andb_true_r].
Qed.

Lemma not_taken_when_unnamed (a : Accounts.Account)
      (accs : list Accounts.Account) :
  find (fun b => Accounts.acc_username b =? Accounts.acc_username a) accs
    = None ->
  Accounts.name_taken_by_other a accs = false.
Proof.
  unfold Accounts.name_taken_by_other.
  induction accs as [|b accs IH]; simpl; [reflexivity|].
  destruct (Accounts.acc_username b =? Accounts.acc_username a);
    [discriminate|]. simpl. exact IH.
Qed.

Lemma find_app_new (name : string) (a : Accounts.Account)
      (accs : list Accounts.Account) :
  find (fun b => Accounts.acc_username b =? name) accs = None ->
  Accounts.acc_username a = name ->
  find (fun b => Accounts.acc_username b =? name) (accs ++ [a]) = Some a.
Proof.
  intros Hnone Ha. induction accs as [|b accs IH]; simpl in *.
  - now rewrite Ha, String.eqb_refl.
  - destruct (Accounts.acc_username b =? name); [discriminate|]. now apply IH.
Qed.

(** X23.  [POST /signup] with a name that is taken: when the store answers
    the lookup, the route replies 400 "Username already taken." and neither
    adds an account nor changes one; no password is hashed. *)
Theorem signup_refuses_taken_name :
  forall (L : Libs) (d : Accounts.Db) (name password : string)
         (a : Accounts.Account),
    account_named name d = Some a ->
    store_accepts 1 d = true ->
    Accounts.reply_of (Accounts.signup L name password) d =
      Return (mkReply 400 (Accounts.message_json "Username already taken."))
    /\
    Accounts.accounts (Accounts.db_after (Accounts.signup L name password) d)
      = Accounts.accounts d /\
    Accounts.salts (Accounts.db_after (Accounts.signup L name password) d)
      = Accounts.salts d.
Proof.
  intros L d name password a Ha Hdb. rewrite store_accepts_one in Hdb.
  unfold account_named in Ha.
  unfold Accounts.signup. unfold_route. simpl. rewrite Hdb. simpl.
  rewrite Ha. simpl. now repeat split.
Qed.

Lemma signup_refuses_taken_name_witness :
  Accounts.reply_of (Accounts.signup toy_libs "bob" "other") two_accounts =
    Return (mkReply 400 (Accounts.message_json "Username already taken."))
  /\
  Accounts.accounts
    (Accounts.db_after (Accounts.signup toy_libs "bob" "other") two_accounts)
    = Accounts.accounts two_accounts /\
  Accounts.salts
    (Accounts.db_after (Accounts.signup toy_libs "bob" "other") two_accounts)
    = [].
Proof.
  apply (signup_refuses_taken_name toy_libs two_accounts "bob" "other"
           (Accounts.mkAccount 1 "bob" "hhunter2" "online" "" ""));
    reflexivity.
Defined.

(** X24.  Signing up, then logging in: for a free, non-empty name, with a
    store that accepts the three operations and a bcrypt whose [compare]
    accepts the password against the hash [hash] made of it, [POST /signup]
    replies 201 and appends one account that holds the hash, not the
    password, with status "offline"; [POST /login] with the same name and
    password then replies 200 with the token signed for the new account's
    identifier and name. *)
Theorem signup_then_login :
  forall (L : Libs) (d : Accounts.Db) (name password : string),
    let hashed := bcrypt_hash L (hd 0 (Accounts.salts d)) password in
    let account :=
      Accounts.mkAccount (Accounts.fresh d) name hashed "offline" "" "" in
    account_named name d = None ->
    name <> "" ->
    hashed <> "" ->
    bcrypt_compare L password hashed = true ->
    store_accepts 3 d = true ->
    let d1 := Accounts.db_after (Accounts.signup L name password) d in
    Accounts.reply_of (Accounts.signup L name password) d =
      Return (mkReply 201 (Accounts.message_json "Signup successful!")) /\
    Accounts.accounts d1 = Accounts.accounts d ++ [account] /\
    Accounts.reply_of (Accounts.login L name password) d1 =
      Return (mkReply 200
                (JObj [("message", JStr "Login successful!");
                       ("token",
                        JStr (jwt_sign L (mkClaims (Accounts.fresh d) name)
                                       (Accounts.clock d)))])) /\
    Accounts.accounts (Accounts.db_after (Accounts.login L name password) d1)
      = Accounts.accounts d1.
Proof.
  intros L d name password hashed account Hfree Hname Hhash Hcmp Hdb d1.
  unfold account_named in Hfree.
  unfold store_accepts in Hdb.
  assert (Hsignup :
            Accounts.signup L name password d =
            (Return (mkReply 201
                       (Accounts.message_json "Signup successful!")),
             Accounts.mkDb (Accounts.accounts d ++ [account])
                           (S (Accounts.fresh d)) (Accounts.clock d)
                           (tl (Accounts.salts d))
                           (tl (tl (Accounts.answers d))))).
  { unfold Accounts.signup. unfold_route. simpl.
    apply String.eqb_neq in Hname, Hhash.
    assert (Htaken : Accounts.name_taken_by_other account (Accounts.accounts d)
                     = false) by now apply not_taken_when_unnamed.
    destruct (Accounts.answers d) as [|b1 [|b2 bs]]; simpl in *.
    - rewrite Hfree. simpl. fold hashed. rewrite Hname, Hhash. simpl.
      fold account. now rewrite Htaken.
    - rewrite andb_true_r in Hdb. subst b1. simpl.
      rewrite Hfree. simpl. fold hashed. rewrite Hname, Hhash. simpl.
      fold account. now rewrite Htaken.
    - apply andb_true_iff in Hdb as [-> Hdb].
      apply andb_true_iff in Hdb as [-> _]. simpl.
      rewrite Hfree. simpl. fold hashed. rewrite Hname, Hhash. simpl.
      fold account. now rewrite Htaken. }
  assert (Hd1 : d1 = snd (Accounts.signup L name password d)) by reflexivity.
  rewrite Hsignup in Hd1. simpl in Hd1.
  split; [unfold Accounts.reply_of; now rewrite Hsignup|].
  split; [now rewrite Hd1|].
  assert (Hthird : hd true (Accounts.answers d1) = true).
  { rewrite Hd1. simpl.
    destruct (Accounts.answers d) as [|b1 [|b2 [|b3 bs]]]; simpl in *; auto.
    apply andb_true_iff in Hdb as [_ Hdb].
    apply andb_true_iff in Hdb as [_ Hdb].
    now apply andb_true_iff in Hdb as [-> _]. }
  assert (Hfound : find (fun b => Accounts.acc_username b =? name)
                        (Accounts.accounts d1) = Some account).
  { rewrite Hd1. simpl. now apply find_app_new. }
  unfold Accounts.login. unfold_route. simpl. rewrite Hthird. simpl.
  rewrite Hfound. simpl. rewrite Hcmp. simpl.
  split; [now rewrite Hd1|reflexivity].
Qed.

Lemma signup_then_login_witness :
  let d1 := Accounts.db_after (Accounts.signup toy_libs "carol" "pw")
                              two_accounts in
  Accounts.reply_of (Accounts.signup toy_libs "carol" "pw") two_accounts =
    Return (mkReply 201 (Accounts.message_json "Signup successful!")) /\
  Accounts.accounts d1 =
    Accounts.accounts two_accounts
      ++ [Accounts.mkAccount 2 "carol" "hpw" "offline" "" ""] /\
  Accounts.reply_of (Accounts.login toy_libs "carol" "pw") d1 =
    Return (mkReply 200
              (JObj [("message", JStr "Login successful!");
                     ("token", JStr "tok-carol")])) /\
  Accounts.accounts (Accounts.db_after (Accounts.login toy_libs "carol" "pw")
                                       d1)
    = Accounts.accounts d1.
Proof.
  apply (signup_then_login toy_libs two_accounts "carol" "pw");
    try reflexivity; discriminate.
Defined.

(** X25.  [POST /login] only reads, and a 200 needs a matching hash: in
    every store and whatever the store answers, the route replies without
    throwing and leaves the accounts as they are; a reply 200 is given only
    when an account of that name exists whose stored hash bcrypt accepts for
    the password; when the store answers, an unknown name gets 404 "User not
    found." and a refused password 401 "Invalid credentials.". *)
Theorem login_needs_matching_hash :
  forall (L : Libs) (d : Accounts.Db) (name password : string),
    Accounts.accounts (Accounts.db_after (Accounts.login L name password) d)
      = Accounts.accounts d /\
    exists reply,
      Accounts.reply_of (Accounts.login L name password) d = Return reply /\
      (reply_status reply = 200 ->
       exists a,
         account_named name d = Some a /\
         bcrypt_compare L password (Accounts.acc_password a) = true) /\
      (store_accepts 1 d = true ->
       account_named name d = None ->
       reply = mkReply 404 (Accounts.message_json "User not found.")) /\
      (store_accepts 1 d = true ->
       forall a,
         account_named name d = Some a ->
         bcrypt_compare L password (Accounts.acc_password a) = false ->
         reply = mkReply 401 (Accounts.message_json "Invalid credentials.")).
Proof.
  intros L d name password. rewrite store_accepts_one.
  unfold Accounts.login. unfold_route. simpl.
  destruct (hd true (Accounts.answers d)); simpl.
  - destruct (find _ (Accounts.accounts d)) as [a|] eqn:Hf; simpl.
    + destruct (bcrypt_compare L password (Accounts.acc_password a)) eqn:Hc;
        simpl; (split; [reflexivity|]); eexists; (split; [reflexivity|]).
      * split; [intros _; now exists a|]. split; [discriminate|].
        intros _ a' [= <-]. congruence.
      * split; [discriminate|]. split; [discriminate|]. reflexivity.
    + split; [reflexivity|]. eexists. split; [reflexivity|].
      split; [discriminate|]. split; [reflexivity|]. discriminate.
  - split; [reflexivity|]. eexists. split; [reflexivity|].
    repeat split; discriminate.
Qed.

Lemma login_needs_matching_hash_witness :
  Accounts.reply_of (Accounts.login toy_libs "bob" "guess") two_accounts =
    Return (mkReply 401 (Accounts.message_json "Invalid credentials.")) /\
  Accounts.reply_of (Accounts.login toy_libs "zed" "guess") two_accounts =
    Return (mkReply 404 (Accounts.message_json "User not found.")).
Proof.
  split.
  - destruct (login_needs_matching_hash toy_libs two_accounts "bob" "guess")
      as (_ & reply & Hr & _ & _ & Hwrong).
    rewrite Hr. f_equal.
    apply (Hwrong eq_refl
             (Accounts.mkAccount 1 "bob" "hhunter2" "online" "" ""));
      reflexivity.
  - destruct (login_needs_matching_hash toy_libs two_accounts "zed" "guess")
      as (_ & reply & Hr & _ & Hunknown & _).
    rewrite Hr. f_equal. apply Hunknown; reflexivity.
Defined.

(** X27.  [GET /users] lists every account with its password hash: when the
    store answers, the route, which sits behind no [authenticate], replies
    200 with one object per stored account, and the object of an account
    carries its name and its stored password hash; the accounts are not
    changed. *)
Theorem get_users_lists_password_hashes :
  forall (d : Accounts.Db),
    store_accepts 1 d = true ->
    exists items,
      Accounts.reply_of Accounts.get_users d =
        Return (mkReply 200 (JArr items)) /\
      List.length items = List.length (Accounts.accounts d) /\
      (forall a,
         In a (Accounts.accounts d) ->
         exists fields,
           In (JObj fields) items /\
           In ("username", JStr (Accounts.acc_username a)) fields /\
           In ("password", JStr (Accounts.acc_password a)) fields) /\
      Accounts.accounts (Accounts.db_after Accounts.get_users d) =
        Accounts.accounts d.
Proof.
  intros d Hdb. rewrite store_accepts_one in Hdb.
  exists (map Accounts.account_json (Accounts.accounts d)).
  unfold Accounts.get_users. unfold_route. simpl. rewrite Hdb. simpl.
  split; [reflexivity|]. split; [apply length_map|]. split; [|reflexivity].
  intros a Ha. eexists. split.
  - apply in_map with (f := Accounts.account_json). exact Ha.
  - simpl. tauto.
Qed.

Lemma get_users_lists_password_hashes_witness :
  exists items,
    Accounts.reply_of Accounts.get_users two_accounts =
      Return (mkReply 200 (JArr items)) /\
    List.length items = 2 /\
    (forall a,
       In a (Accounts.accounts two_accounts) ->
       exists fields,
         In (JObj fields) items /\
         In ("username", JStr (Accounts.acc_username a)) fields /\
         In ("password", JStr (Accounts.acc_password a)) fields) /\
    Accounts.accounts (Accounts.db_after Accounts.get_users two_accounts) =
      Accounts.accounts two_accounts.
Proof.
  apply (get_users_lists_password_hashes two_accounts). reflexivity.
Defined.

(** The outcome of the handler of [PUT /update-profile], when the store
    answers. *)
Lemma update_profile_answered (user : Claims)
      (b_username b_status b_mobileNumber : JsString)
      (file : option UploadedFile) (d : Accounts.Db) :
  hd true (Accounts.answers d) = true ->
  let u := {| Accounts.upd_username := Accounts.when_truthy b_username;
              Accounts.upd_status := Accounts.when_truthy b_status;
              Accounts.upd_mobileNumber := Accounts.when_truthy b_mobileNumber;
              Accounts.upd_profileImage :=
                match file with
                | Some f => Some (file_path f)
                | None => None
                end |} in
  let d1 := Accounts.mkDb (Accounts.accounts d) (Accounts.fresh d)
                          (Accounts.clock d) (Accounts.salts d)
                          (tl (Accounts.answers d)) in
  Accounts.update_profile user b_username b_status b_mobileNumber file d =
  match account_with_id (claim_id user) d with
  | None =>
      (Return (mkReply 404 (Accounts.message_json "User not found")), d1)
  | Some a =>
      if Accounts.name_taken_by_other (Accounts.apply_update u a)
                                      (Accounts.accounts d)
      then (Return (mkReply 500
                      (Accounts.failure_json "Failed to update profile"
                                             MongoError)), d1)
      else (Return (mkReply 200
                      (JObj [("message", JStr "Profile updated successfully");
                             ("user",
                              Accounts.account_json_without_password
                                (Accounts.apply_update u a))])),
            Accounts.mkDb
              (Accounts.replace_account (Accounts.apply_update u a)
                                        (Accounts.accounts d))
              (Accounts.fresh d) (Accounts.clock d) (Accounts.salts d)
              (tl (Accounts.answers d)))
  end.
Proof.
  intros Hdb u d1. subst u d1.
  unfold Accounts.update_profile. unfold_route. simpl. rewrite Hdb. simpl.
  destruct (find _ (Accounts.accounts d)) as [a|]; simpl; [|reflexivity].
  now destruct (Accounts.name_taken_by_other _ _).
Qed.

(** X28.  [PUT /update-profile] changes only what is supplied: for the
    account of the token's identifier, when the store answers and no other
    account holds the name the account is to carry, the reply is 200 with the
    updated account without its [password] key; the stored password and
    identifier are kept; a field of the body that is missing or empty leaves
    the stored field as it was, so no field can be cleared, and a supplied
    one replaces it; the picture is replaced only by an uploaded file. *)
Theorem update_profile_changes_supplied_fields :
  forall (user : Claims) (b_username b_status b_mobileNumber : JsString)
         (file : option UploadedFile) (d : Accounts.Db)
         (a : Accounts.Account),
    account_with_id (claim_id user) d = Some a ->
    store_accepts 1 d = true ->
    (forall b, In b (Accounts.accounts d) ->
               Some (Accounts.acc_username b) =
                 (if truthy b_username then b_username
                  else Some (Accounts.acc_username a)) ->
               Accounts.acc_id b = Accounts.acc_id a) ->
    let route :=
      Accounts.update_profile user b_username b_status b_mobileNumber file in
    exists a',
      Accounts.reply_of route d =
        Return (mkReply 200
                  (JObj [("message", JStr "Profile updated successfully");
                         ("user",
                          Accounts.account_json_without_password a')])) /\
      has_key "password" (Accounts.account_json_without_password a') = false /\
      Accounts.accounts (Accounts.db_after route d) =
        Accounts.replace_account a' (Accounts.accounts d) /\
      Accounts.acc_id a' = Accounts.acc_id a /\
      Accounts.acc_password a' = Accounts.acc_password a /\
      Some (Accounts.acc_username a') =
        (if truthy b_username then b_username
         else Some (Accounts.acc_username a)) /\
      Some (Accounts.acc_status a') =
        (if truthy b_status then b_status
         else Some (Accounts.acc_status a)) /\
      Some (Accounts.acc_mobileNumber a') =
        (if truthy b_mobileNumber then b_mobileNumber
         else Some (Accounts.acc_mobileNumber a)) /\
      Accounts.acc_profileImage a' =
        match file with
        | Some f => file_path f
        | None => Accounts.acc_profileImage a
        end.
Proof.
  intros user b_username b_status b_mobileNumber file d a Ha Hdb Hfree route.
  subst route. rewrite store_accepts_one in Hdb.
  unfold Accounts.reply_of, Accounts.db_after.
  rewrite (update_profile_answered user _ _ _ file d Hdb), Ha.
  set (u := Accounts.mkUpdateData _ _ _ _).
  assert (Hfield : forall (old : string) (v : JsString),
            Some (or_default old (Accounts.when_truthy v)) =
            (if truthy v then v else Some old)).
  { intros old v. unfold Accounts.when_truthy.
    destruct v as [n|]; simpl; [|reflexivity]. now destruct (n =? ""). }
  assert (Htaken : Accounts.name_taken_by_other (Accounts.apply_update u a)
                                                (Accounts.accounts d) = false).
  { unfold Accounts.name_taken_by_other.
    apply not_true_is_false. intros H.
    apply existsb_exists in H as (b & Hb & Hc).
    apply andb_true_iff in Hc as [Hn Hi].
    apply String.eqb_eq in Hn. apply negb_true_iff, Nat.eqb_neq in Hi.
    apply Hi. simpl. apply Hfree; [exact Hb|].
    rewrite Hn. simpl. apply Hfield. }
  rewrite Htaken. simpl.
  exists (Accounts.apply_update u a).
  split; [reflexivity|]. split; [reflexivity|]. split; [reflexivity|].
  split; [reflexivity|]. split; [reflexivity|].
  split; [apply Hfield|]. split; [apply Hfield|]. split; [apply Hfield|].
  simpl. now destruct file.
Qed.

Lemma update_profile_changes_supplied_fields_witness :
  let route :=
    Accounts.update_profile (mkClaims 0 "alice") (Some "") (Some "busy") None
                            (Some picture) in
  exists a',
    Accounts.reply_of route two_accounts =
      Return (mkReply 200
                (JObj [("message", JStr "Profile updated successfully");
                       ("user",
                        Accounts.account_json_without_password a')])) /\
    has_key "password" (Accounts.account_json_without_password a') = false /\
    Accounts.accounts (Accounts.db_after route two_accounts) =
      Accounts.replace_account a' (Accounts.accounts two_accounts) /\
    Accounts.acc_id a' = 0 /\
    Accounts.acc_password a' = "hsecret" /\
    Some (Accounts.acc_username a') = Some "alice" /\
    Some (Accounts.acc_status a') = Some "busy" /\
    Some (Accounts.acc_mobileNumber a') = Some "555" /\
    Accounts.acc_profileImage a' = "uploads/1700000000000.png".
Proof.
  apply (update_profile_changes_supplied_fields
           (mkClaims 0 "alice") (Some "") (Some "busy") None (Some picture)
           two_accounts
           (Accounts.mkAccount 0 "alice" "hsecret" "offline" "555" ""));
    try reflexivity.
  intros b [<- | [<- | []]]; [reflexivity|discriminate].
Defined.

(** X29.  [PUT /update-profile] fails without a trace in the store: when the
    store answers, a token whose identifier matches no account gets 404 "User
    not found", and a new name that another account already holds gets 500
    "Failed to update profile"; in both cases no account is changed. *)
Theorem update_profile_failures_change_nothing :
  forall (user : Claims) (b_username b_status b_mobileNumber : JsString)
         (file : option UploadedFile) (d : Accounts.Db),
    store_accepts 1 d = true ->
    let route :=
      Accounts.update_profile user b_username b_status b_mobileNumber file in
    (account_with_id (claim_id user) d = None ->
     Accounts.reply_of route d =
       Return (mkReply 404 (Accounts.message_json "User not found")) /\
     Accounts.accounts (Accounts.db_after route d) = Accounts.accounts d) /\
    (forall a b name,
       account_with_id (claim_id user) d = Some a ->
       b_username = Some name -> name <> "" ->
       In b (Accounts.accounts d) ->
       Accounts.acc_username b = name ->
       Accounts.acc_id b <> Accounts.acc_id a ->
       Accounts.reply_of route d =
         Return (mkReply 500
                   (Accounts.failure_json "Failed to update profile"
                                          MongoError)) /\
       Accounts.accounts (Accounts.db_after route d) = Accounts.accounts d).
Proof.
  intros user b_username b_status b_mobileNumber file d Hdb route.
  subst route. rewrite store_accepts_one in Hdb.
  unfold Accounts.reply_of, Accounts.db_after.
  rewrite (update_profile_answered user _ _ _ file d Hdb). split.
  - intros ->. now split.
  - intros a b name -> -> Hname Hb Hbn Hid.
    set (u := Accounts.mkUpdateData _ _ _ _).
    assert (Htaken : Accounts.name_taken_by_other (Accounts.apply_update u a)
                                                  (Accounts.accounts d) = true).
    { unfold Accounts.name_taken_by_other.
      apply existsb_exists. exists b. split; [exact Hb|].
      apply andb_true_iff. split.
      - apply String.eqb_eq. rewrite Hbn. unfold u, Accounts.when_truthy.
        simpl. apply String.eqb_neq in Hname. now rewrite Hname.
      - apply negb_true_iff, Nat.eqb_neq. exact Hid. }
    rewrite Htaken. now split.
Qed.

Lemma update_profile_failures_change_nothing_witness :
  (Accounts.reply_of
     (Accounts.update_profile (mkClaims 7 "ghost") None (Some "busy") None
                              None) two_accounts =
     Return (mkReply 404 (Accounts.message_json "User not found"))) /\
  (Accounts.reply_of
     (Accounts.update_profile (mkClaims 0 "alice") (Some "bob") None None
                              None) two_accounts =
     Return (mkReply 500
               (Accounts.failure_json "Failed to update profile"
                                      MongoError)) /\
   Accounts.accounts
     (Accounts.db_after
        (Accounts.update_profile (mkClaims 0 "alice") (Some "bob") None None
                                 None) two_accounts) =
     Accounts.accounts two_accounts).
Proof.
  split.
  - apply (proj1 (update_profile_failures_change_nothing
                    (mkClaims 7 "ghost") None (Some "busy") None None
                    two_accounts eq_refl)).
    reflexivity.
  - apply (proj2 (update_profile_failures_change_nothing
                    (mkClaims 0 "alice") (Some "bob") None None None
                    two_accounts eq_refl)
             (Accounts.mkAccount 0 "alice" "hsecret" "offline" "555" "")
             (Accounts.mkAccount 1 "bob" "hhunter2" "online" "" "")
             "bob"); try reflexivity; try discriminate.
    simpl. tauto.
Defined.

(** ** Names and identifiers of the accounts stay distinct *)

Lemma unnamed_not_in (name : string) (accs : list Accounts.Account) :
  find (fun b => Accounts.acc_username b =? name) accs = None ->
  ~ In name (map Accounts.acc_username accs).
Proof.
  induction accs as [|b accs IH]; simpl; [tauto|].
  destruct (Accounts.acc_username b =? name) eqn:E; [discriminate|].
  apply String.eqb_neq in E. intros H [Hb | Hin]; [contradiction|].
  now apply IH.
Qed.

Lemma NoDup_snoc (A : Type) (l : list A) (x : A) :
  NoDup l -> ~ In x l -> NoDup (l ++ [x]).
Proof.
  intros Hl Hx. induction Hl as [|y l Hy Hl IH]; simpl.
  - constructor; [intros []|constructor].
  - constructor.
    + intros Hin. apply in_app_or in Hin as [Hin | [-> | []]];
        [contradiction|]. apply Hx. now left.
    + apply IH. intros Hin. apply Hx. now right.
Qed.

Lemma login_store (L : Libs) (d : Accounts.Db) (name password : string) :
  let d' := Accounts.db_after (Accounts.login L name password) d in
  Accounts.accounts d' = Accounts.accounts d /\
  Accounts.fresh d' = Accounts.fresh d.
Proof.
  unfold Accounts.login. unfold_route. simpl.
  destruct (hd true (Accounts.answers d)); simpl; [|now split].
  destruct (find _ (Accounts.accounts d)) as [a|]; simpl; [|now split].
  now destruct (bcrypt_compare L password (Accounts.acc_password a)).
Qed.

Lemma signup_store (L : Libs) (d : Accounts.Db) (name password : string) :
  let d' := Accounts.db_after (Accounts.signup L name password) d in
  (Accounts.accounts d' = Accounts.accounts d /\
   Accounts.fresh d <= Accounts.fresh d') \/
  (exists a,
     Accounts.accounts d' = Accounts.accounts d ++ [a] /\
     Accounts.acc_id a = Accounts.fresh d /\
     Accounts.acc_username a = name /\
     Accounts.fresh d' = S (Accounts.fresh d) /\
     account_named name d = None).
Proof.
  unfold Accounts.signup. unfold_route. simpl.
  destruct (hd true (Accounts.answers d)); simpl; [|left; split; auto].
  destruct (find _ (Accounts.accounts d)) eqn:Hf; simpl;
    [left; split; auto|].
  destruct (name =? ""); simpl; [left; split; auto|].
  destruct (bcrypt_hash L _ password =? ""); simpl; [left; split; auto|].
  destruct (hd true (tl (Accounts.answers d))); simpl; [|left; split; auto].
  destruct (Accounts.name_taken_by_other _ _); simpl; [left; split; auto|].
  right. eexists. repeat split.
Qed.

Lemma update_profile_store (user : Claims)
      (b_username b_status b_mobileNumber : JsString)
      (file : option UploadedFile) (d : Accounts.Db) :
  let d' := Accounts.db_after
              (Accounts.update_profile user b_username b_status
                                       b_mobileNumber file) d in
  Accounts.fresh d' = Accounts.fresh d /\
  (Accounts.accounts d' = Accounts.accounts d \/
   exists a a',
     account_with_id (claim_id user) d = Some a /\
     Accounts.acc_id a' = Accounts.acc_id a /\
     Accounts.name_taken_by_other a' (Accounts.accounts d) = false /\
     Accounts.accounts d' = Accounts.replace_account a' (Accounts.accounts d)).
Proof.
  unfold Accounts.update_profile. unfold_route. simpl.
  destruct (hd true (Accounts.answers d)); simpl; [|split; auto].
  destruct (find _ (Accounts.accounts d)) as [a|] eqn:Hf; simpl;
    [|split; auto].
  destruct (Accounts.name_taken_by_other _ _) eqn:Ht; simpl; [split; auto|].
  split; [reflexivity|]. right. exists a. eexists.
  split; [reflexivity|]. split; [|split; [exact Ht|reflexivity]].
  reflexivity.
Qed.

Lemma not_taken_spec (a : Accounts.Account) (accs : list Accounts.Account) :
  Accounts.name_taken_by_other a accs = false ->
  forall b, In b accs ->
            Accounts.acc_username b = Accounts.acc_username a ->
            Accounts.acc_id b = Accounts.acc_id a.
Proof.
  unfold Accounts.name_taken_by_other. intros H b Hb Hn.
  destruct (Nat.eq_dec (Accounts.acc_id b) (Accounts.acc_id a)) as [|Hne];
    [assumption|].
  exfalso. apply not_true_iff_false in H. apply H.
  apply existsb_exists. exists b. split; [exact Hb|].
  apply andb_true_iff. split.
  - now apply String.eqb_eq.
  - now apply negb_true_iff, Nat.eqb_neq.
Qed.

Lemma replace_account_ids (a' : Accounts.Account)
      (accs : list Accounts.Account) :
  map Accounts.acc_id (Accounts.replace_account a' accs) =
  map Accounts.acc_id accs.
Proof.
  induction accs as [|x accs IH]; simpl; [reflexivity|].
  destruct (Accounts.acc_id x =? Accounts.acc_id a')%nat eqn:E; simpl.
  - apply Nat.eqb_eq in E. now rewrite E.
  - now rewrite IH.
Qed.

Lemma replace_account_names (a' : Accounts.Account)
      (accs : list Accounts.Account) (n : string) :
  In n (map Accounts.acc_username (Accounts.replace_account a' accs)) ->
  n = Accounts.acc_username a' \/ In n (map Accounts.acc_username accs).
Proof.
  induction accs as [|x accs IH]; simpl; [tauto|].
  destruct (Accounts.acc_id x =? Accounts.acc_id a')%nat; simpl.
  - intros [<- | H]; tauto.
  - intros [<- | H]; [tauto|]. destruct (IH H); tauto.
Qed.

Lemma replace_account_keeps_names_distinct (a' : Accounts.Account)
      (accs : list Accounts.Account) :
  NoDup (map Accounts.acc_username accs) ->
  NoDup (map Accounts.acc_id accs) ->
  (forall b, In b accs ->
             Accounts.acc_username b = Accounts.acc_username a' ->
             Accounts.acc_id b = Accounts.acc_id a') ->
  NoDup (map Accounts.acc_username (Accounts.replace_account a' accs)).
Proof.
  induction accs as [|x accs IH]; simpl; intros Hn Hi Hfree; [constructor|].
  inversion Hn as [|? ? Hxn Hn']; subst.
  inversion Hi as [|? ? Hxi Hi']; subst.
  destruct (Accounts.acc_id x =? Accounts.acc_id a')%nat eqn:E; simpl.
  - apply Nat.eqb_eq in E. constructor; [|exact Hn'].
    intros Hin. apply in_map_iff in Hin as (b & Hb & Hin).
    apply Hxi. rewrite E, <- (Hfree b (or_intror Hin) Hb).
    now apply in_map.
  - apply Nat.eqb_neq in E. constructor.
    + intros Hin. apply replace_account_names in Hin as [Hin | Hin];
        [|contradiction].
      apply E. apply Hfree; [now left|exact Hin].
    + apply IH; auto.
Qed.

Lemma route_keeps_accounts_distinct (L : Libs) (r : Request)
      (d : Accounts.Db) :
  distinct_accounts d ->
  distinct_accounts (Accounts.db_after (serve L r) d).
Proof.
  intros (Hn & Hi & Hf).
  destruct r as [name password | name password |
                 | authorization b_username b_status b_mobileNumber file];
    simpl.
  - destruct (signup_store L d name password)
      as [[Ha Hfr] | (a & Ha & Hid & Hname & Hfr & Hnone)];
      unfold distinct_accounts; rewrite Ha.
    + split; [exact Hn|]. split; [exact Hi|].
      eapply Forall_impl; [|exact Hf]. intros id Hid. simpl in Hid. lia.
    + rewrite !map_app. simpl. rewrite Hid, Hname, Hfr. split.
      * apply NoDup_snoc; [exact Hn|]. now apply unnamed_not_in.
      * split.
        -- apply NoDup_snoc; [exact Hi|]. intros Hin.
           rewrite Forall_forall in Hf. specialize (Hf _ Hin). lia.
        -- apply Forall_app. split.
           ++ eapply Forall_impl; [|exact Hf]. intros id H. simpl in H. lia.
           ++ constructor; [lia|constructor].
  - destruct (login_store L d name password) as [Ha Hfr].
    unfold distinct_accounts. rewrite Ha, Hfr. now repeat split.
  - unfold distinct_accounts, Accounts.get_users. unfold_route. simpl.
    destruct (hd true (Accounts.answers d)); simpl; now repeat split.
  - unfold Accounts.put_update_profile, Accounts.authenticate,
      Accounts.db_after.
    destruct (negb (truthy _)); [now repeat split|].
    destruct (jwt_verify L _ _) as [user|]; [|now repeat split].
    destruct (update_profile_store user b_username b_status b_mobileNumber
                                   file d)
      as [Hfr [Ha | (a & a' & Hfind & Hid & Htaken & Ha)]];
      unfold Accounts.db_after in Hfr, Ha;
      unfold distinct_accounts; rewrite Hfr, Ha.
    + now repeat split.
    + rewrite replace_account_ids. split; [|now split].
      apply replace_account_keeps_names_distinct; auto.
      now apply not_taken_spec.
Qed.

(** X26.  No two accounts ever share a name or an identifier: starting from
    accounts with pairwise distinct names and identifiers, after any
    sequence of signup, login, listing and profile-update requests, whatever
    the store answers and whatever bcrypt and jsonwebtoken compute, the
    names are pairwise distinct and so are the identifiers. *)
Theorem accounts_stay_distinct :
  forall (L : Libs) (rs : list Request) (d : Accounts.Db),
    distinct_accounts d ->
    NoDup (map Accounts.acc_username (Accounts.accounts (serve_all L rs d))) /\
    NoDup (map Accounts.acc_id (Accounts.accounts (serve_all L rs d))).
Proof.
  intros L rs d H.
  assert (Hall : distinct_accounts (serve_all L rs d)).
  { revert d H. induction rs as [|r rs IH]; intros d H; simpl; [exact H|].
    apply IH. now apply route_keeps_accounts_distinct. }
  destruct Hall as (Hn & Hi & _). now split.
Qed.

Lemma accounts_stay_distinct_witness :
  let rs := [Signup "carol" "pw"; Signup "bob" "again";
             UpdateProfile (Some "Bearer tok-alice") (Some "carol") None None
                           None;
             UpdateProfile (Some "Bearer tok-alice") (Some "dave") None None
                           None;
             Login "dave" "secret"; ListUsers] in
  NoDup (map Accounts.acc_username
             (Accounts.accounts (serve_all toy_libs rs two_accounts))) /\
  NoDup (map Accounts.acc_id
             (Accounts.accounts (serve_all toy_libs rs two_accounts))).
Proof.
  apply (accounts_stay_distinct toy_libs
           [Signup "carol" "pw"; Signup "bob" "again";
            UpdateProfile (Some "Bearer tok-alice") (Some "carol") None None
                          None;
            UpdateProfile (Some "Bearer tok-alice") (Some "dave") None None
                          None;
            Login "dave" "secret"; ListUsers] two_accounts).
  split; [|split].
  - repeat constructor; simpl; intuition discriminate.
  - repeat constructor; simpl; intuition discriminate.
  - repeat constructor.
Defined.

(** X30.  The account routes when the store does not answer: a rejected
    lookup makes [POST /signup] reply 500 "Signup failed", [POST /login] 500
    "Login failed" and [GET /users] 500 "Failed to fetch users", each with
    the store's error; no account is added or changed, and signup draws no
    salt. *)
Theorem account_routes_report_store_failure :
  forall (L : Libs) (d : Accounts.Db) (name password : string),
    store_accepts 1 d = false ->
    (Accounts.reply_of (Accounts.signup L name password) d =
       Return (mkReply 500 (Accounts.failure_json "Signup failed" MongoError))
     /\
     Accounts.accounts (Accounts.db_after (Accounts.signup L name password) d)
       = Accounts.accounts d /\
     Accounts.salts (Accounts.db_after (Accounts.signup L name password) d)
       = Accounts.salts d) /\
    (Accounts.reply_of (Accounts.login L name password) d =
       Return (mkReply 500 (Accounts.failure_json "Login failed" MongoError))
     /\
     Accounts.accounts (Accounts.db_after (Accounts.login L name password) d)
       = Accounts.accounts d) /\
    (Accounts.reply_of Accounts.get_users d =
       Return (mkReply 500
                 (Accounts.failure_json "Failed to fetch users" MongoError))
     /\
     Accounts.accounts (Accounts.db_after Accounts.get_users d)
       = Accounts.accounts d).
Proof.
  intros L d name password Hdb. rewrite store_accepts_one in Hdb.
  unfold Accounts.signup, Accounts.login, Accounts.get_users.
  unfold_route. simpl. rewrite Hdb. simpl. now repeat split.
Qed.

Lemma account_routes_report_store_failure_witness :
  Accounts.reply_of (Accounts.signup toy_libs "carol" "pw") two_accounts_down
    = Return (mkReply 500
                (Accounts.failure_json "Signup failed" MongoError)) /\
  Accounts.reply_of (Accounts.login toy_libs "alice" "secret")
                    two_accounts_down
    = Return (mkReply 500 (Accounts.failure_json "Login failed" MongoError)) /\
  Accounts.reply_of Accounts.get_users two_accounts_down
    = Return (mkReply 500
                (Accounts.failure_json "Failed to fetch users" MongoError)).
Proof.
  destruct (account_routes_report_store_failure toy_libs two_accounts_down
              "carol" "pw" eq_refl) as ((Hs & _) & _ & (Hu & _)).
  destruct (account_routes_report_store_failure toy_libs two_accounts_down
              "alice" "secret" eq_refl) as (_ & (Hl & _) & _).
  now repeat split.
Defined.
